(** * sslkeylog: an interposition shim that records TLS secrets

    A shallow embedding of [src/sslkeylog.c] and the properties of its
    specification.  The shim is loaded ahead of OpenSSL; it resolves the real
    entry points with the dynamic linker, and either registers a key-log
    callback (OpenSSL 1.1.1 and later) or compares the session master key
    before and after each handshake call (OpenSSL 1.1.0).

    The embedding threads one explicit process state, [World], through every
    function: the shim's static variables, the part of the kernel the shim
    talks to (environment, descriptor table, files, exit handlers), the opaque
    state of the real library, and the log of calls that left the shim. *)

From Stdlib Require Import String Ascii.
From Stdlib Require Import List ZArith NArith Lia Bool Arith PeanoNat.
From Stdlib Require Import Strings.Byte.
Import ListNotations.

Set Implicit Arguments.

(** ** Bytes, buffers and the C library functions the shim uses *)

Definition byte_to_Z (c : byte) : Z := Z.of_N (Byte.to_N c).

(** [memcmp(s1, s2, n)]: the first [n] bytes are compared as [unsigned char];
    the sign of the result is that of the first differing pair.  Reading past
    the end of either array is undefined: [None]. *)
Fixpoint memcmp (s1 s2 : list byte) (n : nat) {struct n} : option Z :=
  match n with
  | O => Some 0%Z
  | S n' =>
      match s1, s2 with
      | c1 :: t1, c2 :: t2 =>
          if Byte.eqb c1 c2 then memcmp t1 t2 n'
          else Some (byte_to_Z c1 - byte_to_Z c2)%Z
      | _, _ => None
      end
  end.

(** A store of [bs] at offset [p] of a fixed-size array; out of bounds is
    undefined: [None]. *)
Definition store (buf : list byte) (p : nat) (bs : list byte) : option (list byte) :=
  if p + length bs <=? length buf
  then Some (firstn p buf ++ bs ++ skipn (p + length bs) buf)
  else None.

(** The digits of the [x] conversion of [printf]. *)
Definition hexdigit (d : N) : byte :=
  nth (N.to_nat d) (list_byte_of_string "0123456789abcdef"%string) x00.

(** [sprintf(p, "%02x", v)] for an [unsigned char v]: two digits and the
    terminating NUL. *)
Definition sprintf_02x (v : byte) : list byte :=
  [hexdigit (Byte.to_N v / 16); hexdigit (Byte.to_N v mod 16); x00].

(** ** Constants *)

(** Modelled from the spec: the macro [SSL3_RANDOM_SIZE] of OpenSSL's headers,
    which are not part of the sources; the client random has a fixed 32-byte
    capacity. *)
Definition SSL3_RANDOM_SIZE : nat := 32.

(** Modelled from the spec: the macro [SSL_MAX_MASTER_KEY_LENGTH] of OpenSSL's
    headers, which are not part of the sources; the master key has a fixed
    48-byte capacity. *)
Definition SSL_MAX_MASTER_KEY_LENGTH : nat := 48.

Definition CLIENT_RANDOM : string := "CLIENT_RANDOM "%string.
Definition CLIENT_RANDOM_LEN : nat := String.length CLIENT_RANDOM.
Definition CLIENT_RANDOM_LINE_LENGTH : nat :=
  CLIENT_RANDOM_LEN + (SSL3_RANDOM_SIZE * 2) + 1 + (SSL_MAX_MASTER_KEY_LENGTH * 2) + 2.

(** ** The two snapshot structures *)

Record SslMasterKey : Type := mkSslMasterKey {
  mk_value : list byte;     (* unsigned char value[SSL_MAX_MASTER_KEY_LENGTH] *)
  mk_length : N             (* size_t length *)
}.

Record SslClientRandom : Type := mkSslClientRandom {
  cr_value : list byte;     (* unsigned char value[SSL3_RANDOM_SIZE] *)
  cr_length : N             (* size_t length *)
}.

(** [SslMasterKey k = { 0 }] and [SslClientRandom r = { 0 }]. *)
Definition SslMasterKey_zero : SslMasterKey :=
  mkSslMasterKey (repeat x00 SSL_MAX_MASTER_KEY_LENGTH) 0.
Definition SslClientRandom_zero : SslClientRandom :=
  mkSslClientRandom (repeat x00 SSL3_RANDOM_SIZE) 0.

(** A snapshot as the data model has it: the array has its declared capacity
    and the length does not exceed it. *)
Definition master_key_ok (k : SslMasterKey) : Prop :=
  length (mk_value k) = SSL_MAX_MASTER_KEY_LENGTH /\
  (N.to_nat (mk_length k) <= SSL_MAX_MASTER_KEY_LENGTH).
Definition client_random_ok (r : SslClientRandom) : Prop :=
  length (cr_value r) = SSL3_RANDOM_SIZE /\
  (N.to_nat (cr_length r) <= SSL3_RANDOM_SIZE).

(** ** The line of [KeyLogFile_raw_dump]

    The body of the function up to the [write]: the line is built in
    [unsigned char line[CLIENT_RANDOM_LINE_LENGTH]] with a moving pointer [p]
    (here the offset from [line]).  [None] is an access outside an array. *)

(** One of the two [for] loops: [n] iterations remain, the next one reads
    [value[i]] and prints at [p]. *)
Fixpoint dump_hex (value : list byte) (i n : nat) (line : list byte) (p : nat)
  : option (list byte * nat) :=
  match n with
  | O => Some (line, p)
  | S n' =>
      match nth_error value i with
      | None => None
      | Some v =>
          match store line p (sprintf_02x v) with
          | None => None
          | Some line' => dump_hex value (S i) n' line' (p + 2)
          end
      end
  end.

Definition raw_dump_line (client_random : SslClientRandom) (master_key : SslMasterKey)
  : option (list byte) :=
  let line := repeat x00 CLIENT_RANDOM_LINE_LENGTH in
  match store line 0 (list_byte_of_string CLIENT_RANDOM) with   (* memcpy *)
  | None => None
  | Some line =>
  let p := CLIENT_RANDOM_LEN in
  match dump_hex (cr_value client_random) 0 (N.to_nat (cr_length client_random)) line p with
  | None => None
  | Some (line, p) =>
  match store line p (list_byte_of_string " "%string) with              (* *p++ = ' ' *)
  | None => None
  | Some line =>
  let p := S p in
  match dump_hex (mk_value master_key) 0 (N.to_nat (mk_length master_key)) line p with
  | None => None
  | Some (line, p) =>
  match store line p [x0a] with                                   (* *p++ = '\n' *)
  | None => None
  | Some line =>
  let p := S p in
  let len := p in                                                 (* p - (char* ) line *)
  Some (firstn len line)
  end end end end end.

(** The record of the data model, following the spec's words: the keyword, the
    client random in lowercase hex, two characters per byte and no separator,
    one space, the master key in the same encoding, and a newline. *)
Definition hex_lower (bs : list byte) : list byte :=
  flat_map (fun v => [hexdigit (Byte.to_N v / 16); hexdigit (Byte.to_N v mod 16)]) bs.

Definition KeyLogLine (client_random master_key : list byte) : list byte :=
  list_byte_of_string "CLIENT_RANDOM "%string ++ hex_lower client_random
    ++ list_byte_of_string " " ++ hex_lower master_key ++ [x0a].

(** The bytes [00 01 .. ] of the spec's example. *)
Definition byte_range (from : N) (n : nat) : list byte :=
  map (fun i => match Byte.of_N (from + N.of_nat i) with Some b => b | None => x00 end)
      (seq 0 n).

Definition example_line : string :=
  String.append
    "CLIENT_RANDOM 000102030405060708090a0b0c0d0e0f101112131415161718191a1b1c1d1e1f a0a1a2a3a4a5a6a7a8a9aaabacadaeafb0b1b2b3b4b5b6b7b8b9babbbcbdbebfc0c1c2c3c4c5c6c7c8c9cacbcccdcecf"%string
    (String (Ascii.ascii_of_nat 10) EmptyString).

(** ** The process state *)

(** A C pointer (to a function, a handle, an [SSL], an [SSL_CTX] or an
    [SSL_SESSION]); [NULL] is address 0. *)
Definition ptr : Type := Z.
Definition NULL : ptr := 0%Z.
Definition is_null (p : ptr) : bool := (p =? NULL)%Z.

(** Every call that leaves the shim, in the order it is made. *)
Inductive Call : Type :=
| C_dlsym_next (sym : string)                      (* dlsym(RTLD_NEXT, sym) *)
| C_dlopen (name : string)
| C_dlsym (handle : ptr) (sym : string)
| C_dlclose (handle : ptr)
| C_abort
| C_getenv (name : string)
| C_open (path : string) (ret : Z)                 (* O_WRONLY | O_APPEND | O_CREAT, 0644 *)
| C_atexit
| C_write (fd : Z) (buf : list byte) (ret : Z)
| C_close (fd : Z) (ret : Z)
| C_SSL_new (ctx : ptr)
| C_SSL_CTX_set_keylog_callback (ctx : ptr)
| C_SSL_connect (ssl : ptr)
| C_SSL_do_handshake (ssl : ptr)
| C_SSL_accept (ssl : ptr)
| C_SSL_get_session (ssl : ptr)
| C_SSL_SESSION_get_master_key (session : ptr) (outlen : nat)
| C_SSL_get_client_random (ssl : ptr) (outlen : nat).

(** The dynamic linker, as the shim sees it. *)
Record Linker : Type := mkLinker {
  dlsym_next : string -> ptr;          (* the next object after the shim *)
  dlopen : string -> ptr;              (* NULL when the library cannot be loaded *)
  dlsym : ptr -> string -> ptr
}.

(** The functions the shim registers with [atexit]. *)
Inductive Handler : Type := H_KeyLogFile_finalize.

(** The part of the kernel and of the C runtime the shim talks to. *)
Record Kernel : Type := mkKernel {
  environ : string -> option string;
  openable : string -> bool;           (* would open(path, O_WRONLY|O_APPEND|O_CREAT) succeed *)
  fds : list (Z * string);             (* open descriptors and the file each refers to *)
  files : list (string * list byte);
  exit_handlers : list Handler
}.

(** The shim's static variables. *)
Record Statics : Type := mkStatics {
  openssl_init_flag : bool;
  _SSL_new : ptr;
  _SSL_connect : ptr;
  _SSL_do_handshake : ptr;
  _SSL_accept : ptr;
  _SSL_get_client_random : ptr;
  _SSL_SESSION_get_master_key : ptr;
  _SSL_get_session : ptr;
  _SSL_CTX_set_keylog_callback : ptr;
  KeyLogFile_fd : Z
}.

(** The state of a freshly loaded shim. *)
Definition Statics_init : Statics :=
  mkStatics false NULL NULL NULL NULL NULL NULL NULL NULL (-1).

(** *** The kernel's side of [open], [write] and [close] *)

Definition fd_is_open (fd : Z) (k : Kernel) : bool :=
  (0 <=? fd)%Z && existsb (fun e => (fst e =? fd)%Z) (fds k).

Definition fd_path (fd : Z) (k : Kernel) : option string :=
  option_map snd (find (fun e => (fst e =? fd)%Z) (fds k)).

(** The lowest descriptor that is not in use. *)
Definition fresh_fd (k : Kernel) : Z :=
  match find (fun n => negb (existsb (fun e => (fst e =? n)%Z) (fds k)))
             (map Z.of_nat (seq 0 (S (length (fds k))))) with
  | Some n => n
  | None => Z.of_nat (length (fds k))
  end.

Definition file_exists (path : string) (fs : list (string * list byte)) : bool :=
  existsb (fun e => String.eqb (fst e) path) fs.

Definition file_create (path : string) (fs : list (string * list byte)) :=
  if file_exists path fs then fs else fs ++ [(path, [])].

Definition file_append (path : string) (buf : list byte) (fs : list (string * list byte)) :=
  map (fun e => if String.eqb (fst e) path then (fst e, snd e ++ buf) else e) fs.

Definition kernel_open (path : string) (k : Kernel) : Z * Kernel :=
  if openable k path then
    let fd := fresh_fd k in
    (fd, mkKernel (environ k) (openable k) ((fd, path) :: fds k)
                  (file_create path (files k)) (exit_handlers k))
  else ((-1)%Z, k).

Definition kernel_write (fd : Z) (buf : list byte) (k : Kernel) : Z * Kernel :=
  if fd_is_open fd k then
    match fd_path fd k with
    | Some path =>
        (Z.of_nat (length buf),
         mkKernel (environ k) (openable k) (fds k)
                  (file_append path buf (files k)) (exit_handlers k))
    | None => ((-1)%Z, k)
    end
  else ((-1)%Z, k).                                  (* EBADF *)

Definition kernel_close (fd : Z) (k : Kernel) : Z * Kernel :=
  if fd_is_open fd k then
    (0%Z, mkKernel (environ k) (openable k)
                   (filter (fun e => negb (fst e =? fd)%Z) (fds k))
                   (files k) (exit_handlers k))
  else ((-1)%Z, k).                                  (* EBADF *)

Definition kernel_atexit (h : Handler) (k : Kernel) : Kernel :=
  mkKernel (environ k) (openable k) (fds k) (files k) (h :: exit_handlers k).

(** ** The real library

    OpenSSL is an opaque provider: its entry points are parameters.  A read
    function reports the bytes it stores at [out] and its return value; a
    handshake function reports its return value and the key-log lines it hands
    to the key-log callback of the session's context, when one is set. *)
Record Handshake (St : Type) : Type := mkHandshake {
  hs_ret : Z;
  hs_secrets : list string;
  hs_state : St
}.

Record Library (St : Type) : Type := mkLibrary {
  real_SSL_new : ptr -> St -> ptr * St;
  real_SSL_connect : ptr -> St -> Handshake St;
  real_SSL_do_handshake : ptr -> St -> Handshake St;
  real_SSL_accept : ptr -> St -> Handshake St;
  real_SSL_get_session : ptr -> St -> ptr;
  real_SSL_SESSION_get_master_key : ptr -> nat -> St -> list byte * N;
  real_SSL_get_client_random : ptr -> nat -> St -> list byte * N;
  real_SSL_get_SSL_CTX : ptr -> St -> ptr
}.

Section Shim.

Variable St : Type.
Variable L : Library St.
Variable ld : Linker.

Record World : Type := mkWorld {
  shim : Statics;
  kernel : Kernel;
  keylog_ctx : list ptr;       (* contexts on which KeyLogFile_callback is set *)
  lib : St;
  calls : list Call
}.

(** How a function of the process ends: it returns, the process is aborted, or
    the behaviour is undefined (a call through a null pointer, an access
    outside an array). *)
Inductive Outcome (A : Type) : Type :=
| Returns (a : A) (w : World)
| Aborted (w : World)
| Undefined.
Arguments Aborted {A} w.
Arguments Undefined {A}.

Definition Proc (A : Type) : Type := World -> Outcome A.

Definition ret {A} (a : A) : Proc A := fun w => Returns a w.

Definition bind {A B} (m : Proc A) (f : A -> Proc B) : Proc B :=
  fun w =>
    match m w with
    | Returns a w' => f a w'
    | Aborted w' => Aborted w'
    | Undefined => Undefined
    end.

Notation "x <- m ;; k" := (bind m (fun x => k))
  (at level 61, m at next level, right associativity).
Notation "m ;; k" := (bind m (fun _ => k))
  (at level 61, right associativity).

Definition undefined {A} : Proc A := fun _ => Undefined.
Definition get_shim : Proc Statics := fun w => Returns (shim w) w.
Definition set_shim (s : Statics) : Proc unit :=
  fun w => Returns tt (mkWorld s (kernel w) (keylog_ctx w) (lib w) (calls w)).
Definition log (c : Call) : Proc unit :=
  fun w => Returns tt (mkWorld (shim w) (kernel w) (keylog_ctx w) (lib w) (calls w ++ [c])).
Definition of_option {A} (o : option A) : Proc A :=
  match o with Some a => ret a | None => undefined end.

(** *** System calls and C runtime *)

Definition sys_getenv (name : string) : Proc (option string) :=
  log (C_getenv name) ;;
  fun w => Returns (environ (kernel w) name) w.

Definition sys_open (path : string) : Proc Z :=
  fun w =>
    let (fd, k) := kernel_open path (kernel w) in
    Returns fd (mkWorld (shim w) k (keylog_ctx w) (lib w) (calls w ++ [C_open path fd])).

Definition sys_write (fd : Z) (buf : list byte) : Proc Z :=
  fun w =>
    let (r, k) := kernel_write fd buf (kernel w) in
    Returns r (mkWorld (shim w) k (keylog_ctx w) (lib w) (calls w ++ [C_write fd buf r])).

Definition sys_close (fd : Z) : Proc Z :=
  fun w =>
    let (r, k) := kernel_close fd (kernel w) in
    Returns r (mkWorld (shim w) k (keylog_ctx w) (lib w) (calls w ++ [C_close fd r])).

Definition sys_atexit (h : Handler) : Proc unit :=
  fun w =>
    Returns tt (mkWorld (shim w) (kernel_atexit h (kernel w)) (keylog_ctx w) (lib w)
                        (calls w ++ [C_atexit])).

Definition abort {A} : Proc A :=
  fun w => Aborted (mkWorld (shim w) (kernel w) (keylog_ctx w) (lib w) (calls w ++ [C_abort])).

(** *** The dynamic linker.  On a handle that [dlopen] returned, [dlclose]
    returns and the shim ignores its result.  On a null handle the shim runs
    on glibc, whose [dlclose] reads the link map its argument points to
    without testing it: [dlclose(NULL)] is a null-pointer access that kills
    the process, undefined here. *)
Definition do_dlsym_next (sym : string) : Proc ptr :=
  log (C_dlsym_next sym) ;; ret (dlsym_next ld sym).
Definition do_dlopen (name : string) : Proc ptr :=
  log (C_dlopen name) ;; ret (dlopen ld name).
Definition do_dlsym (handle : ptr) (sym : string) : Proc ptr :=
  log (C_dlsym handle sym) ;; ret (dlsym ld handle sym).
Definition do_dlclose (handle : ptr) : Proc unit :=
  if is_null handle then undefined else log (C_dlclose handle).

(** *** Assignments to the static variables *)

Definition assign (upd : Statics -> Statics) : Proc unit :=
  s <- get_shim ;; set_shim (upd s).

Definition with_init_flag (b : bool) (s : Statics) : Statics :=
  mkStatics b (_SSL_new s) (_SSL_connect s) (_SSL_do_handshake s) (_SSL_accept s)
    (_SSL_get_client_random s) (_SSL_SESSION_get_master_key s) (_SSL_get_session s)
    (_SSL_CTX_set_keylog_callback s) (KeyLogFile_fd s).
Definition with_SSL_new (f : ptr) (s : Statics) : Statics :=
  mkStatics (openssl_init_flag s) f (_SSL_connect s) (_SSL_do_handshake s) (_SSL_accept s)
    (_SSL_get_client_random s) (_SSL_SESSION_get_master_key s) (_SSL_get_session s)
    (_SSL_CTX_set_keylog_callback s) (KeyLogFile_fd s).
Definition with_SSL_connect (f : ptr) (s : Statics) : Statics :=
  mkStatics (openssl_init_flag s) (_SSL_new s) f (_SSL_do_handshake s) (_SSL_accept s)
    (_SSL_get_client_random s) (_SSL_SESSION_get_master_key s) (_SSL_get_session s)
    (_SSL_CTX_set_keylog_callback s) (KeyLogFile_fd s).
Definition with_SSL_do_handshake (f : ptr) (s : Statics) : Statics :=
  mkStatics (openssl_init_flag s) (_SSL_new s) (_SSL_connect s) f (_SSL_accept s)
    (_SSL_get_client_random s) (_SSL_SESSION_get_master_key s) (_SSL_get_session s)
    (_SSL_CTX_set_keylog_callback s) (KeyLogFile_fd s).
Definition with_SSL_accept (f : ptr) (s : Statics) : Statics :=
  mkStatics (openssl_init_flag s) (_SSL_new s) (_SSL_connect s) (_SSL_do_handshake s) f
    (_SSL_get_client_random s) (_SSL_SESSION_get_master_key s) (_SSL_get_session s)
    (_SSL_CTX_set_keylog_callback s) (KeyLogFile_fd s).
Definition with_SSL_get_client_random (f : ptr) (s : Statics) : Statics :=
  mkStatics (openssl_init_flag s) (_SSL_new s) (_SSL_connect s) (_SSL_do_handshake s)
    (_SSL_accept s) f (_SSL_SESSION_get_master_key s) (_SSL_get_session s)
    (_SSL_CTX_set_keylog_callback s) (KeyLogFile_fd s).
Definition with_SSL_SESSION_get_master_key (f : ptr) (s : Statics) : Statics :=
  mkStatics (openssl_init_flag s) (_SSL_new s) (_SSL_connect s) (_SSL_do_handshake s)
    (_SSL_accept s) (_SSL_get_client_random s) f (_SSL_get_session s)
    (_SSL_CTX_set_keylog_callback s) (KeyLogFile_fd s).
Definition with_SSL_get_session (f : ptr) (s : Statics) : Statics :=
  mkStatics (openssl_init_flag s) (_SSL_new s) (_SSL_connect s) (_SSL_do_handshake s)
    (_SSL_accept s) (_SSL_get_client_random s) (_SSL_SESSION_get_master_key s) f
    (_SSL_CTX_set_keylog_callback s) (KeyLogFile_fd s).
Definition with_SSL_CTX_set_keylog_callback (f : ptr) (s : Statics) : Statics :=
  mkStatics (openssl_init_flag s) (_SSL_new s) (_SSL_connect s) (_SSL_do_handshake s)
    (_SSL_accept s) (_SSL_get_client_random s) (_SSL_SESSION_get_master_key s)
    (_SSL_get_session s) f (KeyLogFile_fd s).
Definition with_KeyLogFile_fd (fd : Z) (s : Statics) : Statics :=
  mkStatics (openssl_init_flag s) (_SSL_new s) (_SSL_connect s) (_SSL_do_handshake s)
    (_SSL_accept s) (_SSL_get_client_random s) (_SSL_SESSION_get_master_key s)
    (_SSL_get_session s) (_SSL_CTX_set_keylog_callback s) fd.

(** ** Key-log file management *)

Definition KeyLogFile_finalize : Proc unit :=
  s <- get_shim ;;
  if (0 <=? KeyLogFile_fd s)%Z then
    sys_close (KeyLogFile_fd s) ;; ret tt
  else ret tt.

Definition KeyLogFile_init : Proc unit :=
  s <- get_shim ;;
  if (0 <=? KeyLogFile_fd s)%Z then ret tt
  else
    sslkeylogfile_name <- sys_getenv "SSLKEYLOGFILE" ;;
    match sslkeylogfile_name with
    | Some name =>
        fd <- sys_open name ;;
        assign (with_KeyLogFile_fd fd) ;;
        sys_atexit H_KeyLogFile_finalize
    | None => ret tt
    end.

(** [line] is a C string: the characters before its terminating NUL. *)
Definition KeyLogFile_callback (ssl : ptr) (line : string) : Proc unit :=
  s <- get_shim ;;
  if (0 <=? KeyLogFile_fd s)%Z then
    sys_write (KeyLogFile_fd s) (list_byte_of_string line) ;;
    sys_write (KeyLogFile_fd s) [x0a] ;;
    ret tt
  else ret tt.

Definition KeyLogFile_raw_dump (client_random : SslClientRandom) (master_key : SslMasterKey)
  : Proc unit :=
  if negb (cr_length client_random =? 0)%N && negb (mk_length master_key =? 0)%N then
    line <- of_option (raw_dump_line client_random master_key) ;;
    s <- get_shim ;;
    sys_write (KeyLogFile_fd s) line ;;
    ret tt
  else ret tt.

(** ** Calls through the resolved pointers *)

Fixpoint for_each {A} (f : A -> Proc unit) (l : list A) : Proc unit :=
  match l with
  | [] => ret tt
  | a :: l' => f a ;; for_each f l'
  end.

(** A handshake entry point of the real library.  While it runs, the library
    calls the key-log callback of the session's context, when the shim has
    set one, once for each secret it derives. *)
Definition call_handshake (fn : ptr) (c : Call) (real : ptr -> St -> Handshake St)
    (ssl : ptr) : Proc Z :=
  if is_null fn then undefined
  else
    log c ;;
    r <- (fun w =>
            let r := real ssl (lib w) in
            let ctx := real_SSL_get_SSL_CTX L ssl (lib w) in
            let lines := if existsb (Z.eqb ctx) (keylog_ctx w) then hs_secrets r else [] in
            Returns (hs_ret r, lines)
                    (mkWorld (shim w) (kernel w) (keylog_ctx w) (hs_state r) (calls w))) ;;
    for_each (KeyLogFile_callback ssl) (snd r) ;;
    ret (fst r).

Definition call_SSL_connect (ssl : ptr) : Proc Z :=
  s <- get_shim ;;
  call_handshake (_SSL_connect s) (C_SSL_connect ssl) (real_SSL_connect L) ssl.
Definition call_SSL_do_handshake (ssl : ptr) : Proc Z :=
  s <- get_shim ;;
  call_handshake (_SSL_do_handshake s) (C_SSL_do_handshake ssl) (real_SSL_do_handshake L) ssl.
Definition call_SSL_accept (ssl : ptr) : Proc Z :=
  s <- get_shim ;;
  call_handshake (_SSL_accept s) (C_SSL_accept ssl) (real_SSL_accept L) ssl.

Definition call_SSL_new (ctx : ptr) : Proc ptr :=
  s <- get_shim ;;
  if is_null (_SSL_new s) then undefined
  else
    log (C_SSL_new ctx) ;;
    fun w =>
      let (ssl, st) := real_SSL_new L ctx (lib w) in
      Returns ssl (mkWorld (shim w) (kernel w) (keylog_ctx w) st (calls w)).

(** [_SSL_CTX_set_keylog_callback(ctx, KeyLogFile_callback)]. *)
Definition call_SSL_CTX_set_keylog_callback (ctx : ptr) : Proc unit :=
  s <- get_shim ;;
  if is_null (_SSL_CTX_set_keylog_callback s) then undefined
  else
    log (C_SSL_CTX_set_keylog_callback ctx) ;;
    fun w => Returns tt (mkWorld (shim w) (kernel w) (ctx :: keylog_ctx w) (lib w) (calls w)).

Definition call_SSL_get_session (ssl : ptr) : Proc ptr :=
  s <- get_shim ;;
  if is_null (_SSL_get_session s) then undefined
  else
    log (C_SSL_get_session ssl) ;;
    fun w => Returns (real_SSL_get_session L ssl (lib w)) w.

(** The two read functions: the result is the array [out] after the call and
    the value returned. *)
Definition call_SSL_SESSION_get_master_key (session : ptr) (out : list byte) (outlen : nat)
  : Proc (list byte * N) :=
  s <- get_shim ;;
  if is_null (_SSL_SESSION_get_master_key s) then undefined
  else
    log (C_SSL_SESSION_get_master_key session outlen) ;;
    r <- (fun w => Returns (real_SSL_SESSION_get_master_key L session outlen (lib w)) w) ;;
    out' <- of_option (store out 0 (fst r)) ;;
    ret (out', snd r).

Definition call_SSL_get_client_random (ssl : ptr) (out : list byte) (outlen : nat)
  : Proc (list byte * N) :=
  s <- get_shim ;;
  if is_null (_SSL_get_client_random s) then undefined
  else
    log (C_SSL_get_client_random ssl outlen) ;;
    r <- (fun w => Returns (real_SSL_get_client_random L ssl outlen (lib w)) w) ;;
    out' <- of_option (store out 0 (fst r)) ;;
    ret (out', snd r).

(** ** Symbol resolution *)

Definition load_function (sym : string) : Proc ptr :=
  func <- do_dlsym_next sym ;;
  if is_null func then
    handle <- do_dlopen "libssl.so" ;;
    func <- (if negb (is_null handle) then do_dlsym handle sym else ret func) ;;
    do_dlclose handle ;;
    ret func
  else ret func.

Definition load_function_or_die (sym : string) : Proc ptr :=
  func <- load_function sym ;;
  if is_null func then abort else ret func.

(** ** The hooks *)

Definition init_openssl_hooks : Proc unit :=
  f <- load_function_or_die "SSL_new" ;; assign (with_SSL_new f) ;;
  f <- load_function_or_die "SSL_connect" ;; assign (with_SSL_connect f) ;;
  f <- load_function_or_die "SSL_do_handshake" ;; assign (with_SSL_do_handshake f) ;;
  f <- load_function_or_die "SSL_accept" ;; assign (with_SSL_accept f) ;;
  f <- load_function_or_die "SSL_get_client_random" ;;
  assign (with_SSL_get_client_random f) ;;
  f <- load_function_or_die "SSL_SESSION_get_master_key" ;;
  assign (with_SSL_SESSION_get_master_key f) ;;
  f <- load_function_or_die "SSL_get_session" ;; assign (with_SSL_get_session f) ;;
  f <- load_function "SSL_CTX_set_keylog_callback" ;;
  assign (with_SSL_CTX_set_keylog_callback f) ;;
  KeyLogFile_init.

(** [call_once(&openssl_init_flag, init_openssl_hooks)]. *)
Definition call_once_init : Proc unit :=
  s <- get_shim ;;
  if openssl_init_flag s then ret tt
  else init_openssl_hooks ;; assign (with_init_flag true).

(** The condition of [logging_key]; [&&] does not evaluate [memcmp] when the
    length is zero. *)
Definition key_changed (before_key after_key : SslMasterKey) : option bool :=
  if (0 <? mk_length after_key)%N then
    match memcmp (mk_value after_key) (mk_value before_key)
                 (N.to_nat (mk_length after_key)) with
    | Some r => Some (negb (r =? 0)%Z)
    | None => None
    end
  else Some false.

Definition logging_key (ssl : ptr) (before_key : SslMasterKey) : Proc unit :=
  let after_key := SslMasterKey_zero in
  session <- call_SSL_get_session ssl ;;
  r <- call_SSL_SESSION_get_master_key session (mk_value after_key)
         SSL_MAX_MASTER_KEY_LENGTH ;;
  let after_key := mkSslMasterKey (fst r) (snd r) in
  c <- of_option (key_changed before_key after_key) ;;
  if (c : bool) then
    let crandom := SslClientRandom_zero in
    r <- call_SSL_get_client_random ssl (cr_value crandom) SSL3_RANDOM_SIZE ;;
    let crandom := mkSslClientRandom (fst r) (snd r) in
    KeyLogFile_raw_dump crandom after_key
  else ret tt.

Definition SSL_new (ctx : ptr) : Proc ptr :=
  call_once_init ;;
  s <- get_shim ;;
  (if negb (is_null (_SSL_CTX_set_keylog_callback s))
   then call_SSL_CTX_set_keylog_callback ctx
   else ret tt) ;;
  call_SSL_new ctx.

Definition SSL_connect (ssl : ptr) : Proc Z :=
  s <- get_shim ;;
  if negb (is_null (_SSL_CTX_set_keylog_callback s)) then
    call_SSL_connect ssl
  else
    let before_key := SslMasterKey_zero in
    session <- call_SSL_get_session ssl ;;
    r <- call_SSL_SESSION_get_master_key session (mk_value before_key)
           SSL_MAX_MASTER_KEY_LENGTH ;;
    let before_key := mkSslMasterKey (fst r) (snd r) in
    ret_ <- call_SSL_connect ssl ;;
    (if (ret_ =? 1)%Z then logging_key ssl before_key else ret tt) ;;
    ret ret_.

Definition SSL_do_handshake (ssl : ptr) : Proc Z :=
  s <- get_shim ;;
  if negb (is_null (_SSL_CTX_set_keylog_callback s)) then
    call_SSL_do_handshake ssl
  else
    let before_key := SslMasterKey_zero in
    session <- call_SSL_get_session ssl ;;
    r <- call_SSL_SESSION_get_master_key session (mk_value before_key)
           SSL_MAX_MASTER_KEY_LENGTH ;;
    let before_key := mkSslMasterKey (fst r) (snd r) in
    ret_ <- call_SSL_do_handshake ssl ;;
    (if (ret_ =? 1)%Z then logging_key ssl before_key else ret tt) ;;
    ret ret_.

Definition SSL_accept (ssl : ptr) : Proc Z :=
  let before_key := SslMasterKey_zero in
  session <- call_SSL_get_session ssl ;;
  r <- call_SSL_SESSION_get_master_key session (mk_value before_key)
         SSL_MAX_MASTER_KEY_LENGTH ;;
  let before_key := mkSslMasterKey (fst r) (snd r) in
  ret_ <- call_SSL_accept ssl ;;
  (if (ret_ =? 1)%Z then logging_key ssl before_key else ret tt) ;;
  ret ret_.

(** ** The process: what the application does with the shim *)

Inductive Op : Type :=
| Op_SSL_new (ctx : ptr)
| Op_SSL_connect (ssl : ptr)
| Op_SSL_do_handshake (ssl : ptr)
| Op_SSL_accept (ssl : ptr).

Definition do_op (o : Op) : Proc unit :=
  match o with
  | Op_SSL_new ctx => SSL_new ctx ;; ret tt
  | Op_SSL_connect ssl => SSL_connect ssl ;; ret tt
  | Op_SSL_do_handshake ssl => SSL_do_handshake ssl ;; ret tt
  | Op_SSL_accept ssl => SSL_accept ssl ;; ret tt
  end.

Definition run (ops : list Op) : Proc unit := for_each do_op ops.

Definition run_handler (h : Handler) : Proc unit :=
  match h with H_KeyLogFile_finalize => KeyLogFile_finalize end.

(** Normal termination: the functions registered with [atexit] run, the last
    registered first. *)
Definition process_exit : Proc unit :=
  fun w => for_each run_handler (exit_handlers (kernel w)) w.

(** The process at start-up: nothing of the shim has run. *)
Definition World_init (k : Kernel) (st : St) : World :=
  mkWorld Statics_init
          (mkKernel (environ k) (openable k) (fds k) (files k) [])
          [] st [].

End Shim.

Arguments Aborted {St A} w.
Arguments Undefined {St A}.
Arguments Returns {St A} a w.

(** ** A small concrete library, linker and kernel

    Used to run the shim on concrete inputs.  The library's state counts the
    full handshakes made so far; [SSL_connect] and [SSL_accept] negotiate a new
    master key, [SSL_do_handshake] finds the handshake already done; session
    [7] always fails; the client random of session [13] cannot be read. *)
Module Toy.

Definition master_key (st : nat) : list byte := byte_range (159 + N.of_nat st) 48.

Definition full_handshake (ssl : ptr) (st : nat) : Handshake nat :=
  if (ssl =? 7)%Z then mkHandshake (-1)%Z [] st
  else mkHandshake 1%Z ["CLIENT_RANDOM 00 11"%string] (S st).

Definition library : Library nat :=
  mkLibrary
    (fun ctx st => ((ctx + 100)%Z, st))
    full_handshake
    (fun ssl st => mkHandshake 1%Z [] st)
    full_handshake
    (fun ssl st => (ssl + 1000)%Z)
    (fun session outlen st =>
       match st with
       | O => ([], 0%N)
       | _ => (firstn outlen (master_key st), N.of_nat (Nat.min outlen 48))
       end)
    (fun ssl outlen st =>
       if (ssl =? 13)%Z then ([], 0%N)
       else (firstn outlen (byte_range 0 32), N.of_nat (Nat.min outlen 32)))
    (fun ssl st => 1%Z).

(** OpenSSL 1.1.1: every symbol is found in the next object. *)
Definition ld_111 : Linker :=
  mkLinker (fun sym => 4096%Z) (fun name => 5%Z) (fun h sym => 4096%Z).

(** OpenSSL 1.1.0: no [SSL_CTX_set_keylog_callback]. *)
Definition ld_110 : Linker :=
  let known sym :=
    if String.eqb sym "SSL_CTX_set_keylog_callback" then NULL else 4096%Z in
  mkLinker known (fun name => 5%Z) (fun h sym => known sym).

(** No OpenSSL at all. *)
Definition ld_none : Linker :=
  mkLinker (fun sym => NULL) (fun name => NULL) (fun h sym => NULL).

(** A [libssl.so] that can be loaded but has none of the entry points. *)
Definition ld_stub : Linker :=
  mkLinker (fun sym => NULL) (fun name => 5%Z) (fun h sym => NULL).

(** OpenSSL 1.1.0 linked into the application, no [libssl.so] to load by
    name: the mandatory entry points are found after the shim, the callback
    entry point is not, and the fallback cannot open the library. *)
Definition ld_110_static : Linker :=
  let known sym :=
    if String.eqb sym "SSL_CTX_set_keylog_callback" then NULL else 4096%Z in
  mkLinker known (fun name => NULL) (fun h sym => NULL).

Definition std_fds : list (Z * string) :=
  [(0%Z, "/dev/tty"%string); (1%Z, "/dev/tty"%string); (2%Z, "/dev/tty"%string)].

(** A kernel with [SSLKEYLOGFILE=/tmp/keys.log]. *)
Definition kernel_on : Kernel :=
  mkKernel (fun name => if String.eqb name "SSLKEYLOGFILE" then Some "/tmp/keys.log"%string
                        else None)
           (fun path => true) std_fds [] [].

(** A kernel without [SSLKEYLOGFILE]. *)
Definition kernel_off : Kernel :=
  mkKernel (fun name => None) (fun path => true) std_fds [] [].

Definition world_of {A} (o : Outcome nat A) : World nat :=
  match o with
  | Returns _ w => w
  | Aborted w => w
  | Undefined => World_init kernel_on 0
  end.

(** The process after its first [SSL_new], over OpenSSL 1.1.0 (hook mode) and
    over OpenSSL 1.1.1 (callback mode), with logging enabled. *)
Definition hook_world : World nat :=
  world_of (run library ld_110 [Op_SSL_new 1%Z] (World_init kernel_on 0)).
Definition callback_world : World nat :=
  world_of (run library ld_111 [Op_SSL_new 1%Z] (World_init kernel_on 0)).

(** The snapshots of the spec's example. *)
Definition example_client_random : SslClientRandom :=
  mkSslClientRandom (byte_range 0 32) 32.
Definition example_master_key : SslMasterKey :=
  mkSslMasterKey (byte_range 160 48) 48.

End Toy.

(** ** Vocabulary of the properties *)

Section Vocabulary.

Variable St : Type.
Variable L : Library St.
Variable ld : Linker.

(** The world after further calls that change nothing else. *)
Definition add_calls (w : World St) (cs : list Call) : World St :=
  mkWorld (shim w) (kernel w) (keylog_ctx w) (lib w) (calls w ++ cs).

(** The world after [write(KeyLogFile_fd, buf, len)]. *)
Definition after_write (w : World St) (buf : list byte) : World St :=
  let fd := KeyLogFile_fd (shim w) in
  mkWorld (shim w) (snd (kernel_write fd buf (kernel w))) (keylog_ctx w) (lib w)
          (calls w ++ [C_write fd buf (fst (kernel_write fd buf (kernel w)))]).

(** The mandatory entry points are resolved. *)
Definition resolved (s : Statics) : Prop :=
  is_null (_SSL_new s) = false /\
  is_null (_SSL_connect s) = false /\
  is_null (_SSL_do_handshake s) = false /\
  is_null (_SSL_accept s) = false /\
  is_null (_SSL_get_client_random s) = false /\
  is_null (_SSL_SESSION_get_master_key s) = false /\
  is_null (_SSL_get_session s) = false.

(** Hook mode: the callback entry point is unresolved, so no context carries
    the shim's callback (see [reachable_capture_mode]). *)
Definition HookMode (w : World St) : Prop :=
  resolved (shim w) /\
  is_null (_SSL_CTX_set_keylog_callback (shim w)) = true /\
  keylog_ctx w = [].

(** Callback mode: the callback entry point is resolved. *)
Definition CallbackMode (w : World St) : Prop :=
  resolved (shim w) /\
  is_null (_SSL_CTX_set_keylog_callback (shim w)) = false.

(** The contract of the two read functions: at most [outlen] bytes are stored
    and the value returned is at most [outlen]. *)
Definition respects_outlen : Prop :=
  (forall session outlen st,
      length (fst (real_SSL_SESSION_get_master_key L session outlen st)) <= outlen /\
      N.to_nat (snd (real_SSL_SESSION_get_master_key L session outlen st)) <= outlen) /\
  (forall ssl outlen st,
      length (fst (real_SSL_get_client_random L ssl outlen st)) <= outlen /\
      N.to_nat (snd (real_SSL_get_client_random L ssl outlen st)) <= outlen).

(** What the lines
    [SslMasterKey k = { 0 }; k.length = _SSL_SESSION_get_master_key(_SSL_get_session(ssl), k.value, SSL_MAX_MASTER_KEY_LENGTH);]
    leave in [k] when the library is in state [st]. *)
Definition master_key_snapshot (ssl : ptr) (st : St) : SslMasterKey :=
  let r := real_SSL_SESSION_get_master_key L (real_SSL_get_session L ssl st)
             SSL_MAX_MASTER_KEY_LENGTH st in
  mkSslMasterKey (fst r ++ skipn (length (fst r)) (mk_value SslMasterKey_zero)) (snd r).

(** The same for the client random read by [logging_key]. *)
Definition client_random_snapshot (ssl : ptr) (st : St) : SslClientRandom :=
  let r := real_SSL_get_client_random L ssl SSL3_RANDOM_SIZE st in
  mkSslClientRandom (fst r ++ skipn (length (fst r)) (cr_value SslClientRandom_zero)) (snd r).

(** The two calls of a snapshot. *)
Definition snapshot_calls (ssl : ptr) (st : St) : list Call :=
  [C_SSL_get_session ssl;
   C_SSL_SESSION_get_master_key (real_SSL_get_session L ssl st) SSL_MAX_MASTER_KEY_LENGTH].

(** The record for the secrets of [ssl] in state [st]. *)
Definition snapshot_line (ssl : ptr) (st : St) : list byte :=
  let r := client_random_snapshot ssl st in
  let k := master_key_snapshot ssl st in
  KeyLogLine (firstn (N.to_nat (cr_length r)) (cr_value r))
             (firstn (N.to_nat (mk_length k)) (mk_value k)).

(** The three handshake hooks. *)
Inductive Hook : Type := H_connect | H_do_handshake | H_accept.

Definition hooked (h : Hook) : ptr -> Proc St Z :=
  match h with
  | H_connect => SSL_connect L
  | H_do_handshake => SSL_do_handshake L
  | H_accept => SSL_accept L
  end.

Definition real_handshake (h : Hook) : ptr -> St -> Handshake St :=
  match h with
  | H_connect => real_SSL_connect L
  | H_do_handshake => real_SSL_do_handshake L
  | H_accept => real_SSL_accept L
  end.

Definition handshake_call (h : Hook) (ssl : ptr) : Call :=
  match h with
  | H_connect => C_SSL_connect ssl
  | H_do_handshake => C_SSL_do_handshake ssl
  | H_accept => C_SSL_accept ssl
  end.

Definition call_real (h : Hook) : ptr -> Proc St Z :=
  match h with
  | H_connect => call_SSL_connect L
  | H_do_handshake => call_SSL_do_handshake L
  | H_accept => call_SSL_accept L
  end.

(** The path the three hooks share, as a function of the call it wraps. *)
Definition hook_path (call : ptr -> Proc St Z) (ssl : ptr) : Proc St Z :=
  bind (call_SSL_get_session L ssl) (fun session =>
  bind (call_SSL_SESSION_get_master_key L session (mk_value SslMasterKey_zero)
          SSL_MAX_MASTER_KEY_LENGTH) (fun r =>
  bind (call ssl) (fun ret_ =>
  bind (if (ret_ =? 1)%Z then logging_key L ssl (mkSslMasterKey (fst r) (snd r))
        else ret tt) (fun _ =>
  ret ret_)))).

(** The world [logging_key] leaves when nothing is undefined. *)
Definition logging_key_world (ssl : ptr) (before_key : SslMasterKey) (w : World St)
  : World St :=
  let st := lib w in
  match key_changed before_key (master_key_snapshot ssl st) with
  | Some true =>
      let w' := add_calls w (snapshot_calls ssl st
                               ++ [C_SSL_get_client_random ssl SSL3_RANDOM_SIZE]) in
      if (cr_length (client_random_snapshot ssl st) =? 0)%N then w'
      else after_write w' (snapshot_line ssl st)
  | _ => add_calls w (snapshot_calls ssl st)
  end.

(** The calls [logging_key] makes. *)
Definition logging_key_calls (ssl : ptr) (before_key : SslMasterKey) (w : World St)
  : list Call :=
  let st := lib w in
  snapshot_calls ssl st ++
  match key_changed before_key (master_key_snapshot ssl st) with
  | Some true =>
      C_SSL_get_client_random ssl SSL3_RANDOM_SIZE ::
      (if (cr_length (client_random_snapshot ssl st) =? 0)%N then []
       else [C_write (KeyLogFile_fd (shim w)) (snapshot_line ssl st)
               (fst (kernel_write (KeyLogFile_fd (shim w)) (snapshot_line ssl st)
                       (kernel w)))])
  | _ => []
  end.

(** The calls of a hook in hook mode: the snapshot before, the real call, and
    after a success the calls of [logging_key]. *)
Definition hook_mode_calls (h : Hook) (ssl : ptr) (w : World St) : list Call :=
  let r := real_handshake h ssl (lib w) in
  snapshot_calls ssl (lib w) ++ handshake_call h ssl ::
  (if (hs_ret r =? 1)%Z
   then logging_key_calls ssl (master_key_snapshot ssl (lib w))
          (mkWorld (shim w) (kernel w) (keylog_ctx w) (hs_state r) (calls w))
   else []).

(** The world after the library has called [KeyLogFile_callback] on [lines]. *)
Fixpoint callbacks_world (lines : list string) (w : World St) : World St :=
  match lines with
  | [] => w
  | line :: lines' =>
      callbacks_world lines'
        (if (0 <=? KeyLogFile_fd (shim w))%Z
         then after_write (after_write w (list_byte_of_string line)) [x0a]
         else w)
  end.

(** The world after the real handshake function has returned. *)
Definition call_real_world (h : Hook) (ssl : ptr) (w : World St) : World St :=
  let r := real_handshake h ssl (lib w) in
  let ctx := real_SSL_get_SSL_CTX L ssl (lib w) in
  callbacks_world
    (if existsb (Z.eqb ctx) (keylog_ctx w) then hs_secrets r else [])
    (mkWorld (shim w) (kernel w) (keylog_ctx w) (hs_state r)
             (calls w ++ [handshake_call h ssl])).

(** The world after the path shared by the hooks. *)
Definition hook_path_world (h : Hook) (ssl : ptr) (w : World St) : World St :=
  let w1 := call_real_world h ssl (add_calls w (snapshot_calls ssl (lib w))) in
  if (hs_ret (real_handshake h ssl (lib w)) =? 1)%Z
  then logging_key_world ssl (master_key_snapshot ssl (lib w)) w1
  else w1.

(** Symbol resolution, following the spec's words: the symbol is searched in
    the objects loaded after the shim; if it is not found there, the default
    library is loaded by name and searched. *)
Definition resolve (sym : string) : ptr :=
  if is_null (dlsym_next ld sym) then
    if is_null (dlopen ld "libssl.so") then NULL
    else dlsym ld (dlopen ld "libssl.so") sym
  else dlsym_next ld sym.

(** *** Steps that leave the key-log file management alone

    [quiet_call fd c]: [c] is not a call of the key-log file management other
    than a [write] on [fd], which fails when [fd] is negative. *)
Definition quiet_call (fd : Z) (c : Call) : bool :=
  match c with
  | C_getenv _ | C_open _ _ | C_atexit | C_close _ _ => false
  | C_write fd' _ r => (fd' =? fd)%Z && ((0 <=? fd)%Z || (r =? -1)%Z)
  | _ => true
  end.

(** From [w] to [w'] the static variables, the contexts that carry the
    callback, the environment, the descriptor table and the exit handlers are
    kept, files are only touched through an open descriptor, and only quiet
    calls are made. *)
Definition quiet_step (w w' : World St) : Prop :=
  shim w' = shim w /\
  keylog_ctx w' = keylog_ctx w /\
  environ (kernel w') = environ (kernel w) /\
  fds (kernel w') = fds (kernel w) /\
  exit_handlers (kernel w') = exit_handlers (kernel w) /\
  ((KeyLogFile_fd (shim w) < 0)%Z -> files (kernel w') = files (kernel w)) /\
  exists cs, calls w' = calls w ++ cs /\
             forallb (quiet_call (KeyLogFile_fd (shim w))) cs = true.

(** Partial correctness with a postcondition for [abort]. *)
Definition hoare {A} (P : World St -> Prop) (m : Proc St A)
    (Q : A -> World St -> Prop) (E : World St -> Prop) : Prop :=
  forall w, P w ->
    match m w with
    | Returns a w' => Q a w'
    | Aborted w' => E w'
    | Undefined => True
    end.

Definition quiet {A} (m : Proc St A) : Prop :=
  forall w0, hoare (quiet_step w0) m (fun _ => quiet_step w0) (quiet_step w0).

(** [I] holds and [init_openssl_hooks] has not completed. *)
Definition before_init (I : World St -> Prop) (w : World St) : Prop :=
  I w /\ openssl_init_flag (shim w) = false.

(** The capture mode is decided by initialisation: once it has run, the
    mandatory entry points are resolved; and no context carries the shim's
    callback before it has run or while the callback entry point is null. *)
Definition mode_decided (w : World St) : Prop :=
  (openssl_init_flag (shim w) = true -> resolved (shim w)) /\
  (is_null (_SSL_CTX_set_keylog_callback (shim w)) = true -> keylog_ctx w = []) /\
  (openssl_init_flag (shim w) = false -> keylog_ctx w = []).

(** Inside [init_openssl_hooks]: [R] holds of the pointers assigned so far. *)
Definition init_progress (R : Statics -> Prop) (w : World St) : Prop :=
  keylog_ctx w = [] /\ openssl_init_flag (shim w) = false /\ R (shim w).

(** Nothing about the log has happened: the state of a process that runs
    without [SSLKEYLOGFILE], relative to the kernel [k0] it started with. *)
Definition log_call_free (c : Call) : bool :=
  match c with
  | C_open _ _ | C_atexit | C_close _ _ => false
  | C_write _ _ r => (r =? -1)%Z
  | _ => true
  end.

Definition logging_off (k0 : Kernel) (w : World St) : Prop :=
  KeyLogFile_fd (shim w) = (-1)%Z /\
  environ (kernel w) "SSLKEYLOGFILE" = None /\
  files (kernel w) = files k0 /\
  fds (kernel w) = fds k0 /\
  exit_handlers (kernel w) = [] /\
  forallb log_call_free (calls w) = true.

(** The descriptor life cycle: nothing has been closed, an open log
    descriptor has exactly one exit handler, and before initialisation there
    is neither. *)
Definition is_close (c : Call) : bool :=
  match c with C_close _ _ => true | _ => false end.

Definition fd_lifecycle (w : World St) : Prop :=
  filter is_close (calls w) = [] /\
  ((0 <= KeyLogFile_fd (shim w))%Z ->
   fd_is_open (KeyLogFile_fd (shim w)) (kernel w) = true /\
   exit_handlers (kernel w) = [H_KeyLogFile_finalize]) /\
  ((KeyLogFile_fd (shim w) < 0)%Z ->
   exit_handlers (kernel w) = [] \/ exit_handlers (kernel w) = [H_KeyLogFile_finalize]) /\
  (openssl_init_flag (shim w) = false ->
   (KeyLogFile_fd (shim w) < 0)%Z /\ exit_handlers (kernel w) = []).

(** The same once [KeyLogFile_init] has run and the flag is about to be set. *)
Definition fd_lifecycle_init (w : World St) : Prop :=
  filter is_close (calls w) = [] /\
  ((0 <= KeyLogFile_fd (shim w))%Z ->
   fd_is_open (KeyLogFile_fd (shim w)) (kernel w) = true /\
   exit_handlers (kernel w) = [H_KeyLogFile_finalize]) /\
  ((KeyLogFile_fd (shim w) < 0)%Z ->
   exit_handlers (kernel w) = [] \/ exit_handlers (kernel w) = [H_KeyLogFile_finalize]).

(** The parts of the world an observer of the writer sees: the descriptor
    variable, the kernel and the library; not the log of calls. *)
Definition observable (w : World St) : Statics * Kernel * list ptr * St :=
  (shim w, kernel w, keylog_ctx w, lib w).

(** *** Vocabulary of the further properties *)

(** [load_function] on [sym] does not reach [dlclose(NULL)]: the symbol is
    found after the shim, or [libssl.so] can be loaded. *)
Definition lookup_defined (sym : string) : bool :=
  negb (is_null (dlsym_next ld sym)) || negb (is_null (dlopen ld "libssl.so")).

(** The calls of a [load_function] that returns: the lookup after the shim
    and, only when it fails, the fallback on the default library. *)
Definition load_function_calls (sym : string) : list Call :=
  C_dlsym_next sym ::
  (if is_null (dlsym_next ld sym) then
     C_dlopen "libssl.so" ::
     (if is_null (dlopen ld "libssl.so") then []
      else [C_dlsym (dlopen ld "libssl.so") sym])
     ++ [C_dlclose (dlopen ld "libssl.so")]
   else []).

Definition is_linker_call (c : Call) : bool :=
  match c with
  | C_dlsym_next _ | C_dlopen _ | C_dlsym _ _ | C_dlclose _ => true
  | _ => false
  end.

(** The mandatory entry points, in the order [init_openssl_hooks] resolves
    them, each with the static variable it is stored in. *)
Definition mandatory_steps : list (string * (ptr -> Statics -> Statics)) :=
  [("SSL_new"%string, with_SSL_new);
   ("SSL_connect"%string, with_SSL_connect);
   ("SSL_do_handshake"%string, with_SSL_do_handshake);
   ("SSL_accept"%string, with_SSL_accept);
   ("SSL_get_client_random"%string, with_SSL_get_client_random);
   ("SSL_SESSION_get_master_key"%string, with_SSL_SESSION_get_master_key);
   ("SSL_get_session"%string, with_SSL_get_session)].

Definition all_resolved : bool :=
  forallb (fun step => negb (is_null (resolve (fst step)))) mandatory_steps.

(** A prefix of [init_openssl_hooks]: one [load_function_or_die] and one
    assignment for each step, then [k]. *)
Fixpoint load_all (steps : list (string * (ptr -> Statics -> Statics)))
    (k : Proc St unit) : Proc St unit :=
  match steps with
  | [] => k
  | (sym, upd) :: rest =>
      bind (load_function_or_die ld sym) (fun f =>
      bind (assign (upd f)) (fun _ => load_all rest k))
  end.

(** The static variables after the assignments of [steps]. *)
Definition assigned (steps : list (string * (ptr -> Statics -> Statics))) (s : Statics)
  : Statics :=
  fold_left (fun s step => snd step (resolve (fst step)) s) steps s.

(** The steps of [init_openssl_hooks] keep the flag and the descriptor. *)
Definition steps_keep (steps : list (string * (ptr -> Statics -> Statics))) : Prop :=
  Forall (fun step =>
            forall f s,
              openssl_init_flag (snd step f s) = openssl_init_flag s /\
              KeyLogFile_fd (snd step f s) = KeyLogFile_fd s) steps.

(** The world [KeyLogFile_init] leaves. *)
Definition KeyLogFile_init_world (w : World St) : World St :=
  if (0 <=? KeyLogFile_fd (shim w))%Z then w
  else
    match environ (kernel w) "SSLKEYLOGFILE" with
    | Some name =>
        mkWorld (with_KeyLogFile_fd (fst (kernel_open name (kernel w))) (shim w))
                (kernel_atexit H_KeyLogFile_finalize (snd (kernel_open name (kernel w))))
                (keylog_ctx w) (lib w)
                (calls w ++ [C_getenv "SSLKEYLOGFILE";
                             C_open name (fst (kernel_open name (kernel w)));
                             C_atexit])
    | None => add_calls w [C_getenv "SSLKEYLOGFILE"]
    end.

(** The buffers [KeyLogFile_callback] passes to [write] for [lines]: each
    line, then a newline in a call of its own. *)
Definition callback_writes (lines : list string) : list (list byte) :=
  flat_map (fun line => [list_byte_of_string line; [x0a]]) lines.

(** The text [lines] add to the log. *)
Definition log_text (lines : list string) : list byte :=
  concat (map (fun line => list_byte_of_string line ++ [x0a]) lines).

(** The lines the real handshake [h] hands to the callback: its secrets when
    the context of [ssl] carries the shim's callback, none otherwise. *)
Definition secrets_of (h : Hook) (ssl : ptr) (w : World St) : list string :=
  if existsb (Z.eqb (real_SSL_get_SSL_CTX L ssl (lib w))) (keylog_ctx w)
  then hs_secrets (real_handshake h ssl (lib w)) else [].

(** [KeyLogFile_fd] is an open descriptor on the file [path]. *)
Definition log_open (path : string) (w : World St) : Prop :=
  fd_is_open (KeyLogFile_fd (shim w)) (kernel w) = true /\
  fd_path (KeyLogFile_fd (shim w)) (kernel w) = Some path.

(** A successful [write] of [buf] on [fd]. *)
Definition full_write (fd : Z) (buf : list byte) : Call :=
  C_write fd buf (Z.of_nat (length buf)).

(** What [logging_key] writes after the handshake left the library in [st],
    the master key having been [before_key]. *)
Definition diff_writes (ssl : ptr) (before_key : SslMasterKey) (st : St)
  : list (list byte) :=
  match key_changed before_key (master_key_snapshot ssl st) with
  | Some true =>
      if (cr_length (client_random_snapshot ssl st) =? 0)%N then []
      else [snapshot_line ssl st]
  | _ => []
  end.

Definition is_open (c : Call) : bool :=
  match c with C_open _ _ => true | _ => false end.

(** The log is opened at most once, with the path of [SSLKEYLOGFILE], and the
    descriptor variable holds what that [open] returned; while the variable is
    negative no file has been touched.  [k0] is the kernel at start-up. *)
Definition opened_once_init (k0 : Kernel) (w : World St) : Prop :=
  environ (kernel w) "SSLKEYLOGFILE" = environ k0 "SSLKEYLOGFILE" /\
  (filter is_open (calls w) = [] /\ KeyLogFile_fd (shim w) = (-1)%Z \/
   exists path,
     environ k0 "SSLKEYLOGFILE" = Some path /\
     filter is_open (calls w) = [C_open path (KeyLogFile_fd (shim w))]) /\
  ((KeyLogFile_fd (shim w) < 0)%Z -> files (kernel w) = files k0).

Definition opened_once (k0 : Kernel) (w : World St) : Prop :=
  opened_once_init k0 w /\
  (openssl_init_flag (shim w) = false ->
   filter is_open (calls w) = [] /\ KeyLogFile_fd (shim w) = (-1)%Z).

(** The world a complete [init_openssl_hooks] leaves: the seven mandatory
    pointers and the callback pointer assigned, then [KeyLogFile_init]. *)
Definition init_openssl_hooks_world (w : World St) : World St :=
  KeyLogFile_init_world
    (mkWorld (with_SSL_CTX_set_keylog_callback (resolve "SSL_CTX_set_keylog_callback")
                (assigned mandatory_steps (shim w)))
             (kernel w) (keylog_ctx w) (lib w)
             ((calls w ++ flat_map (fun step => load_function_calls (fst step))
                            mandatory_steps)
              ++ load_function_calls "SSL_CTX_set_keylog_callback")).

(** The world [SSL_new] leaves once the shim is initialised. *)
Definition SSL_new_world (ctx : ptr) (w : World St) : World St :=
  let registers := negb (is_null (_SSL_CTX_set_keylog_callback (shim w))) in
  mkWorld (shim w) (kernel w)
          (if registers then ctx :: keylog_ctx w else keylog_ctx w)
          (snd (real_SSL_new L ctx (lib w)))
          (calls w ++ (if registers then [C_SSL_CTX_set_keylog_callback ctx] else [])
                   ++ [C_SSL_new ctx]).

(** The calls a function made: those after the ones already in [w]. *)
Definition new_calls (w w' : World St) : list Call :=
  skipn (length (calls w)) (calls w').

Definition is_write (c : Call) : bool :=
  match c with C_write _ _ _ => true | _ => false end.

Definition is_snapshot (c : Call) : bool :=
  match c with C_SSL_SESSION_get_master_key _ _ => true | _ => false end.

(** The buffers of the [write] calls, in order. *)
Definition writes_of (cs : list Call) : list (list byte) :=
  flat_map (fun c => match c with C_write _ buf _ => [buf] | _ => [] end) cs.

End Vocabulary.

(** * Properties *)

(** ** Arrays *)

Lemma store_in_bounds (buf : list byte) (p : nat) (bs : list byte) :
  p + length bs <= length buf ->
  store buf p bs = Some (firstn p buf ++ bs ++ skipn (p + length bs) buf).
Proof.
  intros H. unfold store.
  destruct (Nat.leb_spec (p + length bs) (length buf)); [reflexivity | lia].
Qed.

Lemma store_length (buf : list byte) (p : nat) (bs buf' : list byte) :
  store buf p bs = Some buf' -> length buf' = length buf.
Proof.
  unfold store. destruct (Nat.leb_spec (p + length bs) (length buf)); [|discriminate].
  intros E. injection E as <-.
  rewrite !length_app, length_firstn, length_skipn. lia.
Qed.

Lemma store_prefix (buf : list byte) (p : nat) (bs buf' : list byte) :
  store buf p bs = Some buf' -> firstn (p + length bs) buf' = firstn p buf ++ bs.
Proof.
  unfold store. destruct (Nat.leb_spec (p + length bs) (length buf)); [|discriminate].
  intros E. injection E as <-.
  rewrite app_assoc.
  rewrite firstn_app.
  rewrite length_app, length_firstn.
  replace (Nat.min p (length buf)) with p by lia.
  replace (p + length bs - (p + length bs)) with 0 by lia.
  rewrite firstn_O, app_nil_r.
  apply firstn_all2. rewrite length_app, length_firstn. lia.
Qed.

Lemma firstn_firstn_le {A} (l : list A) (n m : nat) :
  n <= m -> firstn n (firstn m l) = firstn n l.
Proof.
  intros H. rewrite firstn_firstn. f_equal. lia.
Qed.

Lemma skipn_nth_error {A} (l : list A) (i : nat) (v : A) :
  nth_error l i = Some v -> skipn i l = v :: skipn (S i) l.
Proof.
  revert i. induction l as [|a l IH]; intros [|i] H; simpl in *; try discriminate.
  - injection H as ->. reflexivity.
  - rewrite (IH i H). reflexivity.
Qed.

(** ** The hex loop of [KeyLogFile_raw_dump] *)

Lemma dump_hex_spec (value : list byte) (n : nat) :
  forall (i : nat) (line : list byte) (p : nat),
    i + n <= length value ->
    p + 2 * n + 1 <= length line ->
    exists line',
      dump_hex value i n line p = Some (line', p + 2 * n) /\
      length line' = length line /\
      firstn (p + 2 * n) line' = firstn p line ++ hex_lower (firstn n (skipn i value)).
Proof.
  induction n as [|n IH]; intros i line p Hv Hl.
  - exists line. simpl. rewrite Nat.add_0_r, app_nil_r. auto.
  - simpl dump_hex.
    destruct (nth_error value i) as [v|] eqn:Ev.
    2:{ apply nth_error_None in Ev. lia. }
    assert (Hs : p + length (sprintf_02x v) <= length line) by (simpl; lia).
    pose proof (store_in_bounds line p (sprintf_02x v) Hs) as Est.
    rewrite Est.
    set (line1 := firstn p line ++ sprintf_02x v ++ skipn (p + length (sprintf_02x v)) line) in *.
    pose proof (store_length _ _ _ Est) as Hlen1.
    pose proof (store_prefix _ _ _ Est) as Hpre1.
    destruct (IH (S i) line1 (p + 2)) as (line' & E & Hlen & Hpre); [lia | lia |].
    exists line'. split; [|split].
    + rewrite E. f_equal. f_equal. lia.
    + lia.
    + replace (p + 2 * S n) with (p + 2 + 2 * n) by lia.
      rewrite Hpre.
      rewrite (skipn_nth_error _ _ Ev). simpl firstn. simpl hex_lower.
      rewrite <- (firstn_firstn_le line1 (n := p + 2) (m := p + length (sprintf_02x v)))
        by (simpl; lia).
      rewrite Hpre1.
      rewrite firstn_app, length_firstn.
      replace (Nat.min p (length line)) with p by lia.
      replace (p + 2 - p) with 2 by lia.
      rewrite (firstn_all2 (n := p + 2) (firstn p line)) by (rewrite length_firstn; lia).
      simpl. rewrite <- app_assoc. reflexivity.
Qed.

(** The line built by [KeyLogFile_raw_dump] is the record of the data model,
    whenever both snapshots respect their capacity. *)
Lemma raw_dump_line_spec (client_random : SslClientRandom) (master_key : SslMasterKey) :
  client_random_ok client_random ->
  master_key_ok master_key ->
  raw_dump_line client_random master_key =
    Some (KeyLogLine
            (firstn (N.to_nat (cr_length client_random)) (cr_value client_random))
            (firstn (N.to_nat (mk_length master_key)) (mk_value master_key))).
Proof.
  intros [Hc1 Hc2] [Hm1 Hm2].
  unfold SSL3_RANDOM_SIZE in *. unfold SSL_MAX_MASTER_KEY_LENGTH in *.
  unfold raw_dump_line.
  remember (N.to_nat (cr_length client_random)) as n eqn:En.
  remember (N.to_nat (mk_length master_key)) as m eqn:Em.
  remember (repeat x00 CLIENT_RANDOM_LINE_LENGTH) as line0 eqn:E0.
  assert (Hl0 : length line0 = 177) by (subst line0; rewrite repeat_length; reflexivity).
  remember (list_byte_of_string CLIENT_RANDOM) as kw eqn:Ekw.
  assert (Hkw : length kw = 14) by (subst kw; reflexivity).
  remember CLIENT_RANDOM_LEN as k eqn:Ek.
  assert (Hk : k = 14) by (subst k; reflexivity).
  remember (list_byte_of_string " ") as sp eqn:Esp.
  assert (Hsp : length sp = 1) by (subst sp; reflexivity).
  clear E0 En Em Ek.
  destruct (store line0 0 kw) as [line1|] eqn:E1.
  2:{ rewrite store_in_bounds in E1; [discriminate | lia]. }
  pose proof (store_length _ _ _ E1) as Hl1.
  pose proof (store_prefix _ _ _ E1) as Hp1.
  rewrite firstn_O, app_nil_l, Hkw, Nat.add_0_l in Hp1.
  destruct (dump_hex_spec (cr_value client_random) n 0 line1 k)
    as (line2 & E2 & Hl2 & Hp2); [lia | lia |].
  rewrite E2. subst k.
  rewrite skipn_O, Hp1 in Hp2.
  destruct (store line2 (14 + 2 * n) sp) as [line3|] eqn:E3.
  2:{ rewrite store_in_bounds in E3; [discriminate | lia]. }
  pose proof (store_length _ _ _ E3) as Hl3.
  pose proof (store_prefix _ _ _ E3) as Hp3.
  rewrite Hsp, Hp2 in Hp3.
  destruct (dump_hex_spec (mk_value master_key) m 0 line3 (S (14 + 2 * n)))
    as (line4 & E4 & Hl4 & Hp4); [lia | lia |].
  rewrite E4.
  replace (S (14 + 2 * n)) with (14 + 2 * n + 1) in Hp4 by lia.
  rewrite skipn_O, Hp3 in Hp4.
  destruct (store line4 (S (14 + 2 * n) + 2 * m) [x0a]) as [line5|] eqn:E5.
  2:{ rewrite store_in_bounds in E5; [discriminate | cbn [length]; lia]. }
  pose proof (store_prefix _ _ _ E5) as Hp5. cbn [length] in Hp5.
  replace (S (14 + 2 * n) + 2 * m) with (14 + 2 * n + 1 + 2 * m) in Hp5 by lia.
  rewrite Hp4 in Hp5.
  replace (S (S (14 + 2 * n) + 2 * m)) with (14 + 2 * n + 1 + 2 * m + 1) by lia.
  rewrite Hp5. unfold KeyLogLine. subst kw sp.
  rewrite <- !app_assoc. reflexivity.
Qed.

(** ** [memcmp] *)

Lemma memcmp_spec (n : nat) :
  forall s1 s2 : list byte,
    n <= length s1 -> n <= length s2 ->
    exists r, memcmp s1 s2 n = Some r /\ (r = 0%Z <-> firstn n s1 = firstn n s2).
Proof.
  induction n as [|n IH]; intros s1 s2 H1 H2.
  - exists 0%Z. simpl. split; [reflexivity | split; reflexivity].
  - destruct s1 as [|c1 t1]; [simpl in H1; lia|].
    destruct s2 as [|c2 t2]; [simpl in H2; lia|].
    simpl in H1, H2. simpl memcmp. simpl firstn.
    destruct (Byte.eqb c1 c2) eqn:Ec.
    + apply Byte.byte_dec_bl in Ec. subst c2.
      destruct (IH t1 t2) as (r & E & Hr); [lia | lia |].
      exists r. split; [exact E|].
      rewrite Hr. split; [intros ->; reflexivity | intros Heq; injection Heq; auto].
    + apply Byte.eqb_false in Ec.
      exists (byte_to_Z c1 - byte_to_Z c2)%Z. split; [reflexivity|].
      split.
      * intros Hz. exfalso. apply Ec. unfold byte_to_Z in Hz.
        assert (Hn : Byte.to_N c1 = Byte.to_N c2) by lia.
        apply (f_equal Byte.of_N) in Hn. rewrite !Byte.of_to_N in Hn.
        injection Hn; auto.
      * intros Heq. injection Heq as Heq _. contradiction.
Qed.

(** The condition of [logging_key] on two snapshots of the data model. *)
Lemma key_changed_spec (before_key after_key : SslMasterKey) :
  master_key_ok before_key ->
  master_key_ok after_key ->
  exists c,
    key_changed before_key after_key = Some c /\
    (c = true <->
     (0 < mk_length after_key)%N /\
     firstn (N.to_nat (mk_length after_key)) (mk_value after_key)
       <> firstn (N.to_nat (mk_length after_key)) (mk_value before_key)).
Proof.
  intros [Hb1 Hb2] [Ha1 Ha2]. unfold key_changed.
  destruct (N.ltb_spec 0 (mk_length after_key)) as [Hpos|Hzero].
  - destruct (@memcmp_spec (N.to_nat (mk_length after_key))
                (mk_value after_key) (mk_value before_key)) as (r & E & Hr); [lia | lia |].
    rewrite E. exists (negb (r =? 0)%Z). split; [reflexivity|].
    rewrite negb_true_iff, Z.eqb_neq, Hr. tauto.
  - exists false. split; [reflexivity|].
    split; [discriminate | intros [H _]; lia].
Qed.

(** ** The calls through the resolved pointers *)

Section Hooks.

Variable St : Type.
Variable L : Library St.

Lemma add_calls_add_calls (w : World St) (cs cs' : list Call) :
  add_calls (add_calls w cs) cs' = add_calls w (cs ++ cs').
Proof. unfold add_calls. simpl. rewrite app_assoc. reflexivity. Qed.

Lemma master_key_snapshot_ok (ssl : ptr) (st : St) :
  respects_outlen L -> master_key_ok (master_key_snapshot L ssl st).
Proof.
  intros [Hk _]. unfold master_key_ok, master_key_snapshot, SslMasterKey_zero.
  cbn [mk_value mk_length].
  destruct (Hk (real_SSL_get_session L ssl st) SSL_MAX_MASTER_KEY_LENGTH st) as [H1 H2].
  split; [|exact H2].
  rewrite length_app, length_skipn, repeat_length. lia.
Qed.

Lemma client_random_snapshot_ok (ssl : ptr) (st : St) :
  respects_outlen L -> client_random_ok (client_random_snapshot L ssl st).
Proof.
  intros [_ Hr]. unfold client_random_ok, client_random_snapshot, SslClientRandom_zero.
  cbn [cr_value cr_length].
  destruct (Hr ssl SSL3_RANDOM_SIZE st) as [H1 H2].
  split; [|exact H2].
  rewrite length_app, length_skipn, repeat_length. lia.
Qed.

Lemma lib_add_calls (w : World St) (cs : list Call) : lib (add_calls w cs) = lib w.
Proof. reflexivity. Qed.

Lemma shim_add_calls (w : World St) (cs : list Call) : shim (add_calls w cs) = shim w.
Proof. reflexivity. Qed.

Lemma SslMasterKey_eta (k : SslMasterKey) : mkSslMasterKey (mk_value k) (mk_length k) = k.
Proof. destruct k; reflexivity. Qed.

Lemma SslClientRandom_eta (r : SslClientRandom) :
  mkSslClientRandom (cr_value r) (cr_length r) = r.
Proof. destruct r; reflexivity. Qed.

(** A snapshot, followed by anything. *)
Lemma snapshot_bind {B} (ssl : ptr) (k : list byte * N -> Proc St B) (w : World St) :
  resolved (shim w) ->
  respects_outlen L ->
  bind (call_SSL_get_session L ssl) (fun session =>
    bind (call_SSL_SESSION_get_master_key L session (mk_value SslMasterKey_zero)
            SSL_MAX_MASTER_KEY_LENGTH) k) w
  = k (mk_value (master_key_snapshot L ssl (lib w)),
       mk_length (master_key_snapshot L ssl (lib w)))
      (add_calls w (snapshot_calls L ssl (lib w))).
Proof.
  intros (_ & _ & _ & _ & _ & Hmk & Hgs) [Hk _].
  unfold call_SSL_get_session, call_SSL_SESSION_get_master_key, bind, get_shim, log.
  rewrite Hgs. cbn [shim]. rewrite Hmk. cbn [lib fst snd].
  destruct (Hk (real_SSL_get_session L ssl (lib w)) SSL_MAX_MASTER_KEY_LENGTH (lib w))
    as [H1 _].
  rewrite store_in_bounds
    by (unfold SslMasterKey_zero; cbn [mk_value]; rewrite repeat_length; lia).
  unfold of_option, ret, add_calls, snapshot_calls, master_key_snapshot.
  cbn [shim kernel keylog_ctx lib calls mk_value mk_length firstn app Nat.add].
  rewrite <- app_assoc. reflexivity.
Qed.

Lemma client_random_bind {B} (ssl : ptr) (k : list byte * N -> Proc St B) (w : World St) :
  resolved (shim w) ->
  respects_outlen L ->
  bind (call_SSL_get_client_random L ssl (cr_value SslClientRandom_zero) SSL3_RANDOM_SIZE) k w
  = k (cr_value (client_random_snapshot L ssl (lib w)),
       cr_length (client_random_snapshot L ssl (lib w)))
      (add_calls w [C_SSL_get_client_random ssl SSL3_RANDOM_SIZE]).
Proof.
  intros (_ & _ & _ & _ & Hcr & _ & _) [_ Hr].
  unfold call_SSL_get_client_random, bind, get_shim, log.
  rewrite Hcr. cbn [lib fst snd].
  destruct (Hr ssl SSL3_RANDOM_SIZE (lib w)) as [H1 _].
  rewrite store_in_bounds
    by (unfold SslClientRandom_zero; cbn [cr_value]; rewrite repeat_length; lia).
  reflexivity.
Qed.

Lemma KeyLogFile_raw_dump_spec (client_random : SslClientRandom) (master_key : SslMasterKey)
    (w : World St) :
  client_random_ok client_random ->
  master_key_ok master_key ->
  KeyLogFile_raw_dump client_random master_key w =
    if negb (cr_length client_random =? 0)%N && negb (mk_length master_key =? 0)%N
    then Returns tt
           (after_write w
              (KeyLogLine
                 (firstn (N.to_nat (cr_length client_random)) (cr_value client_random))
                 (firstn (N.to_nat (mk_length master_key)) (mk_value master_key))))
    else Returns tt w.
Proof.
  intros Hc Hm. unfold KeyLogFile_raw_dump.
  destruct (negb (cr_length client_random =? 0)%N && negb (mk_length master_key =? 0)%N);
    [|reflexivity].
  unfold bind. rewrite (raw_dump_line_spec Hc Hm).
  unfold of_option, ret, get_shim, sys_write, after_write.
  destruct (kernel_write _ _ _). reflexivity.
Qed.

Lemma logging_key_spec (ssl : ptr) (before_key : SslMasterKey) (w : World St) :
  resolved (shim w) ->
  respects_outlen L ->
  master_key_ok before_key ->
  logging_key L ssl before_key w = Returns tt (logging_key_world L ssl before_key w).
Proof.
  intros Hres Hlib Hbefore.
  unfold logging_key. rewrite snapshot_bind by assumption.
  pose proof (master_key_snapshot_ok ssl (lib w) Hlib) as Hafter.
  destruct (key_changed_spec Hbefore Hafter) as (c & Ec & Hc).
  unfold logging_key_world.
  cbn [fst snd]. rewrite SslMasterKey_eta.
  unfold bind at 1. rewrite Ec. unfold of_option, ret.
  destruct c.
  - rewrite client_random_bind by assumption.
    cbn [fst snd]. rewrite lib_add_calls, SslClientRandom_eta.
    rewrite KeyLogFile_raw_dump_spec
      by (auto using client_random_snapshot_ok, master_key_snapshot_ok).
    rewrite add_calls_add_calls.
    assert (Hnz : (mk_length (master_key_snapshot L ssl (lib w)) =? 0)%N = false).
    { apply N.eqb_neq. destruct Hc as [Hc _]. destruct (Hc eq_refl). lia. }
    rewrite Hnz. unfold snapshot_line.
    destruct (cr_length (client_random_snapshot L ssl (lib w)) =? 0)%N; reflexivity.
  - reflexivity.
Qed.

Lemma for_each_callback_spec (ssl : ptr) (lines : list string) :
  forall w : World St,
    for_each (KeyLogFile_callback (St := St) ssl) lines w
    = Returns tt (callbacks_world lines w).
Proof.
  induction lines as [|line lines IH]; intros w; [reflexivity|].
  cbn [for_each callbacks_world]. unfold bind at 1.
  unfold KeyLogFile_callback at 1. unfold bind at 1. unfold get_shim at 1.
  destruct (0 <=? KeyLogFile_fd (shim w))%Z.
  - unfold bind, sys_write, ret.
    destruct (kernel_write (KeyLogFile_fd (shim w)) (list_byte_of_string line) (kernel w))
      as [r1 k1] eqn:E1.
    cbn [shim kernel keylog_ctx lib calls].
    destruct (kernel_write (KeyLogFile_fd (shim w)) [x0a] k1) as [r2 k2] eqn:E2.
    rewrite IH. unfold after_write. cbn [shim kernel keylog_ctx lib calls].
    rewrite E1. cbn [fst snd]. rewrite E2. reflexivity.
  - unfold ret. apply IH.
Qed.

Lemma shim_after_write (w : World St) (buf : list byte) : shim (after_write w buf) = shim w.
Proof. reflexivity. Qed.

Lemma lib_after_write (w : World St) (buf : list byte) : lib (after_write w buf) = lib w.
Proof. reflexivity. Qed.

Lemma keylog_ctx_after_write (w : World St) (buf : list byte) :
  keylog_ctx (after_write w buf) = keylog_ctx w.
Proof. reflexivity. Qed.

Lemma callbacks_world_frame (lines : list string) :
  forall w : World St,
    shim (callbacks_world lines w) = shim w /\
    lib (callbacks_world lines w) = lib w /\
    keylog_ctx (callbacks_world lines w) = keylog_ctx w /\
    exists cs, calls (callbacks_world lines w) = calls w ++ cs /\
               forallb is_write cs = true.
Proof.
  induction lines as [|line lines IH]; intros w.
  - cbn [callbacks_world]. repeat split. exists []. rewrite app_nil_r. auto.
  - cbn [callbacks_world].
    destruct (0 <=? KeyLogFile_fd (shim w))%Z; [|apply IH].
    destruct (IH (after_write (after_write w (list_byte_of_string line)) [x0a]))
      as (Hs & Hl & Hc & cs & Hcs & Hw).
    rewrite Hs, Hl, Hc. repeat split.
    rewrite Hcs. unfold after_write at 1. cbn [calls].
    unfold after_write at 1. cbn [calls].
    eexists. rewrite <- !app_assoc. split; [reflexivity|].
    cbn [app forallb is_write andb]. exact Hw.
Qed.

Lemma call_real_spec (h : Hook) (ssl : ptr) (w : World St) :
  resolved (shim w) ->
  call_real L h ssl w
  = Returns (hs_ret (real_handshake L h ssl (lib w))) (call_real_world L h ssl w).
Proof.
  intros (_ & Hc & Hd & Ha & _).
  destruct h; cbn [call_real];
    unfold call_SSL_connect, call_SSL_do_handshake, call_SSL_accept;
    unfold bind at 1; unfold get_shim at 1; unfold call_handshake;
    rewrite ?Hc, ?Hd, ?Ha; unfold bind, log;
    cbn [shim kernel keylog_ctx lib calls fst snd];
    rewrite for_each_callback_spec; reflexivity.
Qed.

Lemma shim_call_real_world (h : Hook) (ssl : ptr) (w : World St) :
  shim (call_real_world L h ssl w) = shim w.
Proof.
  unfold call_real_world.
  match goal with |- shim (callbacks_world ?l ?w0) = _ =>
    destruct (callbacks_world_frame l w0) as (Hs & _) end.
  rewrite Hs. reflexivity.
Qed.

Lemma lib_call_real_world (h : Hook) (ssl : ptr) (w : World St) :
  lib (call_real_world L h ssl w) = hs_state (real_handshake L h ssl (lib w)).
Proof.
  unfold call_real_world.
  match goal with |- lib (callbacks_world ?l ?w0) = _ =>
    destruct (callbacks_world_frame l w0) as (_ & Hl & _) end.
  rewrite Hl. reflexivity.
Qed.

(** Without a registered context the library has no callback to call. *)
Lemma call_real_world_no_callback (h : Hook) (ssl : ptr) (w : World St) :
  keylog_ctx w = [] ->
  call_real_world L h ssl w
  = mkWorld (shim w) (kernel w) (keylog_ctx w) (hs_state (real_handshake L h ssl (lib w)))
            (calls w ++ [handshake_call h ssl]).
Proof.
  intros H. unfold call_real_world. rewrite H. reflexivity.
Qed.

(** The hooks and the path they share. *)
Lemma hooked_accept (ssl : ptr) (w : World St) :
  hooked L H_accept ssl w = hook_path L (call_real L H_accept) ssl w.
Proof. reflexivity. Qed.

Lemma hooked_hook_mode (h : Hook) (ssl : ptr) (w : World St) :
  is_null (_SSL_CTX_set_keylog_callback (shim w)) = true ->
  hooked L h ssl w = hook_path L (call_real L h) ssl w.
Proof.
  intros H. destruct h; [| |reflexivity];
    cbn [hooked]; unfold SSL_connect, SSL_do_handshake;
    unfold bind at 1; unfold get_shim at 1; rewrite H; reflexivity.
Qed.

Lemma hooked_callback_mode (h : Hook) (ssl : ptr) (w : World St) :
  h <> H_accept ->
  is_null (_SSL_CTX_set_keylog_callback (shim w)) = false ->
  hooked L h ssl w = call_real L h ssl w.
Proof.
  intros Hh H. destruct h; [| |contradiction];
    cbn [hooked]; unfold SSL_connect, SSL_do_handshake;
    unfold bind at 1; unfold get_shim at 1; rewrite H; reflexivity.
Qed.

Lemma hook_path_spec (h : Hook) (ssl : ptr) (w : World St) :
  resolved (shim w) ->
  respects_outlen L ->
  hook_path L (call_real L h) ssl w
  = Returns (hs_ret (real_handshake L h ssl (lib w))) (hook_path_world L h ssl w).
Proof.
  intros Hres Hlib. unfold hook_path. rewrite snapshot_bind by assumption.
  unfold bind at 1. rewrite call_real_spec by (rewrite shim_add_calls; assumption).
  rewrite lib_add_calls. cbn [fst snd]. rewrite SslMasterKey_eta.
  unfold hook_path_world.
  destruct (hs_ret (real_handshake L h ssl (lib w)) =? 1)%Z.
  - unfold bind. rewrite logging_key_spec;
      [reflexivity | rewrite shim_call_real_world, shim_add_calls; assumption
       | assumption | apply master_key_snapshot_ok; assumption].
  - reflexivity.
Qed.

(** The calls of the shared path in hook mode. *)
Lemma new_calls_app (w w' : World St) (cs : list Call) :
  calls w' = calls w ++ cs -> new_calls w w' = cs.
Proof.
  intros H. unfold new_calls. rewrite H.
  rewrite skipn_app, skipn_all, Nat.sub_diag. reflexivity.
Qed.

Lemma calls_after_write (w : World St) (buf : list byte) :
  calls (after_write w buf)
  = calls w ++ [C_write (KeyLogFile_fd (shim w)) buf
                  (fst (kernel_write (KeyLogFile_fd (shim w)) buf (kernel w)))].
Proof. reflexivity. Qed.

Lemma calls_logging_key_world (ssl : ptr) (before_key : SslMasterKey) (w : World St) :
  calls (logging_key_world L ssl before_key w)
  = calls w ++ logging_key_calls L ssl before_key w.
Proof.
  unfold logging_key_world, logging_key_calls.
  destruct (key_changed before_key (master_key_snapshot L ssl (lib w))) as [[|]|];
    try (cbn [add_calls calls]; rewrite app_nil_r; reflexivity).
  destruct (cr_length (client_random_snapshot L ssl (lib w)) =? 0)%N.
  - reflexivity.
  - rewrite calls_after_write. cbn [add_calls calls shim kernel].
    rewrite <- !app_assoc. reflexivity.
Qed.

End Hooks.

Section HookProperties.

Variable St : Type.
Variable L : Library St.

Lemma kernel_write_bad_fd (fd : Z) (buf : list byte) (k : Kernel) :
  (fd < 0)%Z -> kernel_write fd buf k = ((-1)%Z, k).
Proof.
  intros H. unfold kernel_write, fd_is_open.
  destruct (Z.leb_spec 0 fd); [lia | reflexivity].
Qed.

Lemma writes_of_app (cs cs' : list Call) :
  writes_of (cs ++ cs') = writes_of cs ++ writes_of cs'.
Proof. unfold writes_of. apply flat_map_app. Qed.

Lemma filter_is_snapshot_writes (cs : list Call) :
  forallb is_write cs = true -> filter is_snapshot cs = [].
Proof.
  induction cs as [|c cs IH]; [reflexivity|].
  cbn [forallb]. intros H. apply andb_prop in H as [Hc Hcs].
  destruct c; try discriminate. cbn [filter is_snapshot]. auto.
Qed.

Lemma filter_is_snapshot_logging_key (ssl : ptr) (before_key : SslMasterKey) (w : World St) :
  length (filter is_snapshot (logging_key_calls L ssl before_key w)) = 1.
Proof.
  unfold logging_key_calls, snapshot_calls.
  destruct (key_changed _ _) as [[|]|]; try reflexivity.
  destruct (cr_length _ =? 0)%N; reflexivity.
Qed.

(** The calls of the shared path: a snapshot, the real call, what the library
    writes through the callback while it runs, and after a success what
    [logging_key] does. *)
Lemma calls_hook_path_world (h : Hook) (ssl : ptr) (w : World St) :
  exists cs,
    forallb is_write cs = true /\
    (keylog_ctx w = [] -> cs = []) /\
    calls (hook_path_world L h ssl w)
    = calls w ++ snapshot_calls L ssl (lib w) ++ handshake_call h ssl :: cs ++
      (if (hs_ret (real_handshake L h ssl (lib w)) =? 1)%Z
       then logging_key_calls L ssl (master_key_snapshot L ssl (lib w))
              (call_real_world L h ssl (add_calls w (snapshot_calls L ssl (lib w))))
       else []).
Proof.
  set (w0 := add_calls w (snapshot_calls L ssl (lib w))).
  assert (Hreal : exists cs,
             forallb is_write cs = true /\ (keylog_ctx w = [] -> cs = []) /\
             calls (call_real_world L h ssl w0)
             = calls w ++ snapshot_calls L ssl (lib w) ++ handshake_call h ssl :: cs).
  { unfold call_real_world.
    match goal with |- context [callbacks_world ?l ?w1] =>
      destruct (callbacks_world_frame l w1) as (_ & _ & _ & cs & Hcs & Hw);
      exists (if existsb (Z.eqb (real_SSL_get_SSL_CTX L ssl (lib w0))) (keylog_ctx w0)
              then cs else [])
    end.
    split; [destruct (existsb _ _); [exact Hw | reflexivity]|].
    split; [intros Hk; subst w0; cbn [add_calls keylog_ctx]; rewrite Hk; reflexivity|].
    destruct (existsb _ _) eqn:Ex.
    - rewrite Hcs. subst w0. cbn [calls add_calls]. rewrite <- !app_assoc. reflexivity.
    - subst w0. cbn [callbacks_world calls add_calls]. rewrite <- !app_assoc. reflexivity. }
  destruct Hreal as (cs & Hw & Hnil & Hcalls).
  exists cs. split; [exact Hw|]. split; [exact Hnil|].
  unfold hook_path_world. fold w0.
  destruct (hs_ret (real_handshake L h ssl (lib w)) =? 1)%Z.
  - rewrite calls_logging_key_world, Hcalls. rewrite <- !app_assoc. reflexivity.
  - rewrite Hcalls, app_nil_r. reflexivity.
Qed.

(** In hook mode nothing is written while the real call runs. *)
Lemma hook_path_world_hook_mode (h : Hook) (ssl : ptr) (w : World St) :
  keylog_ctx w = [] ->
  hook_path_world L h ssl w
  = let r := real_handshake L h ssl (lib w) in
    let w1 := mkWorld (shim w) (kernel w) (keylog_ctx w) (hs_state r)
                (calls w ++ snapshot_calls L ssl (lib w) ++ [handshake_call h ssl]) in
    if (hs_ret r =? 1)%Z
    then logging_key_world L ssl (master_key_snapshot L ssl (lib w)) w1
    else w1.
Proof.
  intros Hk. unfold hook_path_world.
  rewrite call_real_world_no_callback by exact Hk.
  cbn [add_calls shim kernel keylog_ctx lib calls]. rewrite <- app_assoc. reflexivity.
Qed.

Lemma kernel_logging_key_world (ssl : ptr) (before_key : SslMasterKey) (w : World St) :
  kernel (logging_key_world L ssl before_key w)
  = match key_changed before_key (master_key_snapshot L ssl (lib w)) with
    | Some true =>
        if (cr_length (client_random_snapshot L ssl (lib w)) =? 0)%N then kernel w
        else snd (kernel_write (KeyLogFile_fd (shim w)) (snapshot_line L ssl (lib w))
                    (kernel w))
    | _ => kernel w
    end.
Proof.
  unfold logging_key_world.
  destruct (key_changed _ _) as [[|]|]; try reflexivity.
  destruct (cr_length _ =? 0)%N; reflexivity.
Qed.

(** What a hook does in hook mode. *)
Lemma hooked_hook_mode_spec (h : Hook) (ssl : ptr) (w : World St) :
  HookMode w ->
  respects_outlen L ->
  hooked L h ssl w
    = Returns (hs_ret (real_handshake L h ssl (lib w))) (hook_path_world L h ssl w) /\
  new_calls w (hook_path_world L h ssl w)
    = snapshot_calls L ssl (lib w) ++ handshake_call h ssl ::
      (if (hs_ret (real_handshake L h ssl (lib w)) =? 1)%Z
       then logging_key_calls L ssl (master_key_snapshot L ssl (lib w))
              (mkWorld (shim w) (kernel w) (keylog_ctx w)
                 (hs_state (real_handshake L h ssl (lib w))) (calls w))
       else []).
Proof.
  intros (Hres & Hcb & Hk) Hlib. split.
  - rewrite hooked_hook_mode by exact Hcb. apply hook_path_spec; assumption.
  - apply new_calls_app.
    destruct (calls_hook_path_world h ssl w) as (cs & _ & Hnil & Hcalls).
    rewrite Hcalls, (Hnil Hk).
    rewrite call_real_world_no_callback by (cbn [add_calls keylog_ctx]; exact Hk).
    reflexivity.
Qed.

(** The buffers the callback passes to [write], open log or not. *)
Lemma callbacks_world_writes (lines : list string) :
  forall w : World St,
    exists cs,
      calls (callbacks_world lines w) = calls w ++ cs /\
      forallb is_write cs = true /\
      writes_of cs
      = if (0 <=? KeyLogFile_fd (shim w))%Z then callback_writes lines else [].
Proof.
  induction lines as [|line lines IH]; intros w.
  - exists []. cbn [callbacks_world]. rewrite app_nil_r.
    destruct (0 <=? _)%Z; repeat split.
  - cbn [callbacks_world].
    destruct (0 <=? KeyLogFile_fd (shim w))%Z eqn:E.
    + destruct (IH (after_write (after_write w (list_byte_of_string line)) [x0a]))
        as (cs & Hc & Hw & Hb).
      rewrite !shim_after_write, E in Hb.
      rewrite Hc, !calls_after_write. rewrite <- !app_assoc.
      eexists. split; [reflexivity|].
      cbn [app forallb is_write andb]. split; [exact Hw|].
      cbn [writes_of flat_map app]. fold (writes_of cs). rewrite Hb. reflexivity.
    + destruct (IH w) as (cs & Hc & Hw & Hb). rewrite E in Hb.
      exists cs. repeat split; assumption.
Qed.

(** The calls of the shared path, with what the callback writes while the
    real call runs. *)
Lemma calls_hook_path_world_writes (h : Hook) (ssl : ptr) (w : World St) :
  exists cs,
    forallb is_write cs = true /\
    writes_of cs
    = (if (0 <=? KeyLogFile_fd (shim w))%Z
       then callback_writes (secrets_of L h ssl w) else []) /\
    calls (hook_path_world L h ssl w)
    = calls w ++ snapshot_calls L ssl (lib w) ++ handshake_call h ssl :: cs ++
      (if (hs_ret (real_handshake L h ssl (lib w)) =? 1)%Z
       then logging_key_calls L ssl (master_key_snapshot L ssl (lib w))
              (call_real_world L h ssl (add_calls w (snapshot_calls L ssl (lib w))))
       else []).
Proof.
  set (w0 := add_calls w (snapshot_calls L ssl (lib w))).
  destruct (callbacks_world_writes (secrets_of L h ssl w0)
              (mkWorld (shim w0) (kernel w0) (keylog_ctx w0)
                 (hs_state (real_handshake L h ssl (lib w0)))
                 (calls w0 ++ [handshake_call h ssl])))
    as (cs & Hc & Hw & Hb).
  exists cs. split; [exact Hw|]. split; [exact Hb|].
  assert (Hcalls : calls (call_real_world L h ssl w0)
                   = calls w ++ snapshot_calls L ssl (lib w) ++ handshake_call h ssl :: cs).
  { unfold call_real_world. fold (secrets_of L h ssl w0). rewrite Hc.
    unfold w0. cbn [add_calls calls]. rewrite <- !app_assoc. reflexivity. }
  unfold hook_path_world. fold w0.
  destruct (hs_ret (real_handshake L h ssl (lib w)) =? 1)%Z.
  - rewrite calls_logging_key_world, Hcalls. rewrite <- !app_assoc. reflexivity.
  - rewrite Hcalls, app_nil_r. reflexivity.
Qed.

Lemma writes_of_logging_key_calls (ssl : ptr) (before_key : SslMasterKey) (w : World St) :
  writes_of (logging_key_calls L ssl before_key w) = diff_writes L ssl before_key (lib w).
Proof.
  unfold logging_key_calls, diff_writes, snapshot_calls.
  destruct (key_changed _ _) as [[|]|]; try reflexivity.
  destruct (cr_length _ =? 0)%N; reflexivity.
Qed.

Lemma lib_hook_path_world (h : Hook) (ssl : ptr) (w : World St) :
  lib (hook_path_world L h ssl w) = hs_state (real_handshake L h ssl (lib w)).
Proof.
  unfold hook_path_world.
  assert (Hl : forall before w1, lib (logging_key_world L ssl before w1) = lib w1).
  { intros before w1. unfold logging_key_world.
    destruct (key_changed _ _) as [[|]|]; try reflexivity.
    destruct (cr_length _ =? 0)%N; reflexivity. }
  destruct (hs_ret _ =? 1)%Z; rewrite ?Hl, lib_call_real_world; reflexivity.
Qed.

End HookProperties.

(** ** The concrete library *)

Lemma toy_respects_outlen : respects_outlen Toy.library.
Proof.
  split; intros p outlen st; cbn [Toy.library real_SSL_SESSION_get_master_key
                                   real_SSL_get_client_random].
  - destruct st; cbn [fst snd length]; [split; lia|].
    rewrite length_firstn, Nat2N.id. split; lia.
  - destruct (p =? 13)%Z; cbn [fst snd length]; [split; lia|].
    rewrite length_firstn, Nat2N.id. split; lia.
Qed.

Lemma toy_hook_mode : HookMode Toy.hook_world.
Proof. repeat split. Qed.

Lemma toy_callback_mode : CallbackMode Toy.callback_world.
Proof. repeat split. Qed.

Lemma hex_lower_length (bs : list byte) : length (hex_lower bs) = 2 * length bs.
Proof.
  induction bs as [|b bs IH]; [reflexivity|].
  cbn [hex_lower flat_map app length] in *. fold (hex_lower bs). lia.
Qed.

Lemma hexdigit_lowercase (d : N) :
  (d < 16)%N -> In (hexdigit d) (list_byte_of_string "0123456789abcdef").
Proof.
  intros H. unfold hexdigit. apply nth_In.
  change (length (list_byte_of_string "0123456789abcdef")) with 16. lia.
Qed.

Lemma hex_lower_digits (bs : list byte) :
  Forall (fun c => In c (list_byte_of_string "0123456789abcdef")) (hex_lower bs).
Proof.
  induction bs as [|b bs IH]; [constructor|].
  cbn [hex_lower flat_map app]. fold (hex_lower bs).
  pose proof (Byte.to_N_bounded b) as Hb.
  constructor; [|constructor; [|exact IH]]; apply hexdigit_lowercase.
  - apply N.Div0.div_lt_upper_bound. lia.
  - apply N.mod_lt. discriminate.
Qed.

(** ** Steps that leave the key-log file management alone *)

Section Frame.

Variable St : Type.
Variable L : Library St.
Variable ld : Linker.

Lemma quiet_step_refl (w : World St) : quiet_step w w.
Proof.
  unfold quiet_step. repeat split; try reflexivity.
  exists []. rewrite app_nil_r. split; reflexivity.
Qed.

Lemma quiet_step_trans (w1 w2 w3 : World St) :
  quiet_step w1 w2 -> quiet_step w2 w3 -> quiet_step w1 w3.
Proof.
  intros (Hs1 & Hx1 & He1 & Ht1 & Hh1 & Hfi1 & cs1 & Hc1 & Hq1)
         (Hs2 & Hx2 & He2 & Ht2 & Hh2 & Hfi2 & cs2 & Hc2 & Hq2).
  unfold quiet_step. rewrite Hs1 in *.
  repeat split; try congruence.
  - intros Hneg. rewrite Hfi2, Hfi1 by assumption. reflexivity.
  - exists (cs1 ++ cs2). rewrite Hc2, Hc1, <- app_assoc. split; [reflexivity|].
    rewrite forallb_app, Hq1, Hq2. reflexivity.
Qed.

Lemma quiet_step_mk (w : World St) (k' : Kernel) (l' : St) (cs : list Call) :
  environ k' = environ (kernel w) ->
  fds k' = fds (kernel w) ->
  exit_handlers k' = exit_handlers (kernel w) ->
  ((KeyLogFile_fd (shim w) < 0)%Z -> files k' = files (kernel w)) ->
  forallb (quiet_call (KeyLogFile_fd (shim w))) cs = true ->
  quiet_step w (mkWorld (shim w) k' (keylog_ctx w) l' (calls w ++ cs)).
Proof.
  intros. unfold quiet_step. cbn [shim kernel keylog_ctx calls].
  repeat split; try assumption. exists cs. auto.
Qed.

Lemma quiet_step_mk0 (w : World St) (l' : St) :
  quiet_step w (mkWorld (shim w) (kernel w) (keylog_ctx w) l' (calls w)).
Proof.
  unfold quiet_step. cbn [shim kernel keylog_ctx calls].
  repeat split. exists []. rewrite app_nil_r. auto.
Qed.

Lemma quiet_intro {A} (m : Proc St A) :
  (forall w, match m w with
             | Returns _ w' => quiet_step w w'
             | Aborted w' => quiet_step w w'
             | Undefined => True
             end) ->
  quiet m.
Proof.
  intros H w0 w Hw. specialize (H w).
  destruct (m w); eauto using quiet_step_trans.
Qed.

Lemma hoare_bind {A B} (P : World St -> Prop) (m : Proc St A) (f : A -> Proc St B)
    (R : A -> World St -> Prop) (Q : B -> World St -> Prop) (E : World St -> Prop) :
  hoare P m R E ->
  (forall a, hoare (R a) (f a) Q E) ->
  hoare P (bind m f) Q E.
Proof.
  intros Hm Hf w Hw. unfold bind. specialize (Hm w Hw).
  destruct (m w) as [a w'| |]; [apply (Hf a w' Hm) | exact Hm | exact I].
Qed.

Lemma hoare_weaken {A} (P P' : World St -> Prop) (m : Proc St A)
    (Q Q' : A -> World St -> Prop) (E E' : World St -> Prop) :
  hoare P m Q E ->
  (forall w, P' w -> P w) ->
  (forall a w, Q a w -> Q' a w) ->
  (forall w, E w -> E' w) ->
  hoare P' m Q' E'.
Proof.
  intros H HP HQ HE w Hw. specialize (H w (HP w Hw)).
  destruct (m w); auto.
Qed.

(** A property that quiet steps keep is kept by quiet functions. *)
Lemma hoare_of_quiet {A} (I : World St -> Prop) (m : Proc St A) :
  (forall w w', I w -> quiet_step w w' -> I w') ->
  quiet m ->
  hoare I m (fun _ => I) I.
Proof.
  intros Hst Hq w Hw. specialize (Hq w w (quiet_step_refl w)).
  destruct (m w); eauto.
Qed.

Lemma quiet_ret {A} (a : A) : quiet (ret (St := St) a).
Proof. apply quiet_intro. intros w. apply quiet_step_refl. Qed.

Lemma quiet_undefined {A} : quiet (undefined (St := St) (A := A)).
Proof. apply quiet_intro. intros w. exact I. Qed.

Lemma quiet_bind {A B} (m : Proc St A) (f : A -> Proc St B) :
  quiet m -> (forall a, quiet (f a)) -> quiet (bind m f).
Proof.
  intros Hm Hf w0. apply hoare_bind with (R := fun _ => quiet_step w0).
  - apply Hm.
  - intros a. apply Hf.
Qed.

Lemma quiet_get_shim : quiet (get_shim (St := St)).
Proof. apply quiet_intro. intros w. apply quiet_step_refl. Qed.

Lemma quiet_log (c : Call) :
  (forall fd, quiet_call fd c = true) -> quiet (log (St := St) c).
Proof.
  intros H. apply quiet_intro. intros w. unfold log.
  apply quiet_step_mk; try reflexivity. cbn [forallb]. rewrite H. reflexivity.
Qed.

Lemma quiet_abort {A} : quiet (abort (St := St) (A := A)).
Proof.
  apply quiet_intro. intros w. unfold abort.
  apply quiet_step_mk; reflexivity.
Qed.

Lemma quiet_of_option {A} (o : option A) : quiet (of_option (St := St) o).
Proof. destruct o; [apply quiet_ret | apply quiet_undefined]. Qed.

Lemma quiet_for_each {A} (f : A -> Proc St unit) (l : list A) :
  (forall a, quiet (f a)) -> quiet (for_each f l).
Proof.
  intros Hf. induction l as [|a l IH]; cbn [for_each].
  - apply quiet_ret.
  - apply quiet_bind; [apply Hf | intros _; exact IH].
Qed.

(** A [write] on the log descriptor. *)
Lemma quiet_write (buf : list byte) (k : Z -> Proc St unit) :
  (forall r, quiet (k r)) ->
  quiet (bind (get_shim (St := St)) (fun s => bind (sys_write (KeyLogFile_fd s) buf) k)).
Proof.
  intros Hk w0 w Hw. unfold bind at 1. unfold get_shim. unfold bind.
  assert (Hstep : match sys_write (KeyLogFile_fd (shim w)) buf w with
                  | Returns _ w' => quiet_step w w'
                  | _ => False
                  end).
  { unfold sys_write, kernel_write.
    destruct (fd_is_open (KeyLogFile_fd (shim w)) (kernel w)) eqn:Eo.
    - unfold fd_is_open in Eo. apply andb_prop in Eo as [Epos _].
      destruct (fd_path _ _).
      + apply quiet_step_mk; try reflexivity.
        * intros Hneg. apply Z.leb_le in Epos. lia.
        * cbn [forallb quiet_call]. rewrite Z.eqb_refl, Epos. reflexivity.
      + apply quiet_step_mk; try reflexivity.
        cbn [forallb quiet_call]. rewrite Z.eqb_refl, Epos. reflexivity.
    - apply quiet_step_mk; try reflexivity.
      cbn [forallb quiet_call]. rewrite Z.eqb_refl, orb_true_r. reflexivity. }
  destruct (sys_write (KeyLogFile_fd (shim w)) buf w) as [r w'| |]; try contradiction.
  apply (Hk r w0 w'). eauto using quiet_step_trans.
Qed.

Lemma quiet_KeyLogFile_callback (ssl : ptr) (line : string) :
  quiet (KeyLogFile_callback (St := St) ssl line).
Proof.
  intros w0 w Hw. unfold KeyLogFile_callback. unfold bind at 1. unfold get_shim at 1.
  destruct (0 <=? KeyLogFile_fd (shim w))%Z.
  - assert (Hq : quiet (bind (get_shim (St := St)) (fun s =>
                   bind (sys_write (KeyLogFile_fd s) (list_byte_of_string line)) (fun _ =>
                   bind (get_shim (St := St)) (fun s' =>
                   bind (sys_write (KeyLogFile_fd s') [x0a]) (fun _ => ret tt)))))).
    { apply quiet_write. intros _. apply quiet_write. intros _. apply quiet_ret. }
    specialize (Hq w0 w Hw). unfold bind at 1 in Hq. unfold get_shim at 1 in Hq.
    unfold bind at 1 in Hq. unfold bind at 1.
    destruct (sys_write (KeyLogFile_fd (shim w)) (list_byte_of_string line) w)
      as [r1 w1| |] eqn:E1; try exact Hq.
    assert (Hs : shim w1 = shim w).
    { unfold sys_write in E1. destruct (kernel_write _ _ _). injection E1 as _ <-.
      reflexivity. }
    unfold bind at 1 in Hq. unfold get_shim at 1 in Hq. rewrite Hs in Hq. exact Hq.
  - apply (@quiet_ret unit tt w0 w Hw).
Qed.

Lemma quiet_KeyLogFile_raw_dump (client_random : SslClientRandom) (master_key : SslMasterKey) :
  quiet (KeyLogFile_raw_dump (St := St) client_random master_key).
Proof.
  unfold KeyLogFile_raw_dump.
  destruct (negb _ && negb _); [|apply quiet_ret].
  apply quiet_bind; [apply quiet_of_option|].
  intros line. apply quiet_write. intros _. apply quiet_ret.
Qed.

Ltac quiet_auto :=
  repeat first
    [ apply quiet_ret | apply quiet_get_shim | apply quiet_undefined | apply quiet_abort
    | apply quiet_of_option
    | apply quiet_log; intros ?; reflexivity
    | apply quiet_KeyLogFile_raw_dump
    | apply quiet_KeyLogFile_callback
    | apply quiet_for_each; intros ?
    | apply quiet_bind; [|intros ?]
    | match goal with |- quiet (if ?b then _ else _) => destruct b end
    | apply quiet_intro; intros ?; cbn beta;
      first [ apply quiet_step_refl | apply quiet_step_mk0 ] ].

Lemma quiet_load_function (sym : string) : quiet (load_function (St := St) ld sym).
Proof.
  unfold load_function, do_dlsym_next, do_dlopen, do_dlsym, do_dlclose. quiet_auto.
Qed.

Lemma quiet_load_function_or_die (sym : string) :
  quiet (load_function_or_die (St := St) ld sym).
Proof.
  unfold load_function_or_die. apply quiet_bind; [apply quiet_load_function|].
  intros func. quiet_auto.
Qed.

Lemma quiet_call_handshake (fn : ptr) (c : Call) (real : ptr -> St -> Handshake St)
    (ssl : ptr) :
  (forall fd, quiet_call fd c = true) ->
  quiet (call_handshake L fn c real ssl).
Proof.
  intros Hc. unfold call_handshake.
  destruct (is_null fn); [apply quiet_undefined|].
  apply quiet_bind; [apply quiet_log; exact Hc|]. intros _.
  quiet_auto.
Qed.

Lemma quiet_call_real (h : Hook) (ssl : ptr) : quiet (call_real L h ssl).
Proof.
  destruct h; cbn [call_real];
    unfold call_SSL_connect, call_SSL_do_handshake, call_SSL_accept;
    (apply quiet_bind; [apply quiet_get_shim|]); intros s;
    apply quiet_call_handshake; intros fd; reflexivity.
Qed.

Lemma quiet_call_SSL_get_session (ssl : ptr) : quiet (call_SSL_get_session L ssl).
Proof. unfold call_SSL_get_session. quiet_auto. Qed.

Lemma quiet_call_SSL_SESSION_get_master_key (session : ptr) (out : list byte) (outlen : nat) :
  quiet (call_SSL_SESSION_get_master_key L session out outlen).
Proof. unfold call_SSL_SESSION_get_master_key. quiet_auto. Qed.

Lemma quiet_call_SSL_get_client_random (ssl : ptr) (out : list byte) (outlen : nat) :
  quiet (call_SSL_get_client_random L ssl out outlen).
Proof. unfold call_SSL_get_client_random. quiet_auto. Qed.

Lemma quiet_call_SSL_new (ctx : ptr) : quiet (call_SSL_new L ctx).
Proof.
  unfold call_SSL_new.
  apply quiet_bind; [apply quiet_get_shim|]. intros s.
  destruct (is_null (_SSL_new s)); [apply quiet_undefined|].
  apply quiet_bind; [apply quiet_log; intros ?; reflexivity|]. intros _.
  apply quiet_intro. intros w. destruct (real_SSL_new L ctx (lib w)).
  apply quiet_step_mk0.
Qed.

Lemma quiet_logging_key (ssl : ptr) (before_key : SslMasterKey) :
  quiet (logging_key L ssl before_key).
Proof.
  unfold logging_key.
  apply quiet_bind; [apply quiet_call_SSL_get_session|]. intros session.
  apply quiet_bind; [apply quiet_call_SSL_SESSION_get_master_key|]. intros r.
  apply quiet_bind; [apply quiet_of_option|]. intros c.
  destruct c; [|apply quiet_ret].
  apply quiet_bind; [apply quiet_call_SSL_get_client_random|]. intros r'.
  apply quiet_KeyLogFile_raw_dump.
Qed.

Lemma quiet_hook_path (h : Hook) (ssl : ptr) : quiet (hook_path L (call_real L h) ssl).
Proof.
  unfold hook_path.
  apply quiet_bind; [apply quiet_call_SSL_get_session|]. intros session.
  apply quiet_bind; [apply quiet_call_SSL_SESSION_get_master_key|]. intros r.
  apply quiet_bind; [apply quiet_call_real|]. intros ret_.
  apply quiet_bind; [|intros _; apply quiet_ret].
  destruct (ret_ =? 1)%Z; [apply quiet_logging_key | apply quiet_ret].
Qed.

Lemma quiet_hooked (h : Hook) (ssl : ptr) : quiet (hooked L h ssl).
Proof.
  destruct h; cbn [hooked]; [| |apply (quiet_hook_path H_accept)].
  - unfold SSL_connect. apply quiet_bind; [apply quiet_get_shim|]. intros s.
    destruct (negb _); [apply (quiet_call_real H_connect)|].
    apply (quiet_hook_path H_connect).
  - unfold SSL_do_handshake. apply quiet_bind; [apply quiet_get_shim|]. intros s.
    destruct (negb _); [apply (quiet_call_real H_do_handshake)|].
    apply (quiet_hook_path H_do_handshake).
Qed.

(** ** Symbol resolution *)

Lemma load_function_spec (sym : string) (w : World St) :
  exists cs,
    load_function ld sym w
    = (if lookup_defined ld sym then Returns (resolve ld sym) (add_calls w cs)
       else Undefined) /\
    filter (fun c => match c with C_abort => true | _ => false end) cs = [].
Proof.
  unfold load_function, resolve, lookup_defined,
    do_dlsym_next, do_dlopen, do_dlsym, do_dlclose.
  unfold bind, log, ret, add_calls.
  cbn [shim kernel keylog_ctx lib calls].
  destruct (is_null (dlsym_next ld sym)) eqn:E1; cbn [negb orb].
  - destruct (is_null (dlopen ld "libssl.so")) eqn:E2; cbn [negb].
    + exists []. split; reflexivity.
    + cbn [shim kernel keylog_ctx lib calls].
      eexists. rewrite <- !app_assoc. split; reflexivity.
  - eexists. split; reflexivity.
Qed.

Lemma resolve_lookup_defined (sym : string) :
  is_null (resolve ld sym) = false -> lookup_defined ld sym = true.
Proof.
  unfold resolve, lookup_defined.
  destruct (is_null (dlsym_next ld sym)); [|reflexivity].
  destruct (is_null (dlopen ld "libssl.so")); [discriminate | reflexivity].
Qed.

Lemma load_function_or_die_spec (sym : string) (w : World St) :
  exists cs,
    load_function_or_die ld sym w
    = if lookup_defined ld sym then
        if is_null (resolve ld sym) then Aborted (add_calls w (cs ++ [C_abort]))
        else Returns (resolve ld sym) (add_calls w cs)
      else Undefined.
Proof.
  destruct (load_function_spec sym w) as (cs & Hload & _).
  exists cs. unfold load_function_or_die, bind. rewrite Hload.
  destruct (lookup_defined ld sym); [|reflexivity].
  destruct (is_null (resolve ld sym)); [|reflexivity].
  unfold abort, add_calls. cbn [shim kernel keylog_ctx lib calls].
  rewrite <- app_assoc. reflexivity.
Qed.

(** ** Invariants of a run *)

Section Invariant.

Variables I I' : World St -> Prop.
Hypothesis I_stable : forall w w', I w -> quiet_step w w' -> I w'.
Hypothesis I_init :
  hoare (before_init I) (init_openssl_hooks (St := St) ld) (fun _ => I') I.
Hypothesis I_flag :
  forall w, I' w ->
    I (mkWorld (with_init_flag true (shim w)) (kernel w) (keylog_ctx w) (lib w) (calls w)).
Hypothesis I_register :
  forall w ctx, I w ->
    openssl_init_flag (shim w) = true ->
    is_null (_SSL_CTX_set_keylog_callback (shim w)) = false ->
    I (mkWorld (shim w) (kernel w) (ctx :: keylog_ctx w) (lib w) (calls w)).

Lemma hoare_call_once_init :
  hoare I (call_once_init (St := St) ld)
        (fun _ w => I w /\ openssl_init_flag (shim w) = true) I.
Proof.
  intros w Hw. unfold call_once_init. unfold bind at 1. unfold get_shim at 1.
  destruct (openssl_init_flag (shim w)) eqn:Ef; [split; assumption|].
  unfold bind.
  pose proof I_init as Hi. specialize (Hi w (conj Hw Ef)).
  destruct (init_openssl_hooks ld w) as [[] w'| |]; [|exact Hi|trivial].
  unfold assign, bind, get_shim, set_shim. split; [apply I_flag; exact Hi | reflexivity].
Qed.

Lemma hoare_SSL_new (ctx : ptr) : hoare I (SSL_new L ld ctx) (fun _ => I) I.
Proof.
  pose proof (@hoare_of_quiet ptr I (call_SSL_new L ctx) I_stable (quiet_call_SSL_new ctx))
    as Hnew.
  unfold SSL_new.
  apply hoare_bind with (R := fun _ w => I w /\ openssl_init_flag (shim w) = true);
    [apply hoare_call_once_init|].
  intros _ w [Hw Hf]. unfold bind at 1. unfold get_shim at 1.
  destruct (is_null (_SSL_CTX_set_keylog_callback (shim w))) eqn:Ecb; cbn [negb].
  - unfold bind at 1. unfold ret at 1. exact (Hnew w Hw).
  - unfold bind at 1. unfold call_SSL_CTX_set_keylog_callback, bind, get_shim, log.
    rewrite Ecb. cbn [shim kernel keylog_ctx lib calls].
    apply Hnew.
    apply (@I_register
             (mkWorld (shim w) (kernel w) (keylog_ctx w) (lib w)
                (calls w ++ [C_SSL_CTX_set_keylog_callback ctx])) ctx);
      [|exact Hf|exact Ecb].
    apply (I_stable Hw). apply quiet_step_mk; reflexivity.
Qed.

Lemma hoare_do_op (o : Op) : hoare I (do_op L ld o) (fun _ => I) I.
Proof.
  destruct o; cbn [do_op].
  - apply hoare_bind with (R := fun _ => I); [apply hoare_SSL_new|].
    intros ?. apply hoare_of_quiet; [exact I_stable | apply quiet_ret].
  - apply hoare_of_quiet; [exact I_stable|].
    apply quiet_bind; [apply (quiet_hooked H_connect)|intros ?; apply quiet_ret].
  - apply hoare_of_quiet; [exact I_stable|].
    apply quiet_bind; [apply (quiet_hooked H_do_handshake)|intros ?; apply quiet_ret].
  - apply hoare_of_quiet; [exact I_stable|].
    apply quiet_bind; [apply (quiet_hooked H_accept)|intros ?; apply quiet_ret].
Qed.

Lemma hoare_run (ops : list Op) : hoare I (run L ld ops) (fun _ => I) I.
Proof.
  unfold run. induction ops as [|o ops IH]; cbn [for_each].
  - intros w Hw. exact Hw.
  - apply hoare_bind with (R := fun _ => I); [apply hoare_do_op | intros _; exact IH].
Qed.

End Invariant.

(** Initialisation, for a property that does not look at the resolved
    pointers. *)
Section PointerBlind.

Variables I I' : World St -> Prop.
Hypothesis I_stable : forall w w', I w -> quiet_step w w' -> I w'.
Hypothesis I_assign :
  forall (upd : Statics -> Statics) w,
    (forall s, openssl_init_flag (upd s) = openssl_init_flag s) ->
    (forall s, KeyLogFile_fd (upd s) = KeyLogFile_fd s) ->
    I w -> I (mkWorld (upd (shim w)) (kernel w) (keylog_ctx w) (lib w) (calls w)).
Hypothesis I_KeyLogFile_init :
  hoare (before_init I) (KeyLogFile_init (St := St)) (fun _ => I') I.

Lemma before_init_stable (w w' : World St) :
  before_init I w -> quiet_step w w' -> before_init I w'.
Proof.
  intros [Hi Hf] Hq. split; [eapply I_stable; eauto|].
  destruct Hq as (Hs & _). rewrite Hs. exact Hf.
Qed.

Lemma hoare_load_then {B} (load : Proc St ptr) (upd : ptr -> Statics -> Statics)
    (k : Proc St B) (Q : B -> World St -> Prop) :
  quiet load ->
  (forall f s, openssl_init_flag (upd f s) = openssl_init_flag s) ->
  (forall f s, KeyLogFile_fd (upd f s) = KeyLogFile_fd s) ->
  hoare (before_init I) k Q I ->
  hoare (before_init I) (bind load (fun f => bind (assign (upd f)) (fun _ => k))) Q I.
Proof.
  intros Hl Hf Hd Hk.
  apply hoare_bind with (R := fun _ => before_init I).
  - eapply hoare_weaken;
      [apply hoare_of_quiet; [exact before_init_stable | exact Hl]
      | auto | auto | intros w [Hw _]; exact Hw].
  - intros f w [Hw Hflag]. unfold bind at 1. unfold assign, bind, get_shim, set_shim.
    apply Hk. split; [apply I_assign; auto|].
    cbn [shim]. rewrite Hf. exact Hflag.
Qed.

Lemma hoare_init_openssl_hooks :
  hoare (before_init I) (init_openssl_hooks (St := St) ld) (fun _ => I') I.
Proof.
  unfold init_openssl_hooks.
  repeat (apply hoare_load_then;
            [ first [apply quiet_load_function_or_die | apply quiet_load_function]
            | intros ? ?; reflexivity | intros ? ?; reflexivity | ]).
  exact I_KeyLogFile_init.
Qed.

End PointerBlind.

End Frame.

(** ** The two invariants of the key-log file management *)

Section Lifecycle.

Variable St : Type.
Variable L : Library St.
Variable ld : Linker.

Lemma quiet_call_log_free (c : Call) :
  quiet_call (-1) c = true -> log_call_free c = true.
Proof.
  destruct c; cbn [quiet_call log_call_free]; try (intros; reflexivity || discriminate).
  intros H. apply andb_prop in H as [_ H]. exact H.
Qed.

Lemma quiet_call_not_close (fd : Z) (cs : list Call) :
  forallb (quiet_call fd) cs = true -> filter is_close cs = [].
Proof.
  induction cs as [|c cs IH]; [reflexivity|].
  cbn [forallb filter]. intros H. apply andb_prop in H as [Hc Hcs].
  destruct c; try discriminate; cbn [is_close]; auto.
Qed.

Lemma logging_off_stable (k0 : Kernel) (w w' : World St) :
  logging_off k0 w -> quiet_step w w' -> logging_off k0 w'.
Proof.
  intros (Hfd & Henv & Hfiles & Hfds & Hh & Hcalls)
         (Hs & _ & He & Ht & Hx & Hfi & cs & Hc & Hq).
  unfold logging_off. rewrite Hs, He, Ht, Hx, Hfi by lia.
  repeat split; try assumption.
  rewrite Hc, forallb_app, Hcalls. cbn [andb].
  rewrite Hfd in Hq. clear -Hq.
  induction cs as [|c cs IH]; [reflexivity|].
  cbn [forallb] in *. apply andb_prop in Hq as [H1 H2].
  rewrite (quiet_call_log_free _ H1), (IH H2). reflexivity.
Qed.

Lemma logging_off_init (k0 : Kernel) :
  hoare (before_init (logging_off k0))
        (KeyLogFile_init (St := St)) (fun _ => logging_off k0) (logging_off k0).
Proof.
  intros w [(Hfd & Henv & Hfiles & Hfds & Hh & Hcalls) _].
  unfold KeyLogFile_init. unfold bind at 1. unfold get_shim at 1.
  rewrite Hfd. cbn [Z.leb Z.compare].
  unfold bind, sys_getenv, bind, log. cbn [kernel]. rewrite Henv.
  unfold ret, logging_off. cbn [shim kernel calls].
  repeat split; try assumption.
  rewrite forallb_app, Hcalls. reflexivity.
Qed.

Lemma logging_off_run (k0 : Kernel) (ops : list Op) :
  hoare (logging_off k0) (run L ld ops) (fun _ => logging_off k0) (logging_off k0).
Proof.
  apply hoare_run with (I' := logging_off k0).
  - apply logging_off_stable.
  - apply hoare_init_openssl_hooks.
    + apply logging_off_stable.
    + intros upd w _ Hd (Hfd & H). unfold logging_off. cbn [shim kernel calls].
      rewrite Hd. split; assumption.
    + apply logging_off_init.
  - intros w H. exact H.
  - intros w ctx H _ _. exact H.
Qed.

Lemma fresh_fd_nonneg (k : Kernel) : (0 <= fresh_fd k)%Z.
Proof.
  unfold fresh_fd.
  destruct (find _ _) as [n|] eqn:E; [|lia].
  apply find_some in E as [Hin _].
  apply in_map_iff in Hin as (m & <- & _). lia.
Qed.

Lemma fd_is_open_same_fds (fd : Z) (k k' : Kernel) :
  fds k' = fds k -> fd_is_open fd k' = fd_is_open fd k.
Proof. intros H. unfold fd_is_open. rewrite H. reflexivity. Qed.

Lemma fd_is_open_after_close (fd : Z) (k : Kernel) :
  fd_is_open fd (snd (kernel_close fd k)) = false.
Proof.
  unfold kernel_close. destruct (fd_is_open fd k) eqn:E; [|exact E].
  cbn [snd]. unfold fd_is_open. cbn [fds].
  apply andb_false_iff. right.
  induction (fds k) as [|e l IH]; [reflexivity|].
  cbn [filter]. destruct (fst e =? fd)%Z eqn:Ee; cbn [negb]; [exact IH|].
  cbn [existsb]. rewrite Ee. exact IH.
Qed.

Lemma fd_lifecycle_stable (w w' : World St) :
  fd_lifecycle w -> quiet_step w w' -> fd_lifecycle w'.
Proof.
  intros (Hcl & Hopen & Hneg & Hflag)
         (Hs & _ & He & Ht & Hx & Hfi & cs & Hc & Hq).
  unfold fd_lifecycle. rewrite Hs, Hx, (fd_is_open_same_fds _ _ _ Ht).
  repeat split; try tauto.
  rewrite Hc, filter_app, Hcl, (quiet_call_not_close _ _ Hq). reflexivity.
Qed.

Lemma fd_lifecycle_KeyLogFile_init :
  hoare (before_init (fd_lifecycle (St := St)))
        (KeyLogFile_init (St := St)) (fun _ => fd_lifecycle_init (St := St))
        (fd_lifecycle (St := St)).
Proof.
  intros w [(Hcl & Hopen & Hneg & Hflag) Hf].
  destruct (Hflag Hf) as [Hfd Hh].
  unfold KeyLogFile_init. unfold bind at 1. unfold get_shim at 1.
  destruct (Z.leb_spec 0 (KeyLogFile_fd (shim w))); [lia|].
  unfold bind at 1. unfold sys_getenv, bind, log. cbn [kernel].
  destruct (environ (kernel w) "SSLKEYLOGFILE") as [name|].
  - unfold sys_open, kernel_open. cbn [kernel shim keylog_ctx lib calls].
    destruct (openable (kernel w) name).
    + unfold assign, bind, get_shim, set_shim, sys_atexit, kernel_atexit.
      unfold fd_lifecycle_init, fd_is_open.
      cbn [shim kernel calls with_KeyLogFile_fd KeyLogFile_fd fds exit_handlers existsb fst].
      pose proof (fresh_fd_nonneg (kernel w)) as Hpos.
      rewrite Hh, Z.eqb_refl. rewrite !filter_app, Hcl.
      repeat split; try reflexivity.
      * apply andb_true_iff. split; [apply Z.leb_le; exact Hpos | reflexivity].
      * intros Hn. lia.
    + unfold assign, bind, get_shim, set_shim, sys_atexit, kernel_atexit.
      unfold fd_lifecycle_init.
      cbn [shim kernel calls with_KeyLogFile_fd KeyLogFile_fd fds exit_handlers].
      rewrite Hh, !filter_app, Hcl.
      repeat split; try reflexivity; try (intros; lia). intros _. right. reflexivity.
  - unfold ret, fd_lifecycle_init. cbn [shim kernel calls].
    rewrite filter_app, Hcl. repeat split; try reflexivity; try (intros; lia).
    intros _. left. exact Hh.
Qed.

Lemma fd_lifecycle_run (ops : list Op) :
  hoare (fd_lifecycle (St := St)) (run L ld ops)
        (fun _ => fd_lifecycle (St := St)) (fd_lifecycle (St := St)).
Proof.
  apply hoare_run with (I' := fd_lifecycle_init (St := St)).
  - apply fd_lifecycle_stable.
  - apply hoare_init_openssl_hooks.
    + apply fd_lifecycle_stable.
    + intros upd w Hf Hd H. unfold fd_lifecycle in *. cbn [shim kernel calls].
      rewrite Hf, Hd. exact H.
    + apply fd_lifecycle_KeyLogFile_init.
  - intros w (Hcl & Hopen & Hneg). unfold fd_lifecycle.
    cbn [shim kernel calls with_init_flag KeyLogFile_fd openssl_init_flag].
    repeat split; try tauto; discriminate.
  - intros w ctx H _ _. exact H.
Qed.

Lemma logging_off_World_init (k : Kernel) (st : St) :
  environ k "SSLKEYLOGFILE" = None -> logging_off k (World_init k st).
Proof.
  intros H. unfold logging_off, World_init. cbn [shim kernel calls environ files fds exit_handlers].
  repeat split; try reflexivity. exact H.
Qed.

Lemma fd_lifecycle_World_init (k : Kernel) (st : St) : fd_lifecycle (World_init k st).
Proof.
  unfold fd_lifecycle, World_init.
  cbn [shim kernel calls Statics_init KeyLogFile_fd exit_handlers filter openssl_init_flag].
  repeat split; try reflexivity; try lia. intros _. left. reflexivity.
Qed.

End Lifecycle.

(** ** The capture mode of a running process *)

Section CaptureMode.

Variable St : Type.
Variable L : Library St.
Variable ld : Linker.

Lemma mode_decided_stable (w w' : World St) :
  mode_decided w -> quiet_step w w' -> mode_decided w'.
Proof.
  intros H (Hs & Hx & _). unfold mode_decided. rewrite Hs, Hx. exact H.
Qed.

Lemma init_progress_mode_decided (w : World St) :
  keylog_ctx w = [] -> openssl_init_flag (shim w) = false -> mode_decided w.
Proof.
  intros Hc Hf. unfold mode_decided. rewrite Hf.
  split; [discriminate|]. split; intros _; exact Hc.
Qed.

(** One mandatory entry point: resolved to a pointer that is not null, or the
    process is gone. *)
Lemma init_step_or_die {B} (R : Statics -> Prop) (sym : string)
    (upd : ptr -> Statics -> Statics) (k : Proc St B) (Q : B -> World St -> Prop) :
  (forall f s, openssl_init_flag (upd f s) = openssl_init_flag s) ->
  (forall f, is_null f = false ->
     hoare (init_progress (fun s => exists s0, R s0 /\ s = upd f s0)) k Q
           (mode_decided (St := St))) ->
  hoare (init_progress R)
        (bind (load_function_or_die ld sym) (fun f => bind (assign (upd f)) (fun _ => k)))
        Q (mode_decided (St := St)).
Proof.
  intros Hfl Hk w (Hc & Hf & HR). unfold bind at 1.
  destruct (load_function_or_die_spec ld sym w) as (cs & E). rewrite E.
  destruct (lookup_defined ld sym); [|trivial].
  destruct (is_null (resolve ld sym)) eqn:En.
  - apply init_progress_mode_decided; assumption.
  - unfold bind at 1. unfold assign, bind, get_shim, set_shim.
    apply (Hk _ En). unfold init_progress, add_calls. cbn [shim kernel keylog_ctx calls].
    split; [exact Hc|]. split; [rewrite Hfl; exact Hf|]. exists (shim w). auto.
Qed.

(** The optional entry point: whatever [load_function] returns. *)
Lemma init_step_optional {B} (R : Statics -> Prop) (sym : string)
    (upd : ptr -> Statics -> Statics) (k : Proc St B) (Q : B -> World St -> Prop) :
  (forall f s, openssl_init_flag (upd f s) = openssl_init_flag s) ->
  (forall f,
     hoare (init_progress (fun s => exists s0, R s0 /\ s = upd f s0)) k Q
           (mode_decided (St := St))) ->
  hoare (init_progress R)
        (bind (load_function ld sym) (fun f => bind (assign (upd f)) (fun _ => k)))
        Q (mode_decided (St := St)).
Proof.
  intros Hfl Hk w (Hc & Hf & HR). unfold bind at 1.
  destruct (load_function_spec ld sym w) as (cs & E & _). rewrite E.
  destruct (lookup_defined ld sym); [|trivial].
  unfold bind at 1. unfold assign, bind, get_shim, set_shim.
  apply (Hk (resolve ld sym)). unfold init_progress, add_calls. cbn [shim kernel keylog_ctx calls].
  split; [exact Hc|]. split; [rewrite Hfl; exact Hf|]. exists (shim w). auto.
Qed.

Lemma KeyLogFile_init_keeps_pointers (E : World St -> Prop) :
  hoare (fun w => resolved (shim w) /\ keylog_ctx w = [])
        (KeyLogFile_init (St := St))
        (fun _ w => resolved (shim w) /\ keylog_ctx w = []) E.
Proof.
  intros w [Hr Hc]. unfold KeyLogFile_init. unfold bind at 1. unfold get_shim at 1.
  destruct (0 <=? KeyLogFile_fd (shim w))%Z; [split; assumption|].
  unfold bind at 1. unfold sys_getenv, bind, log. cbn [kernel].
  destruct (environ (kernel w) "SSLKEYLOGFILE") as [name|]; [|split; assumption].
  unfold sys_open. cbn [kernel shim keylog_ctx lib calls].
  destruct (kernel_open name (kernel w)) as [fd k1].
  unfold assign, bind, get_shim, set_shim, sys_atexit.
  cbn [shim kernel keylog_ctx lib calls]. split; assumption.
Qed.

Lemma mode_decided_init :
  hoare (before_init (mode_decided (St := St))) (init_openssl_hooks (St := St) ld)
        (fun _ w => resolved (shim w) /\ keylog_ctx w = []) (mode_decided (St := St)).
Proof.
  apply hoare_weaken with
    (P := init_progress (fun _ => True))
    (Q := fun _ w => resolved (shim w) /\ keylog_ctx w = [])
    (E := mode_decided (St := St)); [| |auto|auto].
  2:{ intros w [(_ & _ & Hc) Hf]. unfold init_progress. auto. }
  unfold init_openssl_hooks.
  apply init_step_or_die; [reflexivity|]. intros f1 H1.
  apply init_step_or_die; [reflexivity|]. intros f2 H2.
  apply init_step_or_die; [reflexivity|]. intros f3 H3.
  apply init_step_or_die; [reflexivity|]. intros f4 H4.
  apply init_step_or_die; [reflexivity|]. intros f5 H5.
  apply init_step_or_die; [reflexivity|]. intros f6 H6.
  apply init_step_or_die; [reflexivity|]. intros f7 H7.
  apply init_step_optional; [reflexivity|]. intros f8.
  apply hoare_weaken with
    (P := fun w => resolved (shim w) /\ keylog_ctx w = [])
    (Q := fun _ w => resolved (shim w) /\ keylog_ctx w = [])
    (E := mode_decided (St := St));
    [apply KeyLogFile_init_keeps_pointers| |auto|auto].
  intros w (Hc & _ & s8 & (s7 & (s6 & (s5 & (s4 & (s3 & (s2 & (s1 & _ & E1) & E2) & E3) & E4)
                                         & E5) & E6) & E7) & E8).
  split; [|exact Hc].
  rewrite E8, E7, E6, E5, E4, E3, E2, E1. repeat split; assumption.
Qed.

Lemma mode_decided_run (ops : list Op) :
  hoare (mode_decided (St := St)) (run L ld ops)
        (fun _ => mode_decided (St := St)) (mode_decided (St := St)).
Proof.
  apply hoare_run with (I' := fun w => resolved (shim w) /\ keylog_ctx w = []).
  - apply mode_decided_stable.
  - apply mode_decided_init.
  - intros w [Hr Hc]. unfold mode_decided. cbn [shim keylog_ctx].
    split; [intros _; exact Hr|]. split; intros _; exact Hc.
  - intros w ctx (H1 & _) Hf Hcb. unfold mode_decided. cbn [shim keylog_ctx].
    rewrite Hcb. split; [exact H1|]. split; [discriminate | rewrite Hf; discriminate].
Qed.

(** Whatever the application has called, once the shim is initialised the
    process is in hook mode or in callback mode, as the callback entry point
    is null or not. *)
Lemma reachable_capture_mode (k : Kernel) (st : St) (ops : list Op) :
  match run L ld ops (World_init k st) with
  | Returns _ w =>
      openssl_init_flag (shim w) = true ->
      if is_null (_SSL_CTX_set_keylog_callback (shim w)) then HookMode w
      else CallbackMode w
  | _ => True
  end.
Proof.
  assert (H0 : mode_decided (World_init k st)).
  { unfold mode_decided, World_init. cbn [shim keylog_ctx].
    split; [discriminate|]. split; reflexivity. }
  pose proof (mode_decided_run ops H0) as Hrun.
  destruct (run L ld ops (World_init k st)) as [[] w| |]; [|exact I|exact I].
  intros Hf. destruct Hrun as (Hr & Hc & _).
  destruct (is_null (_SSL_CTX_set_keylog_callback (shim w))) eqn:E.
  - unfold HookMode. auto.
  - unfold CallbackMode. auto.
Qed.

End CaptureMode.

(** * The claims *)

Section Claims.

Variable St : Type.
Variable L : Library St.

(** C2. The deduplication predicate: on two snapshots of the data model,
    [changed(before, after)] is defined, and it holds if and only if
    [after.length > 0] and the first [after.length] bytes of the two arrays
    differ. *)
Theorem C2_changed_iff (before_key after_key : SslMasterKey) :
  master_key_ok before_key ->
  master_key_ok after_key ->
  (exists c, key_changed before_key after_key = Some c) /\
  (key_changed before_key after_key = Some true <->
   (0 < mk_length after_key)%N /\
   firstn (N.to_nat (mk_length after_key)) (mk_value after_key)
     <> firstn (N.to_nat (mk_length after_key)) (mk_value before_key)).
Proof.
  intros Hb Ha. destruct (key_changed_spec Hb Ha) as (c & Ec & Hc).
  split; [exists c; exact Ec|].
  rewrite Ec, <- Hc. split; [intros E; injection E; auto | intros ->; reflexivity].
Qed.

(** C1, as amended.  After a successful handshake in hook mode (any of the
    three hooks, the real call returns 1), exactly one key-log line is written
    when [changed(before, after)] holds and the client random that is then
    read has a non-zero length: one [write] call on [KeyLogFile_fd] carries
    the line, and the kernel is changed by that call alone.  No line is
    written when the master key is unchanged. *)
Theorem C1_hook_mode_lines (h : Hook) (ssl : ptr) (w : World St) :
  HookMode w ->
  respects_outlen L ->
  hs_ret (real_handshake L h ssl (lib w)) = 1%Z ->
  exists w',
    hooked L h ssl w = Returns 1%Z w' /\
    writes_of (new_calls w w')
    = match key_changed (master_key_snapshot L ssl (lib w))
                        (master_key_snapshot L ssl (lib w')) with
      | Some true =>
          if (cr_length (client_random_snapshot L ssl (lib w')) =? 0)%N then []
          else [snapshot_line L ssl (lib w')]
      | _ => []
      end /\
    kernel w'
    = match key_changed (master_key_snapshot L ssl (lib w))
                        (master_key_snapshot L ssl (lib w')) with
      | Some true =>
          if (cr_length (client_random_snapshot L ssl (lib w')) =? 0)%N then kernel w
          else snd (kernel_write (KeyLogFile_fd (shim w)) (snapshot_line L ssl (lib w'))
                      (kernel w))
      | _ => kernel w
      end.
Proof.
  intros Hm Hlib Hret.
  destruct (hooked_hook_mode_spec h ssl Hm Hlib) as [Hrun Hcalls].
  exists (hook_path_world L h ssl w).
  rewrite Hret in Hrun. split; [exact Hrun|].
  rewrite Hcalls, Hret. cbn [Z.eqb Pos.eqb].
  destruct Hm as (_ & _ & Hk).
  rewrite hook_path_world_hook_mode by exact Hk. cbn zeta. rewrite Hret.
  cbn [Z.eqb Pos.eqb].
  set (w1 := mkWorld (shim w) (kernel w) (keylog_ctx w)
               (hs_state (real_handshake L h ssl (lib w)))
               (calls w ++ snapshot_calls L ssl (lib w) ++ [handshake_call h ssl])).
  assert (Hlibw : lib (logging_key_world L ssl (master_key_snapshot L ssl (lib w)) w1)
                  = hs_state (real_handshake L h ssl (lib w))).
  { unfold logging_key_world.
    destruct (key_changed _ _) as [[|]|]; try reflexivity.
    destruct (cr_length _ =? 0)%N; reflexivity. }
  rewrite Hlibw, kernel_logging_key_world.
  unfold logging_key_calls, snapshot_calls. subst w1. cbn [lib shim kernel].
  destruct (key_changed _ _) as [[|]|]; try (destruct h; split; reflexivity).
  destruct (cr_length _ =? 0)%N; destruct h; split; reflexivity.
Qed.

Lemma hook_mode_failure (h : Hook) (ssl : ptr) (w : World St) :
  keylog_ctx w = [] ->
  hs_ret (real_handshake L h ssl (lib w)) <> 1%Z ->
  kernel (hook_path_world L h ssl w) = kernel w /\
  shim (hook_path_world L h ssl w) = shim w /\
  hook_mode_calls L h ssl w = snapshot_calls L ssl (lib w) ++ [handshake_call h ssl].
Proof.
  intros Hk Hret. apply Z.eqb_neq in Hret.
  rewrite hook_path_world_hook_mode by exact Hk. unfold hook_mode_calls.
  cbn zeta. rewrite Hret. repeat split.
Qed.

(** C3.  In hook mode [SSL_connect] and [SSL_do_handshake] return what the
    real call returned, and the calls they make are, in this order: the
    snapshot of the master key, the real call, and, only when the real call
    returned 1, the calls of [logging_key] (the second snapshot and the
    conditional logging); for any other return value nothing follows the real
    call and nothing is written. *)
Theorem C3_hook_mode_interceptors (ssl : ptr) (w : World St) :
  HookMode w ->
  respects_outlen L ->
  (exists w',
     SSL_connect L ssl w = Returns (hs_ret (real_SSL_connect L ssl (lib w))) w' /\
     new_calls w w' = hook_mode_calls L H_connect ssl w /\
     (hs_ret (real_SSL_connect L ssl (lib w)) <> 1%Z ->
      new_calls w w' = snapshot_calls L ssl (lib w) ++ [C_SSL_connect ssl] /\
      kernel w' = kernel w)) /\
  (exists w',
     SSL_do_handshake L ssl w
       = Returns (hs_ret (real_SSL_do_handshake L ssl (lib w))) w' /\
     new_calls w w' = hook_mode_calls L H_do_handshake ssl w /\
     (hs_ret (real_SSL_do_handshake L ssl (lib w)) <> 1%Z ->
      new_calls w w' = snapshot_calls L ssl (lib w) ++ [C_SSL_do_handshake ssl] /\
      kernel w' = kernel w)).
Proof.
  intros Hm Hlib.
  assert (Hk : keylog_ctx w = []) by (destruct Hm as (_ & _ & Hk); exact Hk).
  split.
  - destruct (hooked_hook_mode_spec H_connect ssl Hm Hlib) as [Hrun Hcalls].
    exists (hook_path_world L H_connect ssl w).
    split; [exact Hrun|]. split; [exact Hcalls|].
    intros Hret. destruct (hook_mode_failure H_connect ssl w Hk Hret) as (Hkern & _ & Hc).
    split; [|exact Hkern]. rewrite Hcalls. exact Hc.
  - destruct (hooked_hook_mode_spec H_do_handshake ssl Hm Hlib) as [Hrun Hcalls].
    exists (hook_path_world L H_do_handshake ssl w).
    split; [exact Hrun|]. split; [exact Hcalls|].
    intros Hret.
    destruct (hook_mode_failure H_do_handshake ssl w Hk Hret) as (Hkern & _ & Hc).
    split; [|exact Hkern]. rewrite Hcalls. exact Hc.
Qed.

(** C4.  [SSL_accept] takes the snapshot/diff path whether or not the callback
    entry point is resolved.  Its calls are, in this order: the snapshot of
    the master key, the real call, during which the library may hand lines to
    the callback, and, when the real call returned 1, the calls of
    [logging_key]: the second snapshot, and, when the master key changed, the
    reading of the client random and the [write] of the [CLIENT_RANDOM]
    record.  What it writes is what the callback wrote followed by that
    record.  With the callback entry point resolved, [SSL_connect] and
    [SSL_do_handshake] are the real call and nothing else: no snapshot is
    taken. *)
Theorem C4_responder_always_diffs (ssl : ptr) (w : World St) :
  resolved (shim w) ->
  respects_outlen L ->
  (exists w' cs,
     SSL_accept L ssl w = Returns (hs_ret (real_SSL_accept L ssl (lib w))) w' /\
     lib w' = hs_state (real_SSL_accept L ssl (lib w)) /\
     forallb is_write cs = true /\
     writes_of cs
     = (if (0 <=? KeyLogFile_fd (shim w))%Z
        then callback_writes (secrets_of L H_accept ssl w) else []) /\
     new_calls w w'
     = snapshot_calls L ssl (lib w) ++ C_SSL_accept ssl :: cs ++
       (if (hs_ret (real_SSL_accept L ssl (lib w)) =? 1)%Z
        then logging_key_calls L ssl (master_key_snapshot L ssl (lib w))
               (call_real_world L H_accept ssl (add_calls w (snapshot_calls L ssl (lib w))))
        else []) /\
     writes_of (new_calls w w')
     = writes_of cs ++
       (if (hs_ret (real_SSL_accept L ssl (lib w)) =? 1)%Z
        then diff_writes L ssl (master_key_snapshot L ssl (lib w)) (lib w')
        else []) /\
     firstn 2 (new_calls w w') = snapshot_calls L ssl (lib w) /\
     length (filter is_snapshot (new_calls w w'))
     = if (hs_ret (real_SSL_accept L ssl (lib w)) =? 1)%Z then 2 else 1) /\
  (is_null (_SSL_CTX_set_keylog_callback (shim w)) = false ->
   forall h, h <> H_accept ->
     hooked L h ssl w = call_real L h ssl w /\
     exists w',
       hooked L h ssl w = Returns (hs_ret (real_handshake L h ssl (lib w))) w' /\
       filter is_snapshot (new_calls w w') = [] /\
       exists cs, new_calls w w' = handshake_call h ssl :: cs /\
                  forallb is_write cs = true).
Proof.
  intros Hres Hlib. split.
  - destruct (calls_hook_path_world_writes L H_accept ssl w) as (cs & Hw & Hb & Hcalls).
    exists (hook_path_world L H_accept ssl w), cs.
    split; [apply (@hook_path_spec St L H_accept ssl w Hres Hlib)|].
    split; [apply lib_hook_path_world|].
    split; [exact Hw|]. split; [exact Hb|].
    rewrite (new_calls_app _ _ _ Hcalls), lib_hook_path_world.
    change (real_SSL_accept L) with (real_handshake L H_accept).
    change (handshake_call H_accept ssl) with (C_SSL_accept ssl).
    split; [reflexivity|].
    split.
    { rewrite writes_of_app.
      change (writes_of (snapshot_calls L ssl (lib w))) with (@nil (list byte)).
      cbn [app].
      change (C_SSL_accept ssl :: cs ++ ?x) with ([C_SSL_accept ssl] ++ cs ++ x).
      rewrite !writes_of_app.
      change (writes_of [C_SSL_accept ssl]) with (@nil (list byte)). cbn [app].
      f_equal.
      destruct (hs_ret (real_handshake L H_accept ssl (lib w)) =? 1)%Z; [|reflexivity].
      rewrite writes_of_logging_key_calls, lib_call_real_world. reflexivity. }
    split; [reflexivity|].
    rewrite filter_app. cbn [filter is_snapshot].
    rewrite filter_app, (filter_is_snapshot_writes _ Hw), app_nil_l.
    destruct (hs_ret (real_handshake L H_accept ssl (lib w)) =? 1)%Z.
    + rewrite length_app, filter_is_snapshot_logging_key. reflexivity.
    + reflexivity.
  - intros Hcb h Hh.
    pose proof (@hooked_callback_mode St L h ssl w Hh Hcb) as Heq.
    split; [exact Heq|].
    exists (call_real_world L h ssl w).
    rewrite Heq. split; [apply call_real_spec; exact Hres|].
    unfold call_real_world.
    match goal with |- context [callbacks_world ?l ?w1] =>
      destruct (callbacks_world_frame l w1) as (_ & _ & _ & cs & Hcs & Hw)
    end.
    cbn [calls] in Hcs. rewrite <- app_assoc in Hcs.
    rewrite (new_calls_app _ _ _ Hcs).
    split.
    + cbn [app filter]. rewrite (filter_is_snapshot_writes _ Hw).
      destruct h; reflexivity.
    + exists cs. split; [reflexivity | exact Hw].
Qed.

(** C5.  Every line a hook writes in hook mode is the record
    [KeyLogLine]: the keyword, the hex of the client random, a space, the hex
    of the master key and a newline, where the hex of [n] bytes is [2 * n]
    characters out of [0123456789abcdef]; and the bytes of the spec's example
    give the spec's line. *)
Theorem C5_hook_line_format (h : Hook) (ssl : ptr) (w : World St) :
  HookMode w ->
  respects_outlen L ->
  (exists w',
     hooked L h ssl w = Returns (hs_ret (real_handshake L h ssl (lib w))) w' /\
     Forall (fun buf =>
               let r := client_random_snapshot L ssl (lib w') in
               let k := master_key_snapshot L ssl (lib w') in
               buf = KeyLogLine (firstn (N.to_nat (cr_length r)) (cr_value r))
                                (firstn (N.to_nat (mk_length k)) (mk_value k)))
            (writes_of (new_calls w w'))) /\
  (forall r k : list byte,
     KeyLogLine r k
     = list_byte_of_string "CLIENT_RANDOM " ++ hex_lower r ++ list_byte_of_string " "
         ++ hex_lower k ++ [x0a] /\
     length (hex_lower r) = 2 * length r /\
     length (hex_lower k) = 2 * length k /\
     Forall (fun c => In c (list_byte_of_string "0123456789abcdef"))
            (hex_lower r ++ hex_lower k)) /\
  KeyLogFile_raw_dump Toy.example_client_random Toy.example_master_key w
  = Returns tt (after_write w (list_byte_of_string example_line)).
Proof.
  intros Hm Hlib. split; [|split].
  - destruct (hooked_hook_mode_spec h ssl Hm Hlib) as [Hrun Hcalls].
    exists (hook_path_world L h ssl w). split; [exact Hrun|].
    rewrite Hcalls. destruct Hm as (_ & _ & Hk).
    rewrite hook_path_world_hook_mode by exact Hk. cbn zeta.
    destruct (hs_ret (real_handshake L h ssl (lib w)) =? 1)%Z.
    2:{ destruct h; constructor. }
    unfold logging_key_calls, logging_key_world, snapshot_calls. cbn [lib].
    destruct (key_changed _ _) as [[|]|]; try (destruct h; constructor).
    destruct (cr_length _ =? 0)%N; [destruct h; constructor|].
    rewrite lib_after_write. cbn [add_calls lib].
    destruct h; (constructor; [reflexivity | constructor]).
  - intros r k. split; [reflexivity|].
    split; [apply hex_lower_length|]. split; [apply hex_lower_length|].
    apply Forall_app. split; apply hex_lower_digits.
  - rewrite KeyLogFile_raw_dump_spec;
      [reflexivity | split; [reflexivity | cbv; lia] | split; [reflexivity | cbv; lia]].
Qed.

(** C10.  [KeyLogFile_raw_dump] writes only when both lengths are non-zero.
    After a successful handshake in hook mode that changed the master key, no
    line is written when the client random is read with length 0; otherwise
    the last call is the [write] on [KeyLogFile_fd], made whatever the value
    of the descriptor: a negative descriptor is passed to [write], which
    fails. *)
Theorem C10_raw_dump_guards (client_random : SslClientRandom) (master_key : SslMasterKey)
    (h : Hook) (ssl : ptr) (w : World St) :
  client_random_ok client_random ->
  master_key_ok master_key ->
  HookMode w ->
  respects_outlen L ->
  hs_ret (real_handshake L h ssl (lib w)) = 1%Z ->
  (KeyLogFile_raw_dump client_random master_key w
   = if negb (cr_length client_random =? 0)%N && negb (mk_length master_key =? 0)%N
     then Returns tt
            (after_write w
               (KeyLogLine
                  (firstn (N.to_nat (cr_length client_random)) (cr_value client_random))
                  (firstn (N.to_nat (mk_length master_key)) (mk_value master_key))))
     else Returns tt w) /\
  exists w',
    hooked L h ssl w = Returns 1%Z w' /\
    (key_changed (master_key_snapshot L ssl (lib w)) (master_key_snapshot L ssl (lib w'))
     = Some true ->
     (cr_length (client_random_snapshot L ssl (lib w')) = 0%N ->
      writes_of (new_calls w w') = [] /\ kernel w' = kernel w) /\
     (cr_length (client_random_snapshot L ssl (lib w')) <> 0%N ->
      let fd := KeyLogFile_fd (shim w) in
      let line := snapshot_line L ssl (lib w') in
      last (new_calls w w') C_abort
        = C_write fd line (fst (kernel_write fd line (kernel w))) /\
      ((fd < 0)%Z -> fst (kernel_write fd line (kernel w)) = (-1)%Z /\
                     kernel w' = kernel w))).
Proof.
  intros Hc Hk Hm Hlib Hret.
  split; [apply KeyLogFile_raw_dump_spec; assumption|].
  destruct (hooked_hook_mode_spec h ssl Hm Hlib) as [Hrun Hcalls].
  exists (hook_path_world L h ssl w).
  rewrite Hret in Hrun. split; [exact Hrun|].
  rewrite Hcalls. destruct Hm as (_ & _ & Hctx).
  rewrite hook_path_world_hook_mode by exact Hctx. cbn zeta.
  rewrite Hret. cbn [Z.eqb Pos.eqb].
  set (w1 := mkWorld (shim w) (kernel w) (keylog_ctx w)
               (hs_state (real_handshake L h ssl (lib w)))
               (calls w ++ snapshot_calls L ssl (lib w) ++ [handshake_call h ssl])).
  assert (Hl : lib (logging_key_world L ssl (master_key_snapshot L ssl (lib w)) w1)
               = hs_state (real_handshake L h ssl (lib w))).
  { unfold logging_key_world.
    destruct (key_changed _ _) as [[|]|]; try reflexivity.
    destruct (cr_length _ =? 0)%N; reflexivity. }
  rewrite Hl. intros Hch.
  rewrite kernel_logging_key_world. unfold logging_key_calls. subst w1. cbn [lib shim kernel].
  rewrite Hch. split.
  - intros Hz. rewrite Hz. cbn [N.eqb]. split; [destruct h; reflexivity | reflexivity].
  - intros Hnz. apply N.eqb_neq in Hnz. rewrite Hnz. cbn zeta. split.
    + unfold snapshot_calls. destruct h; reflexivity.
    + intros Hfd. rewrite kernel_write_bad_fd by exact Hfd. split; reflexivity.
Qed.

End Claims.

Section ProcessClaims.

Variable St : Type.
Variable L : Library St.
Variable ld : Linker.

(** C8.  Where the symbol is found after the shim, or [libssl.so] can be
    loaded, the claim holds: [load_function_or_die] returns the resolved entry
    point, which is then not null, or aborts the process at once, [abort]
    being the last call made; and [load_function] returns, with the null
    pointer when the symbol is in neither place, and never aborts.  Where the
    symbol is not found after the shim and [libssl.so] cannot be loaded, the
    symbol is absent, but [load_function] passes the null handle to [dlclose]:
    it does not return "not found", and [load_function_or_die] does not reach
    [abort]. *)
Theorem C8_resolve_or_abort (sym : string) (w : World St) :
  (lookup_defined ld sym = true ->
   match load_function_or_die ld sym w with
   | Returns p _ => p = resolve ld sym /\ p <> NULL
   | Aborted w' => resolve ld sym = NULL /\ last (calls w') C_atexit = C_abort
   | Undefined => False
   end /\
   match load_function ld sym w with
   | Returns p w' =>
       p = resolve ld sym /\
       (dlsym_next ld sym = NULL ->
        dlsym ld (dlopen ld "libssl.so") sym = NULL ->
        p = NULL) /\
       filter (fun c => match c with C_abort => true | _ => false end) (new_calls w w') = []
   | _ => False
   end) /\
  (lookup_defined ld sym = false ->
   dlsym_next ld sym = NULL /\
   dlopen ld "libssl.so" = NULL /\
   resolve ld sym = NULL /\
   load_function ld sym w = Undefined /\
   load_function_or_die ld sym w = Undefined).
Proof.
  pose proof (load_function_spec ld sym w) as Hload.
  destruct Hload as (cs & Hload & Hcs).
  split; intros Hdef; rewrite Hdef in Hload.
  - split.
    + unfold load_function_or_die, bind. rewrite Hload.
      destruct (is_null (resolve ld sym)) eqn:E.
      * unfold abort. cbn [calls add_calls]. apply Z.eqb_eq in E.
        split; [exact E | apply last_last].
      * unfold ret. apply Z.eqb_neq in E. split; [reflexivity | exact E].
    + rewrite Hload. split; [reflexivity|]. split.
      * intros Hnext Hlib. unfold resolve, is_null. rewrite Hnext. cbn [Z.eqb NULL].
        rewrite Hlib. destruct (dlopen ld "libssl.so" =? NULL)%Z; reflexivity.
      * rewrite (new_calls_app w (add_calls w cs) cs eq_refl). exact Hcs.
  - unfold lookup_defined in Hdef. apply orb_false_iff in Hdef as [H1 H2].
    apply negb_false_iff in H1, H2.
    split; [apply Z.eqb_eq; exact H1|]. split; [apply Z.eqb_eq; exact H2|].
    split; [unfold resolve; rewrite H1, H2; reflexivity|].
    split; [exact Hload|].
    unfold load_function_or_die, bind. rewrite Hload. reflexivity.
Qed.

(** C6.  When [SSLKEYLOGFILE] is absent at start-up, then whatever the
    application calls, in either capture mode, and up to and including process
    exit: the descriptor stays -1, no file is created or changed, no
    descriptor is opened, the only [write] calls made are those that fail, and
    [KeyLogFile_callback] does nothing at all. *)
Theorem C6_no_path_no_log (k : Kernel) (st : St) (ops : list Op) (at_exit : bool) :
  environ k "SSLKEYLOGFILE" = None ->
  match (if at_exit then bind (run L ld ops) (fun _ => process_exit (St := St))
         else run L ld ops) (World_init k st) with
  | Returns _ w | Aborted w =>
      KeyLogFile_fd (shim w) = (-1)%Z /\
      files (kernel w) = files k /\
      fds (kernel w) = fds k /\
      forallb log_call_free (calls w) = true /\
      forall ssl line, KeyLogFile_callback ssl line w = Returns tt w
  | Undefined => True
  end.
Proof.
  intros Henv.
  assert (Hoff : forall w : World St, logging_off k w ->
            KeyLogFile_fd (shim w) = (-1)%Z /\
            files (kernel w) = files k /\
            fds (kernel w) = fds k /\
            forallb log_call_free (calls w) = true /\
            forall ssl line, KeyLogFile_callback ssl line w = Returns tt w).
  { intros w (Hfd & _ & Hfiles & Hfds & _ & Hcalls). repeat split; try assumption.
    intros ssl line. unfold KeyLogFile_callback, bind, get_shim. rewrite Hfd. reflexivity. }
  pose proof (logging_off_run L ld ops (logging_off_World_init k st Henv)) as Hrun.
  destruct at_exit.
  - unfold bind. destruct (run L ld ops (World_init k st)) as [[] w| w|];
      [|apply Hoff; exact Hrun|exact I].
    unfold process_exit. destruct Hrun as (Hfd & He & Hfi & Hfd' & Hh & Hc) eqn:Ew.
    rewrite Hh. cbn [for_each]. unfold ret. apply Hoff. clear Ew.
    repeat split; assumption.
  - destruct (run L ld ops (World_init k st)) as [[] w| w|];
      [apply Hoff; exact Hrun | apply Hoff; exact Hrun | exact I].
Qed.

(** C9.  [KeyLogFile_finalize] is idempotent: run a second time it leaves the
    static variables, the kernel (descriptor table and files) and the library
    as the first run left them, and closes nothing, the [close] it may call
    again on the closed descriptor being refused.  And a process that
    terminates normally has made exactly one [close] call if the log was
    opened, a successful one on the log descriptor, and none otherwise. *)
Theorem C9_finalize_once (w : World St) (k : Kernel) (st : St) (ops : list Op) :
  (exists w1 w2,
     KeyLogFile_finalize w = Returns tt w1 /\
     KeyLogFile_finalize w1 = Returns tt w2 /\
     observable w2 = observable w1 /\
     filter (fun c => match c with C_close _ 0 => true | _ => false end)
            (new_calls w1 w2) = []) /\
  match bind (run L ld ops) (fun _ => process_exit (St := St)) (World_init k st) with
  | Returns _ w' =>
      let fd := KeyLogFile_fd (shim w') in
      filter is_close (calls w') = (if (0 <=? fd)%Z then [C_close fd 0] else []) /\
      fd_is_open fd (kernel w') = false
  | _ => True
  end.
Proof.
  split.
  - destruct (0 <=? KeyLogFile_fd (shim w))%Z eqn:Epos.
    + pose proof (fd_is_open_after_close (KeyLogFile_fd (shim w)) (kernel w)) as Hcl.
      destruct (kernel_close (KeyLogFile_fd (shim w)) (kernel w)) as [r1 k1] eqn:E1.
      cbn [snd] in Hcl.
      set (w1 := mkWorld (shim w) k1 (keylog_ctx w) (lib w)
                   (calls w ++ [C_close (KeyLogFile_fd (shim w)) r1])).
      set (w2 := mkWorld (shim w) k1 (keylog_ctx w) (lib w)
                   (calls w1 ++ [C_close (KeyLogFile_fd (shim w)) (-1)%Z])).
      assert (H1 : KeyLogFile_finalize w = Returns tt w1).
      { unfold KeyLogFile_finalize, bind, get_shim, sys_close, ret.
        rewrite Epos, E1. reflexivity. }
      assert (H2 : KeyLogFile_finalize w1 = Returns tt w2).
      { unfold KeyLogFile_finalize, bind, get_shim, sys_close, ret, kernel_close.
        subst w1. cbn [shim]. rewrite Epos. cbn beta. cbn [shim kernel keylog_ctx lib calls].
        rewrite Hcl. reflexivity. }
      exists w1, w2. split; [exact H1|]. split; [exact H2|]. split; [reflexivity|].
      rewrite (new_calls_app w1 w2 [C_close (KeyLogFile_fd (shim w)) (-1)%Z] eq_refl).
      reflexivity.
    + assert (H1 : KeyLogFile_finalize w = Returns tt w).
      { unfold KeyLogFile_finalize, bind, get_shim. rewrite Epos. reflexivity. }
      exists w, w. split; [exact H1|]. split; [exact H1|]. split; [reflexivity|].
      unfold new_calls. rewrite skipn_all. reflexivity.
  - pose proof (fd_lifecycle_run L ld ops (fd_lifecycle_World_init k st)) as Hrun.
    unfold bind. destruct (run L ld ops (World_init k st)) as [[] w0| w0|]; [|exact I|exact I].
    destruct Hrun as (Hcl & Hopen & Hneg & _).
    unfold process_exit.
    destruct (Z.leb_spec 0 (KeyLogFile_fd (shim w0))) as [Hpos|Hn].
    + destruct (Hopen Hpos) as [Ho Hh]. rewrite Hh. cbn [for_each run_handler].
      unfold KeyLogFile_finalize, bind, get_shim, sys_close, ret.
      apply Z.leb_le in Hpos. rewrite Hpos.
      pose proof (fd_is_open_after_close (KeyLogFile_fd (shim w0)) (kernel w0)) as Hafter.
      unfold kernel_close in *. rewrite Ho in *.
      cbn [shim kernel calls snd] in *. rewrite Hpos.
      split; [|exact Hafter].
      rewrite filter_app, Hcl. reflexivity.
    + assert (Hfin : KeyLogFile_finalize w0 = Returns tt w0).
      { unfold KeyLogFile_finalize, bind, get_shim.
        destruct (Z.leb_spec 0 (KeyLogFile_fd (shim w0))); [lia | reflexivity]. }
      assert (Hclosed : fd_is_open (KeyLogFile_fd (shim w0)) (kernel w0) = false).
      { unfold fd_is_open. destruct (Z.leb_spec 0 (KeyLogFile_fd (shim w0))); [lia|].
        reflexivity. }
      destruct (Hneg Hn) as [Hh|Hh]; rewrite Hh; cbn [for_each run_handler].
      * unfold ret. cbn zeta.
        destruct (Z.leb_spec 0 (KeyLogFile_fd (shim w0))); [lia|]. auto.
      * unfold bind. rewrite Hfin. unfold ret. cbn zeta.
        destruct (Z.leb_spec 0 (KeyLogFile_fd (shim w0))); [lia|]. auto.
Qed.

End ProcessClaims.

Section WriterClaims.

Variable St : Type.

(** C7.  On the hook path the claim holds: the line is built in the one buffer
    of [CLIENT_RANDOM_LINE_LENGTH] bytes, which it fits, and is passed to
    exactly one [write].  On the callback path the code does otherwise:
    [KeyLogFile_callback] formats nothing, passes the library's string to one
    [write] and the newline to a second one, two calls for one line, where
    [KeyLogFile_init] opens the log for atomic appends and
    [KeyLogFile_raw_dump] puts the newline in the buffer. *)
Theorem C7_writes_per_line (client_random : SslClientRandom) (master_key : SslMasterKey)
    (ssl : ptr) (line : string) (w : World St) :
  client_random_ok client_random ->
  master_key_ok master_key ->
  cr_length client_random <> 0%N ->
  mk_length master_key <> 0%N ->
  (exists buf w',
     raw_dump_line client_random master_key = Some buf /\
     length buf < CLIENT_RANDOM_LINE_LENGTH /\
     KeyLogFile_raw_dump client_random master_key w = Returns tt w' /\
     new_calls w w'
     = [C_write (KeyLogFile_fd (shim w)) buf
          (fst (kernel_write (KeyLogFile_fd (shim w)) buf (kernel w)))]) /\
  (exists w',
     KeyLogFile_callback ssl line w = Returns tt w' /\
     new_calls w w'
     = if (0 <=? KeyLogFile_fd (shim w))%Z
       then
         let fd := KeyLogFile_fd (shim w) in
         let r := kernel_write fd (list_byte_of_string line) (kernel w) in
         [C_write fd (list_byte_of_string line) (fst r);
          C_write fd [x0a] (fst (kernel_write fd [x0a] (snd r)))]
       else []).
Proof.
  intros Hc Hk Hcn Hkn. split.
  - exists (KeyLogLine
              (firstn (N.to_nat (cr_length client_random)) (cr_value client_random))
              (firstn (N.to_nat (mk_length master_key)) (mk_value master_key))).
    eexists. split; [apply raw_dump_line_spec; assumption|].
    split.
    { unfold KeyLogLine. rewrite !length_app, !hex_lower_length, !length_firstn.
      destruct Hc as [Hc1 Hc2]. destruct Hk as [Hk1 Hk2].
      unfold SSL3_RANDOM_SIZE, SSL_MAX_MASTER_KEY_LENGTH in *.
      change (length (list_byte_of_string "CLIENT_RANDOM ")) with 14.
      change (length (list_byte_of_string " ")) with 1.
      change CLIENT_RANDOM_LINE_LENGTH with 177. cbn [length]. lia. }
    rewrite KeyLogFile_raw_dump_spec by assumption.
    apply N.eqb_neq in Hcn. apply N.eqb_neq in Hkn. rewrite Hcn, Hkn. cbn [negb andb].
    split; [reflexivity|].
    apply new_calls_app. apply calls_after_write.
  - pose proof (for_each_callback_spec (St := St) ssl [line] w) as Hcb.
    cbn [for_each callbacks_world] in Hcb. unfold bind, ret in Hcb.
    destruct (KeyLogFile_callback ssl line w) as [[] w'| |] eqn:E; try discriminate.
    exists w'. split; [reflexivity|].
    injection Hcb as ->.
    destruct (0 <=? KeyLogFile_fd (shim w))%Z.
    + apply new_calls_app. unfold after_write. cbn [calls shim kernel].
      rewrite <- app_assoc. reflexivity.
    + unfold new_calls. rewrite skipn_all. reflexivity.
Qed.

End WriterClaims.

(** * The claims on concrete runs *)

(** C1, as the spec states it, fails.  Over OpenSSL 1.1.0 with logging on,
    [SSL_connect] on session 13 succeeds and the master key changes from the
    empty snapshot to 48 fresh bytes, but the client random is read with
    length 0: no [write] is made and the log file is left as it was. *)
Lemma C1_counterexample :
  HookMode Toy.hook_world /\
  exists w',
    SSL_connect Toy.library 13%Z Toy.hook_world = Returns 1%Z w' /\
    master_key_snapshot Toy.library 13%Z (lib w')
      <> master_key_snapshot Toy.library 13%Z (lib Toy.hook_world) /\
    key_changed (master_key_snapshot Toy.library 13%Z (lib Toy.hook_world))
                (master_key_snapshot Toy.library 13%Z (lib w')) = Some true /\
    length (writes_of (new_calls Toy.hook_world w')) = 0 /\
    files (kernel w') = files (kernel Toy.hook_world).
Proof.
  split; [repeat split|].
  eexists. split; [vm_compute; reflexivity|].
  split; [vm_compute; discriminate|].
  split; vm_compute; auto.
Qed.

Lemma C1_witness :
  HookMode Toy.hook_world /\
  respects_outlen Toy.library /\
  hs_ret (real_handshake Toy.library H_connect 101%Z (lib Toy.hook_world)) = 1%Z /\
  exists w',
    hooked Toy.library H_connect 101%Z Toy.hook_world = Returns 1%Z w' /\
    writes_of (new_calls Toy.hook_world w')
    = match key_changed (master_key_snapshot Toy.library 101%Z (lib Toy.hook_world))
                        (master_key_snapshot Toy.library 101%Z (lib w')) with
      | Some true =>
          if (cr_length (client_random_snapshot Toy.library 101%Z (lib w')) =? 0)%N then []
          else [snapshot_line Toy.library 101%Z (lib w')]
      | _ => []
      end /\
    kernel w'
    = match key_changed (master_key_snapshot Toy.library 101%Z (lib Toy.hook_world))
                        (master_key_snapshot Toy.library 101%Z (lib w')) with
      | Some true =>
          if (cr_length (client_random_snapshot Toy.library 101%Z (lib w')) =? 0)%N
          then kernel Toy.hook_world
          else snd (kernel_write (KeyLogFile_fd (shim Toy.hook_world))
                      (snapshot_line Toy.library 101%Z (lib w')) (kernel Toy.hook_world))
      | _ => kernel Toy.hook_world
      end.
Proof.
  split; [repeat split|]. split; [exact toy_respects_outlen|]. split; [reflexivity|].
  apply (@C1_hook_mode_lines nat Toy.library H_connect 101%Z Toy.hook_world).
  - repeat split.
  - exact toy_respects_outlen.
  - reflexivity.
Defined.

Lemma C2_witness :
  master_key_ok SslMasterKey_zero /\
  master_key_ok Toy.example_master_key /\
  (exists c, key_changed SslMasterKey_zero Toy.example_master_key = Some c) /\
  (key_changed SslMasterKey_zero Toy.example_master_key = Some true <->
   (0 < mk_length Toy.example_master_key)%N /\
   firstn (N.to_nat (mk_length Toy.example_master_key)) (mk_value Toy.example_master_key)
     <> firstn (N.to_nat (mk_length Toy.example_master_key)) (mk_value SslMasterKey_zero)).
Proof.
  assert (H0 : master_key_ok SslMasterKey_zero) by (split; [reflexivity | cbv; lia]).
  assert (H1 : master_key_ok Toy.example_master_key) by (split; [reflexivity | cbv; lia]).
  split; [exact H0|]. split; [exact H1|].
  apply (C2_changed_iff H0 H1).
Defined.

Lemma C3_witness :
  HookMode Toy.hook_world /\
  respects_outlen Toy.library /\
  (exists w',
     SSL_connect Toy.library 7%Z Toy.hook_world
       = Returns (hs_ret (real_SSL_connect Toy.library 7%Z (lib Toy.hook_world))) w' /\
     new_calls Toy.hook_world w' = hook_mode_calls Toy.library H_connect 7%Z Toy.hook_world /\
     (hs_ret (real_SSL_connect Toy.library 7%Z (lib Toy.hook_world)) <> 1%Z ->
      new_calls Toy.hook_world w'
        = snapshot_calls Toy.library 7%Z (lib Toy.hook_world) ++ [C_SSL_connect 7%Z] /\
      kernel w' = kernel Toy.hook_world)) /\
  (exists w',
     SSL_do_handshake Toy.library 7%Z Toy.hook_world
       = Returns (hs_ret (real_SSL_do_handshake Toy.library 7%Z (lib Toy.hook_world))) w' /\
     new_calls Toy.hook_world w'
       = hook_mode_calls Toy.library H_do_handshake 7%Z Toy.hook_world /\
     (hs_ret (real_SSL_do_handshake Toy.library 7%Z (lib Toy.hook_world)) <> 1%Z ->
      new_calls Toy.hook_world w'
        = snapshot_calls Toy.library 7%Z (lib Toy.hook_world) ++ [C_SSL_do_handshake 7%Z] /\
      kernel w' = kernel Toy.hook_world)).
Proof.
  split; [repeat split|]. split; [exact toy_respects_outlen|].
  apply (@C3_hook_mode_interceptors nat Toy.library 7%Z Toy.hook_world).
  - repeat split.
  - exact toy_respects_outlen.
Defined.

Lemma C4_witness :
  resolved (shim Toy.callback_world) /\
  respects_outlen Toy.library /\
  (exists w' cs,
     SSL_accept Toy.library 102%Z Toy.callback_world
       = Returns (hs_ret (real_SSL_accept Toy.library 102%Z (lib Toy.callback_world))) w' /\
     lib w' = hs_state (real_SSL_accept Toy.library 102%Z (lib Toy.callback_world)) /\
     forallb is_write cs = true /\
     writes_of cs
     = (if (0 <=? KeyLogFile_fd (shim Toy.callback_world))%Z
        then callback_writes (secrets_of Toy.library H_accept 102%Z Toy.callback_world)
        else []) /\
     new_calls Toy.callback_world w'
     = snapshot_calls Toy.library 102%Z (lib Toy.callback_world) ++ C_SSL_accept 102%Z :: cs ++
       (if (hs_ret (real_SSL_accept Toy.library 102%Z (lib Toy.callback_world)) =? 1)%Z
        then logging_key_calls Toy.library 102%Z
               (master_key_snapshot Toy.library 102%Z (lib Toy.callback_world))
               (call_real_world Toy.library H_accept 102%Z
                  (add_calls Toy.callback_world
                     (snapshot_calls Toy.library 102%Z (lib Toy.callback_world))))
        else []) /\
     writes_of (new_calls Toy.callback_world w')
     = writes_of cs ++
       (if (hs_ret (real_SSL_accept Toy.library 102%Z (lib Toy.callback_world)) =? 1)%Z
        then diff_writes Toy.library 102%Z
               (master_key_snapshot Toy.library 102%Z (lib Toy.callback_world)) (lib w')
        else []) /\
     firstn 2 (new_calls Toy.callback_world w')
       = snapshot_calls Toy.library 102%Z (lib Toy.callback_world) /\
     length (filter is_snapshot (new_calls Toy.callback_world w'))
     = if (hs_ret (real_SSL_accept Toy.library 102%Z (lib Toy.callback_world)) =? 1)%Z
       then 2 else 1) /\
  (is_null (_SSL_CTX_set_keylog_callback (shim Toy.callback_world)) = false ->
   forall h, h <> H_accept ->
     hooked Toy.library h 102%Z Toy.callback_world
       = call_real Toy.library h 102%Z Toy.callback_world /\
     exists w',
       hooked Toy.library h 102%Z Toy.callback_world
         = Returns (hs_ret (real_handshake Toy.library h 102%Z (lib Toy.callback_world))) w' /\
       filter is_snapshot (new_calls Toy.callback_world w') = [] /\
       exists cs, new_calls Toy.callback_world w' = handshake_call h 102%Z :: cs /\
                  forallb is_write cs = true).
Proof.
  split; [repeat split|]. split; [exact toy_respects_outlen|].
  apply (@C4_responder_always_diffs nat Toy.library 102%Z Toy.callback_world).
  - repeat split.
  - exact toy_respects_outlen.
Defined.

Lemma C5_witness :
  HookMode Toy.hook_world /\
  respects_outlen Toy.library /\
  KeyLogFile_raw_dump Toy.example_client_random Toy.example_master_key Toy.hook_world
  = Returns tt (after_write Toy.hook_world (list_byte_of_string example_line)).
Proof.
  split; [repeat split|]. split; [exact toy_respects_outlen|].
  apply (@C5_hook_line_format nat Toy.library H_connect 101%Z Toy.hook_world).
  - repeat split.
  - exact toy_respects_outlen.
Defined.

Lemma C6_witness :
  environ Toy.kernel_off "SSLKEYLOGFILE" = None /\
  match bind (run Toy.library Toy.ld_110
                [Op_SSL_new 1%Z; Op_SSL_connect 101%Z; Op_SSL_accept 102%Z])
             (fun _ => process_exit (St := nat)) (World_init Toy.kernel_off 0) with
  | Returns _ w | Aborted w =>
      KeyLogFile_fd (shim w) = (-1)%Z /\
      files (kernel w) = files Toy.kernel_off /\
      fds (kernel w) = fds Toy.kernel_off /\
      forallb log_call_free (calls w) = true /\
      forall ssl line, KeyLogFile_callback ssl line w = Returns tt w
  | Undefined => True
  end.
Proof.
  split; [reflexivity|].
  apply (@C6_no_path_no_log nat Toy.library Toy.ld_110 Toy.kernel_off 0
           [Op_SSL_new 1%Z; Op_SSL_connect 101%Z; Op_SSL_accept 102%Z] true).
  reflexivity.
Defined.

(** C7, as the spec states it, fails on the callback path.  Over OpenSSL 1.1.1
    with logging on, the library hands one line to the callback during
    [SSL_connect]; the shim passes the library's string to [write] and the
    newline to a second [write]. *)
Lemma C7_counterexample :
  CallbackMode Toy.callback_world /\
  hs_secrets (real_SSL_connect Toy.library 101%Z (lib Toy.callback_world))
    = ["CLIENT_RANDOM 00 11"%string] /\
  exists w',
    SSL_connect Toy.library 101%Z Toy.callback_world = Returns 1%Z w' /\
    new_calls Toy.callback_world w'
    = [C_SSL_connect 101%Z;
       C_write 3%Z (list_byte_of_string "CLIENT_RANDOM 00 11") 19%Z;
       C_write 3%Z [x0a] 1%Z].
Proof.
  split; [repeat split|]. split; [reflexivity|].
  eexists. split; vm_compute; reflexivity.
Qed.

Lemma C7_witness :
  client_random_ok Toy.example_client_random /\
  master_key_ok Toy.example_master_key /\
  cr_length Toy.example_client_random <> 0%N /\
  mk_length Toy.example_master_key <> 0%N /\
  (exists buf w',
     raw_dump_line Toy.example_client_random Toy.example_master_key = Some buf /\
     length buf < CLIENT_RANDOM_LINE_LENGTH /\
     KeyLogFile_raw_dump Toy.example_client_random Toy.example_master_key Toy.hook_world
       = Returns tt w' /\
     new_calls Toy.hook_world w'
     = [C_write (KeyLogFile_fd (shim Toy.hook_world)) buf
          (fst (kernel_write (KeyLogFile_fd (shim Toy.hook_world)) buf
                  (kernel Toy.hook_world)))]) /\
  (exists w',
     KeyLogFile_callback 101%Z "CLIENT_RANDOM 00 11" Toy.callback_world = Returns tt w' /\
     new_calls Toy.callback_world w'
     = [C_write 3%Z (list_byte_of_string "CLIENT_RANDOM 00 11") 19%Z;
        C_write 3%Z [x0a] 1%Z]).
Proof.
  assert (Hc : client_random_ok Toy.example_client_random)
    by (split; [reflexivity | cbv; lia]).
  assert (Hk : master_key_ok Toy.example_master_key)
    by (split; [reflexivity | cbv; lia]).
  assert (Hcn : cr_length Toy.example_client_random <> 0%N) by discriminate.
  assert (Hkn : mk_length Toy.example_master_key <> 0%N) by discriminate.
  split; [exact Hc|]. split; [exact Hk|]. split; [exact Hcn|]. split; [exact Hkn|].
  split.
  - exact (proj1 (@C7_writes_per_line nat Toy.example_client_random Toy.example_master_key
                    101%Z "CLIENT_RANDOM 00 11"%string Toy.hook_world Hc Hk Hcn Hkn)).
  - destruct (@C7_writes_per_line nat Toy.example_client_random Toy.example_master_key
                101%Z "CLIENT_RANDOM 00 11"%string Toy.callback_world Hc Hk Hcn Hkn)
      as [_ (w' & Hrun & Hcalls)].
    exists w'. split; [exact Hrun|].
    rewrite Hcalls. vm_compute. reflexivity.
Defined.

(** C8 at a linker that finds the symbol nowhere and cannot load [libssl.so]:
    OpenSSL 1.1.0 linked into the application for the optional entry point,
    no OpenSSL at all for a mandatory one. *)
Lemma C8_witness :
  lookup_defined Toy.ld_110_static "SSL_CTX_set_keylog_callback" = false /\
  load_function (St := nat) Toy.ld_110_static "SSL_CTX_set_keylog_callback"
    (World_init Toy.kernel_on 0) = Undefined /\
  lookup_defined Toy.ld_none "SSL_new" = false /\
  load_function_or_die (St := nat) Toy.ld_none "SSL_new" (World_init Toy.kernel_on 0)
  = Undefined.
Proof.
  split; [reflexivity|]. split.
  - destruct (@C8_resolve_or_abort nat Toy.ld_110_static "SSL_CTX_set_keylog_callback"
                (World_init Toy.kernel_on 0)) as [_ Hkill].
    destruct (Hkill eq_refl) as (_ & _ & _ & Hload & _). exact Hload.
  - split; [reflexivity|].
    destruct (@C8_resolve_or_abort nat Toy.ld_none "SSL_new"
                (World_init Toy.kernel_on 0)) as [_ Hkill].
    destruct (Hkill eq_refl) as (_ & _ & _ & _ & Hdie). exact Hdie.
Defined.

Lemma C10_witness :
  client_random_ok SslClientRandom_zero /\
  master_key_ok Toy.example_master_key /\
  HookMode Toy.hook_world /\
  respects_outlen Toy.library /\
  hs_ret (real_handshake Toy.library H_accept 13%Z (lib Toy.hook_world)) = 1%Z /\
  KeyLogFile_raw_dump SslClientRandom_zero Toy.example_master_key Toy.hook_world
  = Returns tt Toy.hook_world.
Proof.
  assert (Hc : client_random_ok SslClientRandom_zero)
    by (split; [reflexivity | cbv; lia]).
  assert (Hk : master_key_ok Toy.example_master_key)
    by (split; [reflexivity | cbv; lia]).
  split; [exact Hc|]. split; [exact Hk|].
  split; [repeat split|]. split; [exact toy_respects_outlen|]. split; [reflexivity|].
  apply (@C10_raw_dump_guards nat Toy.library SslClientRandom_zero Toy.example_master_key
           H_accept 13%Z Toy.hook_world Hc Hk).
  - repeat split.
  - exact toy_respects_outlen.
  - reflexivity.
Defined.

(** * Further properties of the code *)

(** ** Resolution and initialisation *)

Section Initialisation.

Variable St : Type.
Variable L : Library St.
Variable ld : Linker.

Lemma load_function_exact (sym : string) (w : World St) :
  load_function ld sym w
  = if lookup_defined ld sym
    then Returns (resolve ld sym) (add_calls w (load_function_calls ld sym))
    else Undefined.
Proof.
  unfold load_function, resolve, load_function_calls, lookup_defined,
    do_dlsym_next, do_dlopen, do_dlsym, do_dlclose.
  unfold bind, log, ret, add_calls.
  cbn [shim kernel keylog_ctx lib calls].
  destruct (is_null (dlsym_next ld sym)) eqn:E1; [|reflexivity].
  destruct (is_null (dlopen ld "libssl.so")) eqn:E2; cbn [negb orb]; [reflexivity|].
  cbn [shim kernel keylog_ctx lib calls app]. rewrite <- !app_assoc. reflexivity.
Qed.

Lemma lookup_defined_dlopen (sym : string) :
  is_null (dlopen ld "libssl.so") = false -> lookup_defined ld sym = true.
Proof. intros H. unfold lookup_defined. rewrite H. apply orb_true_r. Qed.

Lemma load_function_calls_linker (sym : string) :
  forallb is_linker_call (load_function_calls ld sym) = true.
Proof.
  unfold load_function_calls.
  destruct (is_null (dlsym_next ld sym)); [|reflexivity].
  destruct (is_null (dlopen ld "libssl.so")); reflexivity.
Qed.

Lemma load_function_or_die_exact (sym : string) (w : World St) :
  load_function_or_die ld sym w
  = if lookup_defined ld sym then
      if is_null (resolve ld sym)
      then Aborted (add_calls w (load_function_calls ld sym ++ [C_abort]))
      else Returns (resolve ld sym) (add_calls w (load_function_calls ld sym))
    else Undefined.
Proof.
  unfold load_function_or_die, bind. rewrite load_function_exact.
  destruct (lookup_defined ld sym); [|reflexivity].
  destruct (is_null (resolve ld sym)); [|reflexivity].
  unfold abort, add_calls. cbn [shim kernel keylog_ctx lib calls].
  rewrite <- app_assoc. reflexivity.
Qed.

(** X1.  [load_function] looks the symbol up after the shim and stops there
    when it is found: the default library is not loaded.  Only when that
    lookup fails is [libssl.so] opened; when it could be opened it is
    searched and closed, and what the search gave is returned, nothing but
    the log of calls being changed.  When it could not be opened, [dlclose]
    is called all the same, on the null handle: [load_function] does not
    return. *)
Theorem X1_load_function_calls (sym : string) (w : World St) :
  (dlsym_next ld sym <> NULL ->
   exists w',
     load_function ld sym w = Returns (dlsym_next ld sym) w' /\
     shim w' = shim w /\ kernel w' = kernel w /\ lib w' = lib w /\
     new_calls w w' = [C_dlsym_next sym]) /\
  (dlsym_next ld sym = NULL -> dlopen ld "libssl.so" <> NULL ->
   exists w',
     load_function ld sym w = Returns (dlsym ld (dlopen ld "libssl.so") sym) w' /\
     shim w' = shim w /\ kernel w' = kernel w /\ lib w' = lib w /\
     new_calls w w'
     = [C_dlsym_next sym; C_dlopen "libssl.so";
        C_dlsym (dlopen ld "libssl.so") sym; C_dlclose (dlopen ld "libssl.so")]) /\
  (dlsym_next ld sym = NULL -> dlopen ld "libssl.so" = NULL ->
   load_function ld sym w = Undefined).
Proof.
  rewrite load_function_exact.
  unfold lookup_defined, resolve, load_function_calls, is_null.
  split; [|split].
  - intros H. apply Z.eqb_neq in H. rewrite H. cbn [negb orb].
    eexists. split; [reflexivity|]. repeat (split; [reflexivity|]).
    apply new_calls_app. reflexivity.
  - intros H1 H2. rewrite H1. apply Z.eqb_neq in H2. rewrite H2.
    cbn [Z.eqb NULL negb orb].
    eexists. split; [reflexivity|]. repeat (split; [reflexivity|]).
    apply new_calls_app. reflexivity.
  - intros H1 H2. rewrite H1, H2. reflexivity.
Qed.

Lemma load_all_resolved (steps : list (string * (ptr -> Statics -> Statics)))
    (k : Proc St unit) :
  forall w : World St,
    forallb (fun step => negb (is_null (resolve ld (fst step)))) steps = true ->
    load_all ld steps k w
    = k (mkWorld (assigned ld steps (shim w)) (kernel w) (keylog_ctx w) (lib w)
           (calls w ++ flat_map (fun step => load_function_calls ld (fst step)) steps)).
Proof.
  induction steps as [|[sym upd] steps IH]; intros w H.
  - cbn [load_all assigned fold_left flat_map]. rewrite app_nil_r.
    destruct w; reflexivity.
  - cbn [forallb fst] in H. apply andb_prop in H as [H1 H2].
    apply negb_true_iff in H1.
    cbn [load_all]. unfold bind at 1.
    rewrite load_function_or_die_exact, (resolve_lookup_defined ld sym H1), H1.
    unfold bind at 1. unfold assign, bind, get_shim, set_shim.
    rewrite (IH _ H2). unfold add_calls. cbn [shim kernel keylog_ctx lib calls].
    cbn [assigned fold_left flat_map fst snd]. rewrite <- app_assoc. reflexivity.
Qed.

Lemma load_all_aborts (steps : list (string * (ptr -> Statics -> Statics)))
    (k : Proc St unit) :
  is_null (dlopen ld "libssl.so") = false ->
  steps_keep steps ->
  forall w : World St,
    forallb (fun step => negb (is_null (resolve ld (fst step)))) steps = false ->
    exists w' cs,
      load_all ld steps k w = Aborted w' /\
      kernel w' = kernel w /\ lib w' = lib w /\ keylog_ctx w' = keylog_ctx w /\
      openssl_init_flag (shim w') = openssl_init_flag (shim w) /\
      KeyLogFile_fd (shim w') = KeyLogFile_fd (shim w) /\
      calls w' = calls w ++ cs ++ [C_abort] /\
      forallb is_linker_call cs = true.
Proof.
  intros Hlib Hkeep.
  induction Hkeep as [|[sym upd] steps Hstep Hkeep IH]; intros w H.
  - discriminate.
  - cbn [forallb fst] in H. cbn [load_all]. unfold bind at 1.
    rewrite load_function_or_die_exact, (lookup_defined_dlopen sym Hlib).
    destruct (is_null (resolve ld sym)) eqn:E.
    + exists (add_calls w (load_function_calls ld sym ++ [C_abort])),
             (load_function_calls ld sym).
      repeat (split; [reflexivity|]). apply load_function_calls_linker.
    + cbn [negb andb] in H. unfold bind at 1. unfold assign, bind, get_shim, set_shim.
      destruct (IH (mkWorld (upd (resolve ld sym) (shim (add_calls w (load_function_calls ld sym))))
                      (kernel (add_calls w (load_function_calls ld sym)))
                      (keylog_ctx (add_calls w (load_function_calls ld sym)))
                      (lib (add_calls w (load_function_calls ld sym)))
                      (calls (add_calls w (load_function_calls ld sym)))) H)
        as (w' & cs & Hrun & Hk & Hl & Hc & Hf & Hd & Hcalls & Hlink).
      cbn [shim kernel keylog_ctx lib calls add_calls] in *.
      destruct (Hstep (resolve ld sym) (shim w)) as [Hf1 Hd1]. cbn [snd] in Hf1, Hd1.
      exists w', (load_function_calls ld sym ++ cs).
      split; [exact Hrun|]. repeat (split; [congruence|]).
      split; [rewrite Hcalls, <- !app_assoc; reflexivity|].
      rewrite forallb_app, load_function_calls_linker, Hlink. reflexivity.
Qed.

(** Without a library to load, resolution is killed at the first symbol that
    is not found after the shim. *)
Lemma load_all_undefined (steps : list (string * (ptr -> Statics -> Statics)))
    (k : Proc St unit) :
  is_null (dlopen ld "libssl.so") = true ->
  forall w : World St,
    forallb (fun step => negb (is_null (resolve ld (fst step)))) steps = false ->
    load_all ld steps k w = Undefined.
Proof.
  intros Hlib. induction steps as [|[sym upd] steps IH]; intros w H.
  - discriminate.
  - cbn [forallb fst] in H. cbn [load_all]. unfold bind at 1.
    rewrite load_function_or_die_exact.
    destruct (is_null (resolve ld sym)) eqn:E.
    + assert (Hdef : lookup_defined ld sym = false).
      { unfold resolve in E. unfold lookup_defined. rewrite Hlib in *.
        destruct (is_null (dlsym_next ld sym)) eqn:E1; [reflexivity | congruence]. }
      rewrite Hdef. reflexivity.
    + rewrite (resolve_lookup_defined ld sym E).
      cbn [negb andb] in H. unfold bind at 1. unfold assign, bind, get_shim, set_shim.
      apply IH. exact H.
Qed.

Lemma mandatory_steps_keep : steps_keep mandatory_steps.
Proof. unfold steps_keep, mandatory_steps. repeat constructor. Qed.

Lemma init_openssl_hooks_load_all :
  init_openssl_hooks (St := St) ld
  = load_all ld mandatory_steps
      (bind (load_function ld "SSL_CTX_set_keylog_callback") (fun f =>
       bind (assign (with_SSL_CTX_set_keylog_callback f)) (fun _ =>
       KeyLogFile_init (St := St)))).
Proof. reflexivity. Qed.

Lemma KeyLogFile_init_exact (w : World St) :
  KeyLogFile_init w = Returns tt (KeyLogFile_init_world w).
Proof.
  unfold KeyLogFile_init, KeyLogFile_init_world. unfold bind at 1. unfold get_shim at 1.
  destruct (0 <=? KeyLogFile_fd (shim w))%Z; [reflexivity|].
  unfold bind at 1. unfold sys_getenv, bind, log. cbn [kernel].
  destruct (environ (kernel w) "SSLKEYLOGFILE") as [name|]; [|reflexivity].
  unfold sys_open. cbn [kernel shim keylog_ctx lib calls].
  destruct (kernel_open name (kernel w)) as [fd k1].
  unfold assign, bind, get_shim, set_shim, sys_atexit.
  cbn [shim kernel keylog_ctx lib calls fst snd]. rewrite <- !app_assoc. reflexivity.
Qed.

(** X2.  When one of the seven mandatory entry points cannot be resolved,
    the first [SSL_new] does not return, and what ends the process depends
    on [libssl.so].  When the library can be loaded, [SSL_new] aborts inside
    [init_openssl_hooks]: up to [abort] only the dynamic linker has been
    called, so the environment has not been read, no file has been opened, no
    exit handler registered and the real library not entered; the
    initialisation flag is still unset.  When the library cannot be loaded,
    [abort] is not reached: the process is killed in [dlclose] on the null
    handle, at the first symbol that is not found after the shim. *)
Theorem X2_SSL_new_aborts (ctx : ptr) (w : World St) :
  openssl_init_flag (shim w) = false ->
  all_resolved ld = false ->
  (is_null (dlopen ld "libssl.so") = false ->
   exists w' cs,
     SSL_new L ld ctx w = Aborted w' /\
     kernel w' = kernel w /\ lib w' = lib w /\ keylog_ctx w' = keylog_ctx w /\
     openssl_init_flag (shim w') = false /\
     KeyLogFile_fd (shim w') = KeyLogFile_fd (shim w) /\
     calls w' = calls w ++ cs ++ [C_abort] /\
     forallb is_linker_call cs = true) /\
  (is_null (dlopen ld "libssl.so") = true ->
   SSL_new L ld ctx w = Undefined).
Proof.
  intros Hf Hres.
  assert (Hnew : SSL_new L ld ctx w
                 = match load_all ld mandatory_steps
                           (bind (load_function ld "SSL_CTX_set_keylog_callback") (fun f =>
                            bind (assign (with_SSL_CTX_set_keylog_callback f)) (fun _ =>
                            KeyLogFile_init (St := St)))) w with
                   | Returns _ w1 =>
                       bind (bind (assign (with_init_flag true)) (fun _ => ret tt))
                            (fun _ => bind (get_shim (St := St)) (fun s =>
                               bind (if negb (is_null (_SSL_CTX_set_keylog_callback s))
                                     then call_SSL_CTX_set_keylog_callback ctx else ret tt)
                                    (fun _ => call_SSL_new L ctx))) w1
                   | Aborted w1 => Aborted w1
                   | Undefined => Undefined
                   end).
  { unfold SSL_new. unfold bind at 1. unfold call_once_init. unfold bind at 1.
    unfold get_shim at 1. rewrite Hf. unfold bind at 1.
    rewrite init_openssl_hooks_load_all.
    destruct (load_all _ _ _ w) as [[] w1|w1|]; reflexivity. }
  rewrite Hnew. split; intros Hlib.
  - destruct (load_all_aborts
                (bind (load_function ld "SSL_CTX_set_keylog_callback") (fun f =>
                 bind (assign (with_SSL_CTX_set_keylog_callback f)) (fun _ =>
                 KeyLogFile_init (St := St))))
                Hlib mandatory_steps_keep w Hres)
      as (w' & cs & Hrun & Hk & Hl & Hc & Hflag & Hd & Hcalls & Hlink).
    exists w', cs. rewrite Hrun.
    split; [reflexivity|].
    repeat (split; [assumption|]). split; [congruence|]. auto.
  - rewrite (@load_all_undefined mandatory_steps _ Hlib w Hres). reflexivity.
Qed.

(** X4.  [KeyLogFile_init] does nothing when the log is open.  Otherwise it
    reads [SSLKEYLOGFILE]; when the variable is absent nothing else happens;
    when it is present the file is opened, the descriptor variable takes the
    value [open] returned, and [KeyLogFile_finalize] is registered as exit
    handler, also when [open] failed.  After a successful [open] a second
    [KeyLogFile_init] is a no-op. *)
Theorem X4_KeyLogFile_init (w : World St) :
  exists w',
    KeyLogFile_init w = Returns tt w' /\
    keylog_ctx w' = keylog_ctx w /\ lib w' = lib w /\
    ((0 <= KeyLogFile_fd (shim w))%Z -> w' = w) /\
    ((KeyLogFile_fd (shim w) < 0)%Z ->
     environ (kernel w) "SSLKEYLOGFILE" = None ->
     shim w' = shim w /\ kernel w' = kernel w /\
     new_calls w w' = [C_getenv "SSLKEYLOGFILE"]) /\
    ((KeyLogFile_fd (shim w) < 0)%Z ->
     forall name, environ (kernel w) "SSLKEYLOGFILE" = Some name ->
       let r := fst (kernel_open name (kernel w)) in
       shim w' = with_KeyLogFile_fd r (shim w) /\
       exit_handlers (kernel w') = H_KeyLogFile_finalize :: exit_handlers (kernel w) /\
       new_calls w w' = [C_getenv "SSLKEYLOGFILE"; C_open name r; C_atexit] /\
       ((0 <= r)%Z -> KeyLogFile_init w' = Returns tt w')).
Proof.
  exists (KeyLogFile_init_world w).
  split; [apply KeyLogFile_init_exact|].
  unfold KeyLogFile_init_world.
  destruct (Z.leb_spec 0 (KeyLogFile_fd (shim w))) as [Hpos|Hneg].
  - repeat split; intros; try reflexivity; lia.
  - destruct (environ (kernel w) "SSLKEYLOGFILE") as [name|] eqn:Eenv.
    + cbn [keylog_ctx lib]. repeat (split; [reflexivity|]).
      split; [intros; lia|]. split; [intros _ H; discriminate|].
      intros _ name' E. injection E as <-. cbn zeta.
      split; [reflexivity|]. split.
      { unfold kernel_atexit. cbn [kernel exit_handlers].
        unfold kernel_open. destruct (openable (kernel w) name); reflexivity. }
      split.
      { apply new_calls_app. reflexivity. }
      intros Hr. rewrite KeyLogFile_init_exact. unfold KeyLogFile_init_world at 1.
      cbn [shim with_KeyLogFile_fd KeyLogFile_fd].
      apply Z.leb_le in Hr. rewrite Hr. reflexivity.
    + cbn [keylog_ctx lib add_calls]. repeat (split; [reflexivity|]).
      split; [intros; lia|]. split.
      * intros _ _. repeat split. apply new_calls_app. reflexivity.
      * intros _ name E. discriminate.
Qed.

End Initialisation.

(** ** The first [SSL_new] and the later ones *)

Section FirstCall.

Variable St : Type.
Variable L : Library St.
Variable ld : Linker.

Lemma init_openssl_hooks_exact (w : World St) :
  all_resolved ld = true ->
  lookup_defined ld "SSL_CTX_set_keylog_callback" = true ->
  init_openssl_hooks ld w = Returns tt (init_openssl_hooks_world ld w).
Proof.
  intros Hres Hdef.
  rewrite init_openssl_hooks_load_all, (load_all_resolved _ _ _ _ Hres).
  unfold bind at 1. rewrite load_function_exact, Hdef.
  unfold bind at 1. unfold assign at 1. unfold bind at 1. unfold get_shim at 1.
  unfold set_shim. rewrite KeyLogFile_init_exact.
  unfold init_openssl_hooks_world, add_calls. cbn [shim kernel keylog_ctx lib calls].
  reflexivity.
Qed.

(** The mandatory entry points are found, the optional one is not, and
    [libssl.so] cannot be loaded: initialisation is killed in [dlclose]. *)
Lemma init_openssl_hooks_undefined (w : World St) :
  all_resolved ld = true ->
  lookup_defined ld "SSL_CTX_set_keylog_callback" = false ->
  init_openssl_hooks ld w = Undefined.
Proof.
  intros Hres Hdef.
  rewrite init_openssl_hooks_load_all, (load_all_resolved _ _ _ _ Hres).
  unfold bind at 1. rewrite load_function_exact, Hdef. reflexivity.
Qed.

(** The pointers after the assignments of [init_openssl_hooks]. *)
Lemma assigned_mandatory_steps (s : Statics) :
  let s' := with_SSL_CTX_set_keylog_callback (resolve ld "SSL_CTX_set_keylog_callback")
              (assigned ld mandatory_steps s) in
  openssl_init_flag s' = openssl_init_flag s /\
  KeyLogFile_fd s' = KeyLogFile_fd s /\
  _SSL_new s' = resolve ld "SSL_new" /\
  _SSL_connect s' = resolve ld "SSL_connect" /\
  _SSL_do_handshake s' = resolve ld "SSL_do_handshake" /\
  _SSL_accept s' = resolve ld "SSL_accept" /\
  _SSL_get_client_random s' = resolve ld "SSL_get_client_random" /\
  _SSL_SESSION_get_master_key s' = resolve ld "SSL_SESSION_get_master_key" /\
  _SSL_get_session s' = resolve ld "SSL_get_session" /\
  _SSL_CTX_set_keylog_callback s' = resolve ld "SSL_CTX_set_keylog_callback".
Proof.
  cbv zeta.
  split; [reflexivity|]. split; [reflexivity|]. split; [reflexivity|].
  split; [reflexivity|]. split; [reflexivity|]. split; [reflexivity|].
  split; [reflexivity|]. split; [reflexivity|]. split; reflexivity.
Qed.

(** [KeyLogFile_init] assigns the descriptor and nothing else, and what it
    does depends on the descriptor and the kernel alone. *)
Lemma KeyLogFile_init_world_frame (w : World St) :
  let w' := KeyLogFile_init_world w in
  openssl_init_flag (shim w') = openssl_init_flag (shim w) /\
  _SSL_new (shim w') = _SSL_new (shim w) /\
  _SSL_connect (shim w') = _SSL_connect (shim w) /\
  _SSL_do_handshake (shim w') = _SSL_do_handshake (shim w) /\
  _SSL_accept (shim w') = _SSL_accept (shim w) /\
  _SSL_get_client_random (shim w') = _SSL_get_client_random (shim w) /\
  _SSL_SESSION_get_master_key (shim w') = _SSL_SESSION_get_master_key (shim w) /\
  _SSL_get_session (shim w') = _SSL_get_session (shim w) /\
  _SSL_CTX_set_keylog_callback (shim w') = _SSL_CTX_set_keylog_callback (shim w) /\
  keylog_ctx w' = keylog_ctx w /\
  lib w' = lib w.
Proof.
  cbv zeta. unfold KeyLogFile_init_world.
  destruct (0 <=? KeyLogFile_fd (shim w))%Z;
    [|destruct (environ (kernel w) "SSLKEYLOGFILE") as [name|]];
    (split; [reflexivity|]); (split; [reflexivity|]); (split; [reflexivity|]);
    (split; [reflexivity|]); (split; [reflexivity|]); (split; [reflexivity|]);
    (split; [reflexivity|]); (split; [reflexivity|]); (split; [reflexivity|]);
    split; reflexivity.
Qed.

Lemma KeyLogFile_init_world_same (w0 w : World St) :
  KeyLogFile_fd (shim w0) = KeyLogFile_fd (shim w) ->
  kernel w0 = kernel w ->
  KeyLogFile_fd (shim (KeyLogFile_init_world w0))
  = KeyLogFile_fd (shim (KeyLogFile_init_world w)) /\
  kernel (KeyLogFile_init_world w0) = kernel (KeyLogFile_init_world w).
Proof.
  intros Hfd Hk. unfold KeyLogFile_init_world. rewrite Hfd, Hk.
  destruct (0 <=? KeyLogFile_fd (shim w))%Z; [split; assumption|].
  destruct (environ (kernel w) "SSLKEYLOGFILE") as [name|];
    [split; reflexivity | split; assumption].
Qed.

(** [SSL_new] once [call_once] has returned. *)
Lemma SSL_new_after_init (ctx : ptr) (w : World St) :
  is_null (_SSL_new (shim w)) = false ->
  bind (get_shim (St := St)) (fun s =>
    bind (if negb (is_null (_SSL_CTX_set_keylog_callback s))
          then call_SSL_CTX_set_keylog_callback ctx else ret tt)
         (fun _ => call_SSL_new L ctx)) w
  = Returns (fst (real_SSL_new L ctx (lib w))) (SSL_new_world L ctx w).
Proof.
  intros Hn. unfold SSL_new_world. cbv zeta.
  unfold bind at 1. unfold get_shim at 1. unfold bind at 1.
  destruct (is_null (_SSL_CTX_set_keylog_callback (shim w))) eqn:Ecb; cbn [negb].
  - unfold ret at 1. unfold call_SSL_new. unfold bind at 1. unfold get_shim at 1.
    rewrite Hn. unfold bind, log. cbn [shim kernel keylog_ctx lib calls].
    destruct (real_SSL_new L ctx (lib w)) as [ssl st']. reflexivity.
  - unfold call_SSL_CTX_set_keylog_callback. unfold bind at 1. unfold get_shim at 1.
    rewrite Ecb. unfold bind at 1. unfold log at 1.
    unfold call_SSL_new. unfold bind at 1. unfold get_shim at 1.
    cbn [shim kernel keylog_ctx lib calls]. rewrite Hn.
    unfold bind, log. cbn [shim kernel keylog_ctx lib calls].
    destruct (real_SSL_new L ctx (lib w)) as [ssl st'].
    cbn [fst snd]. rewrite <- app_assoc. reflexivity.
Qed.

Lemma init_openssl_hooks_world_spec (w : World St) :
  let w' := init_openssl_hooks_world ld w in
  openssl_init_flag (shim w') = openssl_init_flag (shim w) /\
  _SSL_new (shim w') = resolve ld "SSL_new" /\
  _SSL_connect (shim w') = resolve ld "SSL_connect" /\
  _SSL_do_handshake (shim w') = resolve ld "SSL_do_handshake" /\
  _SSL_accept (shim w') = resolve ld "SSL_accept" /\
  _SSL_get_client_random (shim w') = resolve ld "SSL_get_client_random" /\
  _SSL_SESSION_get_master_key (shim w') = resolve ld "SSL_SESSION_get_master_key" /\
  _SSL_get_session (shim w') = resolve ld "SSL_get_session" /\
  _SSL_CTX_set_keylog_callback (shim w') = resolve ld "SSL_CTX_set_keylog_callback" /\
  KeyLogFile_fd (shim w') = KeyLogFile_fd (shim (KeyLogFile_init_world w)) /\
  kernel w' = kernel (KeyLogFile_init_world w) /\
  keylog_ctx w' = keylog_ctx w /\
  lib w' = lib w.
Proof.
  cbv zeta. unfold init_openssl_hooks_world.
  set (w0 := mkWorld _ _ _ _ _).
  pose proof (assigned_mandatory_steps (shim w)) as HA. cbv zeta in HA.
  change (with_SSL_CTX_set_keylog_callback _ _) with (shim w0) in HA.
  destruct HA as (A0 & A1 & A2 & A3 & A4 & A5 & A6 & A7 & A8 & A9).
  pose proof (KeyLogFile_init_world_frame w0) as HF. cbv zeta in HF.
  destruct HF as (F0 & F1 & F2 & F3 & F4 & F5 & F6 & F7 & F8 & F9 & F10).
  destruct (@KeyLogFile_init_world_same w0 w A1 eq_refl) as [S1 S2].
  split; [congruence|]. split; [congruence|]. split; [congruence|].
  split; [congruence|]. split; [congruence|]. split; [congruence|].
  split; [congruence|]. split; [congruence|]. split; [congruence|].
  split; [exact S1|]. split; [exact S2|]. split; [exact F9 | exact F10].
Qed.

Lemma with_init_flag_frame (b : bool) (s : Statics) :
  openssl_init_flag (with_init_flag b s) = b /\
  _SSL_new (with_init_flag b s) = _SSL_new s /\
  _SSL_connect (with_init_flag b s) = _SSL_connect s /\
  _SSL_do_handshake (with_init_flag b s) = _SSL_do_handshake s /\
  _SSL_accept (with_init_flag b s) = _SSL_accept s /\
  _SSL_get_client_random (with_init_flag b s) = _SSL_get_client_random s /\
  _SSL_SESSION_get_master_key (with_init_flag b s) = _SSL_SESSION_get_master_key s /\
  _SSL_get_session (with_init_flag b s) = _SSL_get_session s /\
  _SSL_CTX_set_keylog_callback (with_init_flag b s) = _SSL_CTX_set_keylog_callback s /\
  KeyLogFile_fd (with_init_flag b s) = KeyLogFile_fd s.
Proof. repeat split. Qed.

(** The first [SSL_new], given the world [W] a complete [init_openssl_hooks]
    leaves. *)
Lemma SSL_new_first_from (ctx : ptr) (w W : World St) :
  openssl_init_flag (shim w) = false ->
  init_openssl_hooks ld w = Returns tt W ->
  is_null (_SSL_new (shim W)) = false ->
  exists w',
    SSL_new L ld ctx w = Returns (fst (real_SSL_new L ctx (lib W))) w' /\
    shim w' = with_init_flag true (shim W) /\
    kernel w' = kernel W /\
    lib w' = snd (real_SSL_new L ctx (lib W)) /\
    keylog_ctx w'
    = (if is_null (_SSL_CTX_set_keylog_callback (shim W)) then keylog_ctx W
       else ctx :: keylog_ctx W).
Proof.
  intros Hf Hinit Hn.
  set (W2 := mkWorld (with_init_flag true (shim W)) (kernel W) (keylog_ctx W) (lib W)
               (calls W)).
  exists (SSL_new_world L ctx W2). split.
  - unfold SSL_new. unfold bind at 1. unfold call_once_init. unfold bind at 1.
    unfold get_shim at 1. rewrite Hf. unfold bind at 1. rewrite Hinit.
    unfold assign at 1. unfold bind at 1. unfold get_shim at 1. unfold set_shim at 1.
    apply (@SSL_new_after_init ctx W2). exact Hn.
  - unfold SSL_new_world, W2. cbv zeta. cbn [shim kernel keylog_ctx lib calls].
    split; [reflexivity|]. split; [reflexivity|]. split; [reflexivity|].
    unfold with_init_flag. cbn [_SSL_CTX_set_keylog_callback].
    destruct (is_null (_SSL_CTX_set_keylog_callback (shim W))); reflexivity.
Qed.

(** The first [SSL_new] of a process whose OpenSSL has the mandatory entry
    points, the lookup of the optional one not reaching [dlclose(NULL)]. *)
Lemma SSL_new_first_spec (ctx : ptr) (w : World St) :
  openssl_init_flag (shim w) = false ->
  all_resolved ld = true ->
  lookup_defined ld "SSL_CTX_set_keylog_callback" = true ->
  exists w',
    SSL_new L ld ctx w = Returns (fst (real_SSL_new L ctx (lib w))) w' /\
    openssl_init_flag (shim w') = true /\
    (_SSL_new (shim w') = resolve ld "SSL_new" /\
     _SSL_connect (shim w') = resolve ld "SSL_connect" /\
     _SSL_do_handshake (shim w') = resolve ld "SSL_do_handshake" /\
     _SSL_accept (shim w') = resolve ld "SSL_accept" /\
     _SSL_get_client_random (shim w') = resolve ld "SSL_get_client_random" /\
     _SSL_SESSION_get_master_key (shim w') = resolve ld "SSL_SESSION_get_master_key" /\
     _SSL_get_session (shim w') = resolve ld "SSL_get_session" /\
     _SSL_CTX_set_keylog_callback (shim w') = resolve ld "SSL_CTX_set_keylog_callback") /\
    resolved (shim w') /\
    KeyLogFile_fd (shim w') = KeyLogFile_fd (shim (KeyLogFile_init_world w)) /\
    kernel w' = kernel (KeyLogFile_init_world w) /\
    lib w' = snd (real_SSL_new L ctx (lib w)) /\
    keylog_ctx w'
    = (if is_null (resolve ld "SSL_CTX_set_keylog_callback") then keylog_ctx w
       else ctx :: keylog_ctx w).
Proof.
  intros Hf Hres Hdef.
  assert (Hnn : is_null (resolve ld "SSL_new") = false /\
                is_null (resolve ld "SSL_connect") = false /\
                is_null (resolve ld "SSL_do_handshake") = false /\
                is_null (resolve ld "SSL_accept") = false /\
                is_null (resolve ld "SSL_get_client_random") = false /\
                is_null (resolve ld "SSL_SESSION_get_master_key") = false /\
                is_null (resolve ld "SSL_get_session") = false).
  { pose proof Hres as H. unfold all_resolved, mandatory_steps in H.
    cbn [forallb fst] in H.
    repeat (apply andb_prop in H as [?H H]).
    repeat split; apply negb_true_iff; assumption. }
  destruct Hnn as (N1 & N2 & N3 & N4 & N5 & N6 & N7).
  pose proof (init_openssl_hooks_world_spec w) as HS. cbv zeta in HS.
  destruct HS as (S0 & P1 & P2 & P3 & P4 & P5 & P6 & P7 & P8 & Sfd & Sk & Sc & Sl).
  assert (Hn : is_null (_SSL_new (shim (init_openssl_hooks_world ld w))) = false)
    by (rewrite P1; exact N1).
  destruct (@SSL_new_first_from ctx w _ Hf (init_openssl_hooks_exact w Hres Hdef) Hn)
    as (w' & Hrun & Hs & Hk & Hl & Hc).
  destruct (with_init_flag_frame true (shim (init_openssl_hooks_world ld w)))
    as (I0 & I1 & I2 & I3 & I4 & I5 & I6 & I7 & I8 & I9).
  exists w'.
  split; [rewrite Hrun, Sl; reflexivity|].
  rewrite Hs, Hk, Hl, Hc.
  split; [exact I0|].
  split; [rewrite I1, I2, I3, I4, I5, I6, I7, I8; repeat split; assumption|].
  split; [unfold resolved; rewrite I1, I2, I3, I4, I5, I6, I7, P1, P2, P3, P4, P5, P6, P7;
          repeat split; assumption|].
  split; [rewrite I9; exact Sfd|]. split; [exact Sk|].
  split; [rewrite Sl; reflexivity|].
  rewrite P8, Sc. reflexivity.
Qed.

(** X3.  When the seven mandatory entry points resolve, the first [SSL_new]
    either initialises the shim or is killed while it looks for the optional
    entry point.  If [SSL_CTX_set_keylog_callback] is found after the shim or
    [libssl.so] can be loaded, [SSL_new] returns what the real [SSL_new]
    returns; each static pointer then holds the resolution of its own symbol,
    the log is in the state [KeyLogFile_init] leaves from the start-up
    kernel, and the context carries the key-log callback exactly when
    [SSL_CTX_set_keylog_callback] resolved: the capture mode is decided by
    that one symbol.  If it is not found after the shim and [libssl.so]
    cannot be loaded, [load_function] passes the null handle to [dlclose]
    and the first [SSL_new] does not return: hook mode is not reached. *)
Theorem X3_first_SSL_new (ctx : ptr) (w : World St) :
  openssl_init_flag (shim w) = false ->
  all_resolved ld = true ->
  (lookup_defined ld "SSL_CTX_set_keylog_callback" = true ->
   exists w',
     SSL_new L ld ctx w = Returns (fst (real_SSL_new L ctx (lib w))) w' /\
     openssl_init_flag (shim w') = true /\
     (_SSL_new (shim w') = resolve ld "SSL_new" /\
      _SSL_connect (shim w') = resolve ld "SSL_connect" /\
      _SSL_do_handshake (shim w') = resolve ld "SSL_do_handshake" /\
      _SSL_accept (shim w') = resolve ld "SSL_accept" /\
      _SSL_get_client_random (shim w') = resolve ld "SSL_get_client_random" /\
      _SSL_SESSION_get_master_key (shim w') = resolve ld "SSL_SESSION_get_master_key" /\
      _SSL_get_session (shim w') = resolve ld "SSL_get_session" /\
      _SSL_CTX_set_keylog_callback (shim w') = resolve ld "SSL_CTX_set_keylog_callback") /\
     resolved (shim w') /\
     KeyLogFile_fd (shim w') = KeyLogFile_fd (shim (KeyLogFile_init_world w)) /\
     kernel w' = kernel (KeyLogFile_init_world w) /\
     lib w' = snd (real_SSL_new L ctx (lib w)) /\
     keylog_ctx w'
     = (if is_null (resolve ld "SSL_CTX_set_keylog_callback") then keylog_ctx w
        else ctx :: keylog_ctx w)) /\
  (lookup_defined ld "SSL_CTX_set_keylog_callback" = false ->
   SSL_new L ld ctx w = Undefined).
Proof.
  intros Hf Hres. split; intros Hdef.
  - exact (@SSL_new_first_spec ctx w Hf Hres Hdef).
  - unfold SSL_new. unfold bind at 1. unfold call_once_init. unfold bind at 1.
    unfold get_shim at 1. rewrite Hf. unfold bind at 1.
    rewrite (init_openssl_hooks_undefined w Hres Hdef). reflexivity.
Qed.

(** X5.  Initialisation runs once: on an initialised shim [SSL_new] consults
    neither the linker nor the environment and opens nothing.  It registers
    the callback on the new context when the callback entry point is
    resolved, calls the real [SSL_new] and returns its value; the static
    variables and the kernel are as before. *)
Theorem X5_SSL_new_initialised (ctx : ptr) (w : World St) :
  openssl_init_flag (shim w) = true ->
  is_null (_SSL_new (shim w)) = false ->
  exists w',
    SSL_new L ld ctx w = Returns (fst (real_SSL_new L ctx (lib w))) w' /\
    shim w' = shim w /\
    kernel w' = kernel w /\
    lib w' = snd (real_SSL_new L ctx (lib w)) /\
    new_calls w w'
    = (if is_null (_SSL_CTX_set_keylog_callback (shim w)) then []
       else [C_SSL_CTX_set_keylog_callback ctx]) ++ [C_SSL_new ctx] /\
    keylog_ctx w'
    = (if is_null (_SSL_CTX_set_keylog_callback (shim w)) then keylog_ctx w
       else ctx :: keylog_ctx w).
Proof.
  intros Hf Hn.
  exists (SSL_new_world L ctx w).
  split.
  - unfold SSL_new. unfold bind at 1. unfold call_once_init. unfold bind at 1.
    unfold get_shim at 1. rewrite Hf. unfold ret at 1.
    apply SSL_new_after_init. exact Hn.
  - unfold SSL_new_world. cbv zeta. cbn [shim kernel keylog_ctx lib calls].
    split; [reflexivity|]. split; [reflexivity|]. split; [reflexivity|].
    destruct (is_null (_SSL_CTX_set_keylog_callback (shim w))); cbn [negb];
      (split; [apply new_calls_app|]); reflexivity.
Qed.

End FirstCall.

(** ** The callback path and the log file *)

Section CallbackPath.

Variable St : Type.
Variable L : Library St.
(** X6.  The handshake hooks do not initialise the shim.  While the entry
    points are unresolved, as they are until the first [SSL_new], each of the
    three hooks calls through a null function pointer: its behaviour is
    undefined, whatever the session. *)
Theorem X6_hook_before_SSL_new (h : Hook) (ssl : ptr) (w : World St) :
  is_null (_SSL_get_session (shim w)) = true ->
  is_null (_SSL_CTX_set_keylog_callback (shim w)) = true ->
  hooked L h ssl w = Undefined.
Proof.
  intros Hs Hcb.
  rewrite hooked_hook_mode by exact Hcb.
  unfold hook_path. unfold bind at 1. unfold call_SSL_get_session.
  unfold bind at 1. unfold get_shim at 1. rewrite Hs. reflexivity.
Qed.

Lemma file_append_app (path : string) (b1 b2 : list byte) (fs : list (string * list byte)) :
  file_append path b2 (file_append path b1 fs) = file_append path (b1 ++ b2) fs.
Proof.
  unfold file_append. rewrite map_map. apply map_ext. intros [p c]. cbn [fst snd].
  destruct (String.eqb p path) eqn:E; cbn [fst snd]; rewrite E;
    [rewrite app_assoc|]; reflexivity.
Qed.

Lemma file_append_nil (path : string) (fs : list (string * list byte)) :
  file_append path [] fs = fs.
Proof.
  unfold file_append. rewrite <- (map_id fs) at 2. apply map_ext. intros [p c].
  cbn [fst snd]. rewrite app_nil_r. destruct (String.eqb p path); reflexivity.
Qed.

Lemma after_write_open (path : string) (buf : list byte) (w : World St) :
  log_open path w ->
  after_write w buf
  = mkWorld (shim w)
      (mkKernel (environ (kernel w)) (openable (kernel w)) (fds (kernel w))
         (file_append path buf (files (kernel w))) (exit_handlers (kernel w)))
      (keylog_ctx w) (lib w)
      (calls w ++ [full_write (KeyLogFile_fd (shim w)) buf]).
Proof.
  intros [Ho Hp]. unfold after_write, kernel_write. rewrite Ho, Hp. reflexivity.
Qed.

Lemma log_open_nonneg (path : string) (w : World St) :
  log_open path w -> (0 <=? KeyLogFile_fd (shim w))%Z = true.
Proof.
  intros [Ho _]. unfold fd_is_open in Ho. apply andb_prop in Ho as [H _]. exact H.
Qed.

Lemma log_open_same (path : string) (w w' : World St) :
  shim w' = shim w -> fds (kernel w') = fds (kernel w) ->
  log_open path w -> log_open path w'.
Proof.
  intros Hs Hf [Ho Hp]. unfold log_open, fd_is_open, fd_path in *.
  rewrite Hs, Hf. split; assumption.
Qed.

(** The callback on an open log: every line reaches the file, followed by a
    newline, and nothing else of the kernel changes. *)
Lemma callbacks_world_open (path : string) (lines : list string) :
  forall w : World St,
    log_open path w ->
    shim (callbacks_world lines w) = shim w /\
    fds (kernel (callbacks_world lines w)) = fds (kernel w) /\
    exit_handlers (kernel (callbacks_world lines w)) = exit_handlers (kernel w) /\
    files (kernel (callbacks_world lines w))
    = file_append path (log_text lines) (files (kernel w)) /\
    calls (callbacks_world lines w)
    = calls w ++ map (full_write (KeyLogFile_fd (shim w))) (callback_writes lines).
Proof.
  induction lines as [|line lines IH]; intros w Ho.
  - cbn [callbacks_world log_text callback_writes flat_map map concat].
    rewrite file_append_nil, app_nil_r. repeat split.
  - cbn [callbacks_world]. rewrite (log_open_nonneg Ho).
    set (w1 := after_write w (list_byte_of_string line)).
    assert (Ho1 : log_open path w1).
    { apply (log_open_same (w := w)); [reflexivity| |exact Ho].
      unfold w1. rewrite (after_write_open _ Ho). reflexivity. }
    assert (Ho2 : log_open path (after_write w1 [x0a])).
    { apply (log_open_same (w := w1)); [reflexivity| |exact Ho1].
      rewrite (after_write_open _ Ho1). reflexivity. }
    destruct (IH _ Ho2) as (Hs & Hf & Hx & Hfi & Hc).
    rewrite Hs, Hf, Hx, Hfi, Hc.
    rewrite (after_write_open _ Ho1). unfold w1. rewrite (after_write_open _ Ho).
    cbn [shim kernel fds exit_handlers files calls].
    rewrite !file_append_app.
    cbn [log_text callback_writes flat_map map concat app].
    rewrite <- !app_assoc. repeat split.
Qed.

(** The initiator hooks in callback mode, on an open log. *)
Lemma hooked_callback_mode_log (h : Hook) (ssl : ptr) (path : string) (w : World St) :
  h <> H_accept ->
  CallbackMode w ->
  log_open path w ->
  exists w',
    hooked L h ssl w = Returns (hs_ret (real_handshake L h ssl (lib w))) w' /\
    new_calls w w'
    = handshake_call h ssl ::
      map (full_write (KeyLogFile_fd (shim w))) (callback_writes (secrets_of L h ssl w)) /\
    files (kernel w')
    = file_append path (log_text (secrets_of L h ssl w)) (files (kernel w)) /\
    fds (kernel w') = fds (kernel w) /\
    exit_handlers (kernel w') = exit_handlers (kernel w) /\
    shim w' = shim w /\
    log_open path w'.
Proof.
  intros Hh [Hres Hcb] Ho.
  exists (call_real_world L h ssl w).
  split; [rewrite hooked_callback_mode by assumption; apply call_real_spec; exact Hres|].
  unfold call_real_world. fold (secrets_of L h ssl w).
  set (w0 := mkWorld (shim w) (kernel w) (keylog_ctx w)
               (hs_state (real_handshake L h ssl (lib w)))
               (calls w ++ [handshake_call h ssl])).
  assert (Ho0 : log_open path w0) by exact Ho.
  destruct (callbacks_world_open (secrets_of L h ssl w) Ho0) as (Hs & Hf & Hx & Hfi & Hc).
  rewrite Hs, Hf, Hx, Hfi.
  split; [apply new_calls_app; rewrite Hc; unfold w0; cbn [calls shim];
          rewrite <- app_assoc; reflexivity|].
  repeat split.
  - unfold fd_is_open. rewrite Hs, Hf. apply Ho.
  - unfold fd_path. rewrite Hs, Hf. apply Ho.
Qed.

(** X7.  In callback mode, with the log open on [path], [SSL_connect] and
    [SSL_do_handshake] are the real call, and the log receives what the
    library hands to the callback: each line followed by a newline, in the
    library's order, appended to the file by two [write] calls a line.
    Nothing else is written, and the descriptor stays open. *)
Theorem X7_callback_mode_log (h : Hook) (ssl : ptr) (path : string) (w : World St) :
  h <> H_accept ->
  CallbackMode w ->
  log_open path w ->
  exists w',
    hooked L h ssl w = Returns (hs_ret (real_handshake L h ssl (lib w))) w' /\
    new_calls w w'
    = handshake_call h ssl ::
      map (full_write (KeyLogFile_fd (shim w))) (callback_writes (secrets_of L h ssl w)) /\
    files (kernel w')
    = file_append path (log_text (secrets_of L h ssl w)) (files (kernel w)) /\
    fds (kernel w') = fds (kernel w) /\
    exit_handlers (kernel w') = exit_handlers (kernel w) /\
    shim w' = shim w /\
    log_open path w'.
Proof. exact (@hooked_callback_mode_log h ssl path w). Qed.

(** X8.  [SSL_accept] has no callback-mode branch.  With the callback entry
    point resolved, a successful [SSL_accept] writes the lines the library
    hands to the callback and then, the master key having changed, the
    [CLIENT_RANDOM] line of the snapshot path as well: the secret is recorded
    by both mechanisms. *)
Theorem X8_accept_logs_twice (ssl : ptr) (w : World St) :
  CallbackMode w ->
  respects_outlen L ->
  hs_ret (real_SSL_accept L ssl (lib w)) = 1%Z ->
  exists w',
    SSL_accept L ssl w = Returns 1%Z w' /\
    lib w' = hs_state (real_SSL_accept L ssl (lib w)) /\
    writes_of (new_calls w w')
    = (if (0 <=? KeyLogFile_fd (shim w))%Z
       then callback_writes (secrets_of L H_accept ssl w) else [])
      ++ diff_writes L ssl (master_key_snapshot L ssl (lib w)) (lib w').
Proof.
  intros [Hres Hcb] Hlib Hret.
  change (real_SSL_accept L) with (real_handshake L H_accept) in *.
  exists (hook_path_world L H_accept ssl w).
  split; [change (SSL_accept L ssl w) with (hooked L H_accept ssl w); rewrite hooked_accept|].
  - rewrite <- Hret. apply hook_path_spec; assumption.
  - unfold hook_path_world. rewrite Hret. cbn [Z.eqb Pos.eqb].
    set (w0 := add_calls w (snapshot_calls L ssl (lib w))).
    set (w1 := call_real_world L H_accept ssl w0).
    assert (Hl1 : lib w1 = hs_state (real_handshake L H_accept ssl (lib w))).
    { unfold w1. rewrite lib_call_real_world. reflexivity. }
    assert (Hlw : lib (logging_key_world L ssl (master_key_snapshot L ssl (lib w)) w1)
                  = lib w1).
    { unfold logging_key_world.
      destruct (key_changed _ _) as [[|]|]; try reflexivity.
      destruct (cr_length _ =? 0)%N; reflexivity. }
    split; [rewrite Hlw; exact Hl1|].
    rewrite Hlw, Hl1.
    destruct (callbacks_world_writes (secrets_of L H_accept ssl w0)
                (mkWorld (shim w0) (kernel w0) (keylog_ctx w0)
                   (hs_state (real_handshake L H_accept ssl (lib w0)))
                   (calls w0 ++ [handshake_call H_accept ssl])))
      as (cs & Hc & _ & Hb).
    assert (Hcalls : calls w1 = calls w ++ snapshot_calls L ssl (lib w)
                                ++ C_SSL_accept ssl :: cs).
    { unfold w1, call_real_world. fold (secrets_of L H_accept ssl w0). rewrite Hc.
      unfold w0. cbn [add_calls calls handshake_call]. rewrite <- !app_assoc. reflexivity. }
    rewrite (@new_calls_app St w
               (logging_key_world L ssl (master_key_snapshot L ssl (lib w)) w1)
               (snapshot_calls L ssl (lib w) ++ C_SSL_accept ssl :: cs
                ++ logging_key_calls L ssl (master_key_snapshot L ssl (lib w)) w1)).
    2:{ rewrite calls_logging_key_world, Hcalls, <- !app_assoc. reflexivity. }
    rewrite writes_of_app. change (writes_of (snapshot_calls L ssl (lib w))) with (@nil (list byte)).
    cbn [app]. change (C_SSL_accept ssl :: cs ++ ?x) with ([C_SSL_accept ssl] ++ cs ++ x).
    rewrite !writes_of_app. change (writes_of [C_SSL_accept ssl]) with (@nil (list byte)).
    cbn [app]. rewrite Hb. cbn [shim]. f_equal.
    unfold logging_key_calls, diff_writes. rewrite Hl1.
    rewrite writes_of_app. change (writes_of (snapshot_calls L ssl _)) with (@nil (list byte)).
    cbn [app].
    destruct (key_changed _ _) as [[|]|]; try reflexivity.
    destruct (cr_length _ =? 0)%N; reflexivity.
Qed.

End CallbackPath.

(** ** The record of [KeyLogFile_raw_dump] *)

Section LineWriter.

Variable St : Type.

(** A hex loop that runs past the end of [value] reads outside the array. *)
Lemma dump_hex_overrun (value : list byte) (n : nat) :
  forall (i : nat) (line : list byte) (p : nat),
    i <= length value -> length value < i + n ->
    dump_hex value i n line p = None.
Proof.
  induction n as [|n IH]; intros i line p Hi Hn; [lia|].
  cbn [dump_hex].
  destruct (nth_error value i) as [v|] eqn:Ev; [|reflexivity].
  assert (i < length value) by (apply nth_error_Some; congruence).
  destruct (store line p (sprintf_02x v)) as [line'|]; [|reflexivity].
  apply IH; lia.
Qed.

Lemma raw_dump_line_overrun (client_random : SslClientRandom) (master_key : SslMasterKey) :
  length (cr_value client_random) = SSL3_RANDOM_SIZE ->
  length (mk_value master_key) = SSL_MAX_MASTER_KEY_LENGTH ->
  SSL3_RANDOM_SIZE < N.to_nat (cr_length client_random) \/
  SSL_MAX_MASTER_KEY_LENGTH < N.to_nat (mk_length master_key) ->
  raw_dump_line client_random master_key = None.
Proof.
  intros Hc Hm Hover. unfold raw_dump_line.
  destruct (store _ 0 _) as [line1|]; [|reflexivity].
  destruct (dump_hex (cr_value client_random) 0 _ line1 _) as [[line2 p2]|] eqn:E2;
    [|reflexivity].
  destruct (store line2 p2 _) as [line3|]; [|reflexivity].
  destruct (Nat.le_gt_cases (N.to_nat (cr_length client_random)) SSL3_RANDOM_SIZE)
    as [Hle|Hgt].
  - destruct Hover as [Hover|Hover]; [lia|].
    rewrite dump_hex_overrun; [reflexivity | lia | lia].
  - rewrite dump_hex_overrun in E2; [discriminate | lia | lia].
Qed.

(** X9.  [KeyLogFile_raw_dump] trusts the lengths it is given.  On two
    snapshots whose arrays have their declared capacity and whose lengths are
    not zero, it reads outside an array, and its behaviour is undefined,
    exactly when a length exceeds the capacity of its array; within the
    capacities it returns. *)
Theorem X9_raw_dump_bounds (client_random : SslClientRandom) (master_key : SslMasterKey)
    (w : World St) :
  length (cr_value client_random) = SSL3_RANDOM_SIZE ->
  length (mk_value master_key) = SSL_MAX_MASTER_KEY_LENGTH ->
  cr_length client_random <> 0%N ->
  mk_length master_key <> 0%N ->
  (KeyLogFile_raw_dump client_random master_key w = Undefined <->
   SSL3_RANDOM_SIZE < N.to_nat (cr_length client_random) \/
   SSL_MAX_MASTER_KEY_LENGTH < N.to_nat (mk_length master_key)) /\
  ((exists w', KeyLogFile_raw_dump client_random master_key w = Returns tt w') <->
   N.to_nat (cr_length client_random) <= SSL3_RANDOM_SIZE /\
   N.to_nat (mk_length master_key) <= SSL_MAX_MASTER_KEY_LENGTH).
Proof.
  intros Hc Hm Hcn Hmn.
  apply N.eqb_neq in Hcn. apply N.eqb_neq in Hmn.
  destruct (Nat.le_gt_cases (N.to_nat (cr_length client_random)) SSL3_RANDOM_SIZE)
    as [Hcle|Hcgt];
    [destruct (Nat.le_gt_cases (N.to_nat (mk_length master_key)) SSL_MAX_MASTER_KEY_LENGTH)
       as [Hmle|Hmgt]|].
  - rewrite (@KeyLogFile_raw_dump_spec St client_random master_key w (conj Hc Hcle)
               (conj Hm Hmle)).
    rewrite Hcn, Hmn. cbn [negb andb].
    split; split.
    + discriminate.
    + lia.
    + intros _. split; assumption.
    + intros _. eexists. reflexivity.
  - assert (Hu : KeyLogFile_raw_dump client_random master_key w = Undefined).
    { unfold KeyLogFile_raw_dump. rewrite Hcn, Hmn. cbn [negb andb]. unfold bind.
      rewrite raw_dump_line_overrun; [reflexivity | assumption | assumption | right; lia]. }
    rewrite Hu. split; split.
    + intros _. right. exact Hmgt.
    + reflexivity.
    + intros [w' E]. discriminate.
    + lia.
  - assert (Hu : KeyLogFile_raw_dump client_random master_key w = Undefined).
    { unfold KeyLogFile_raw_dump. rewrite Hcn, Hmn. cbn [negb andb]. unfold bind.
      rewrite raw_dump_line_overrun; [reflexivity | assumption | assumption | left; lia]. }
    rewrite Hu. split; split.
    + intros _. left. exact Hcgt.
    + reflexivity.
    + intros [w' E]. discriminate.
    + lia.
Qed.

Lemma hex_lower_clean (bs : list byte) :
  Forall (fun c => c <> x0a /\ c <> x00) (hex_lower bs).
Proof.
  eapply Forall_impl; [|apply hex_lower_digits].
  intros c Hin. cbn in Hin.
  repeat (destruct Hin as [<-|Hin]; [split; discriminate|]). contradiction.
Qed.

(** X10.  The record handed to [write] is one line of text: on snapshots of
    the data model the line is [16 + 2 * (n + m)] bytes long for a client
    random of [n] bytes and a master key of [m] bytes, it ends with a newline
    and contains no other newline and no NUL, the terminators that [sprintf]
    stores being overwritten or left beyond the length that is written. *)
Theorem X10_one_line_no_NUL (client_random : SslClientRandom) (master_key : SslMasterKey) :
  client_random_ok client_random ->
  master_key_ok master_key ->
  exists body,
    raw_dump_line client_random master_key = Some (body ++ [x0a]) /\
    Forall (fun c => c <> x0a /\ c <> x00) body /\
    length (body ++ [x0a])
    = 16 + 2 * (N.to_nat (cr_length client_random) + N.to_nat (mk_length master_key)).
Proof.
  intros Hc Hm. rewrite (raw_dump_line_spec Hc Hm).
  destruct Hc as [Hc1 Hc2]. destruct Hm as [Hm1 Hm2].
  set (r := firstn (N.to_nat (cr_length client_random)) (cr_value client_random)).
  set (k := firstn (N.to_nat (mk_length master_key)) (mk_value master_key)).
  exists (list_byte_of_string "CLIENT_RANDOM " ++ hex_lower r
            ++ list_byte_of_string " " ++ hex_lower k).
  split; [unfold KeyLogLine; rewrite <- !app_assoc; reflexivity|].
  split.
  - apply Forall_app. split.
    + repeat (constructor; [split; discriminate|]). constructor.
    + apply Forall_app. split; [apply hex_lower_clean|].
      apply Forall_app. split; [|apply hex_lower_clean].
      constructor; [split; discriminate | constructor].
  - rewrite !length_app, !hex_lower_length.
    assert (Hr : length r = N.to_nat (cr_length client_random))
      by (unfold r; rewrite length_firstn; lia).
    assert (Hk : length k = N.to_nat (mk_length master_key))
      by (unfold k; rewrite length_firstn; lia).
    rewrite Hr, Hk.
    change (length (list_byte_of_string "CLIENT_RANDOM ")) with 14.
    change (length (list_byte_of_string " ")) with 1.
    cbn [length]. lia.
Qed.

End LineWriter.

(** ** The log is opened at most once *)

Section OpenOnce.

Variable St : Type.
Variable L : Library St.
Variable ld : Linker.

Lemma quiet_call_not_open (fd : Z) (cs : list Call) :
  forallb (quiet_call fd) cs = true -> filter is_open cs = [].
Proof.
  induction cs as [|c cs IH]; [reflexivity|].
  cbn [forallb filter]. intros H. apply andb_prop in H as [Hc Hcs].
  destruct c; try discriminate; cbn [is_open]; auto.
Qed.

Lemma opened_once_init_stable (k0 : Kernel) (w w' : World St) :
  opened_once_init k0 w -> quiet_step w w' -> opened_once_init k0 w'.
Proof.
  intros (Henv & Hopen & Hfiles) (Hs & _ & He & _ & _ & Hfi & cs & Hc & Hq).
  unfold opened_once_init.
  rewrite Hs, He, Hc, filter_app, (quiet_call_not_open _ _ Hq), app_nil_r.
  split; [exact Henv|]. split; [exact Hopen|].
  intros Hneg. rewrite (Hfi Hneg). exact (Hfiles Hneg).
Qed.

Lemma opened_once_stable (k0 : Kernel) (w w' : World St) :
  opened_once k0 w -> quiet_step w w' -> opened_once k0 w'.
Proof.
  intros [Hi Hflag] Hq. split; [exact (opened_once_init_stable Hi Hq)|].
  destruct Hq as (Hs & _ & _ & _ & _ & _ & cs & Hc & Hq).
  rewrite Hs, Hc, filter_app, (quiet_call_not_open _ _ Hq), app_nil_r. exact Hflag.
Qed.

Lemma opened_once_KeyLogFile_init (k0 : Kernel) :
  hoare (before_init (opened_once k0))
        (KeyLogFile_init (St := St)) (fun _ => opened_once_init k0) (opened_once k0).
Proof.
  intros w [[(Henv & Hopen & Hfiles) Hflag] Hf].
  destruct (Hflag Hf) as [Hnone Hfd].
  rewrite KeyLogFile_init_exact. unfold KeyLogFile_init_world.
  rewrite Hfd. cbn [Z.leb Z.compare].
  destruct (environ (kernel w) "SSLKEYLOGFILE") as [name|] eqn:En.
  - unfold opened_once_init, kernel_atexit, kernel_open.
    cbn [shim kernel calls with_KeyLogFile_fd KeyLogFile_fd].
    rewrite filter_app, Hnone.
    destruct (openable (kernel w) name);
      cbn [fst snd environ files filter is_open app].
    + split; [rewrite En; exact Henv|]. split.
      * right. exists name. split; [symmetry; exact Henv | reflexivity].
      * intros Hneg. pose proof (fresh_fd_nonneg (kernel w)). lia.
    + split; [rewrite En; exact Henv|]. split.
      * right. exists name. split; [symmetry; exact Henv | reflexivity].
      * intros _. apply Hfiles. rewrite Hfd. lia.
  - unfold opened_once_init, add_calls. cbn [shim kernel calls].
    rewrite filter_app, Hnone. cbn [filter is_open app].
    split; [rewrite En; exact Henv|]. split; [left; split; [reflexivity | exact Hfd]|].
    exact Hfiles.
Qed.

Lemma opened_once_run (k0 : Kernel) (ops : list Op) :
  hoare (opened_once k0) (run L ld ops) (fun _ => opened_once k0) (opened_once k0).
Proof.
  apply hoare_run with (I' := opened_once_init k0).
  - apply opened_once_stable.
  - apply hoare_init_openssl_hooks.
    + apply opened_once_stable.
    + intros upd w Hf Hd H. unfold opened_once, opened_once_init in *.
      cbn [shim kernel calls]. rewrite Hf, Hd. exact H.
    + apply opened_once_KeyLogFile_init.
  - intros w H. split; [exact H|].
    cbn [shim with_init_flag openssl_init_flag]. discriminate.
  - intros w ctx H _ _. exact H.
Qed.

Lemma opened_once_World_init (k : Kernel) (st : St) : opened_once k (World_init k st).
Proof.
  unfold opened_once, opened_once_init, World_init.
  cbn [shim kernel calls Statics_init KeyLogFile_fd environ files filter].
  repeat split; try reflexivity. left. split; reflexivity.
Qed.

(** X11.  The log file is opened at most once in the life of the process,
    whatever the application calls and however often: [open] is called at
    most once, on the path [SSLKEYLOGFILE] had at start-up, and
    [KeyLogFile_fd] holds what that call returned from then on.  A failed
    [open] is not tried again, and as long as the descriptor is negative no
    file is created or changed. *)
Theorem X11_log_opened_once (k : Kernel) (st : St) (ops : list Op) :
  match run L ld ops (World_init k st) with
  | Returns _ w | Aborted w =>
      (filter is_open (calls w) = [] /\ KeyLogFile_fd (shim w) = (-1)%Z \/
       exists path,
         environ k "SSLKEYLOGFILE" = Some path /\
         filter is_open (calls w) = [C_open path (KeyLogFile_fd (shim w))]) /\
      ((KeyLogFile_fd (shim w) < 0)%Z -> files (kernel w) = files k)
  | Undefined => True
  end.
Proof.
  pose proof (@opened_once_run k ops (World_init k st) (opened_once_World_init k st)) as Hrun.
  destruct (run L ld ops (World_init k st)) as [[] w| w|]; [| |exact I];
    destruct Hrun as [(_ & Hopen & Hfiles) _]; split; assumption.
Qed.

End OpenOnce.

(** ** From process start to the log file *)

Section EndToEnd.

Variable St : Type.
Variable L : Library St.
Variable ld : Linker.

(** [KeyLogFile_init] with a path that can be opened. *)
Lemma KeyLogFile_init_world_opens (path : string) (w : World St) :
  (KeyLogFile_fd (shim w) < 0)%Z ->
  environ (kernel w) "SSLKEYLOGFILE" = Some path ->
  openable (kernel w) path = true ->
  KeyLogFile_fd (shim (KeyLogFile_init_world w)) = fresh_fd (kernel w) /\
  kernel (KeyLogFile_init_world w)
  = mkKernel (environ (kernel w)) (openable (kernel w))
      ((fresh_fd (kernel w), path) :: fds (kernel w))
      (file_create path (files (kernel w)))
      (H_KeyLogFile_finalize :: exit_handlers (kernel w)).
Proof.
  intros Hfd Henv Hopen. unfold KeyLogFile_init_world.
  destruct (Z.leb_spec 0 (KeyLogFile_fd (shim w))); [lia|].
  rewrite Henv. unfold kernel_open, kernel_atexit. rewrite Hopen.
  cbn [fst snd shim kernel environ openable fds files exit_handlers].
  split; reflexivity.
Qed.

Lemma log_open_fresh (path : string) (w : World St) (k : Kernel) :
  KeyLogFile_fd (shim w) = fresh_fd k ->
  fds (kernel w) = (fresh_fd k, path) :: fds k ->
  log_open path w.
Proof.
  intros Hfd Hfds. unfold log_open, fd_is_open, fd_path.
  rewrite Hfd, Hfds. cbn [existsb find fst snd]. rewrite Z.eqb_refl.
  cbn [orb option_map snd]. split; [|reflexivity].
  apply andb_true_iff. split; [|reflexivity].
  apply Z.leb_le. apply fresh_fd_nonneg.
Qed.

(** X12.  End to end, in callback mode.  In a process that has not yet
    called [SSL_new], whose OpenSSL has the mandatory entry points and
    [SSL_CTX_set_keylog_callback], and whose [SSLKEYLOGFILE] names a file
    that can be opened: after [SSL_new(ctx)] and [SSL_connect(ssl)] on a
    session of that context, the file exists and has received exactly the
    lines the library derived during the handshake, each followed by a
    newline; the log descriptor is the one [open] returned, and one exit
    handler is registered. *)
Theorem X12_callback_mode_end_to_end (ctx ssl : ptr) (path : string) (w : World St) :
  openssl_init_flag (shim w) = false ->
  (KeyLogFile_fd (shim w) < 0)%Z ->
  all_resolved ld = true ->
  is_null (resolve ld "SSL_CTX_set_keylog_callback") = false ->
  environ (kernel w) "SSLKEYLOGFILE" = Some path ->
  openable (kernel w) path = true ->
  real_SSL_get_SSL_CTX L ssl (snd (real_SSL_new L ctx (lib w))) = ctx ->
  exists w',
    run L ld [Op_SSL_new ctx; Op_SSL_connect ssl] w = Returns tt w' /\
    files (kernel w')
    = file_append path
        (log_text (hs_secrets (real_SSL_connect L ssl (snd (real_SSL_new L ctx (lib w))))))
        (file_create path (files (kernel w))) /\
    KeyLogFile_fd (shim w') = fresh_fd (kernel w) /\
    fd_path (KeyLogFile_fd (shim w')) (kernel w') = Some path /\
    exit_handlers (kernel w') = H_KeyLogFile_finalize :: exit_handlers (kernel w).
Proof.
  intros Hf Hneg Hres Hcb Henv Hopen Hctx.
  destruct (@SSL_new_first_spec St L ld ctx w Hf Hres
              (resolve_lookup_defined ld "SSL_CTX_set_keylog_callback" Hcb))
    as (w1 & Hrun1 & Hflag1 & Hptrs & Hres1 & Hfd1 & Hk1 & Hl1 & Hc1).
  destruct Hptrs as (_ & _ & _ & _ & _ & _ & _ & P8).
  destruct (@KeyLogFile_init_world_opens path w Hneg Henv Hopen) as [Kfd Kk].
  rewrite Kfd in Hfd1. rewrite Kk in Hk1. rewrite Hcb in Hc1.
  assert (Hfds1 : fds (kernel w1) = (fresh_fd (kernel w), path) :: fds (kernel w))
    by (rewrite Hk1; reflexivity).
  assert (Hfiles1 : files (kernel w1) = file_create path (files (kernel w)))
    by (rewrite Hk1; reflexivity).
  assert (Hx1 : exit_handlers (kernel w1) = H_KeyLogFile_finalize :: exit_handlers (kernel w))
    by (rewrite Hk1; reflexivity).
  pose proof (@log_open_fresh path w1 (kernel w) Hfd1 Hfds1) as Ho1.
  assert (Hmode : CallbackMode w1) by (split; [exact Hres1 | rewrite P8; exact Hcb]).
  assert (Hne : H_connect <> H_accept) by discriminate.
  destruct (@hooked_callback_mode_log St L H_connect ssl path w1 Hne Hmode Ho1)
    as (w2 & Hrun2 & _ & Hfiles2 & Hfds2 & Hx2 & Hs2 & Ho2).
  assert (Hsec : secrets_of L H_connect ssl w1
                 = hs_secrets (real_SSL_connect L ssl (snd (real_SSL_new L ctx (lib w))))).
  { unfold secrets_of. rewrite Hl1, Hc1, Hctx. cbn [existsb real_handshake].
    rewrite Z.eqb_refl. reflexivity. }
  rewrite Hsec in Hfiles2.
  exists w2. split.
  - unfold run. cbn [for_each do_op]. unfold bind at 1. unfold bind at 1.
    rewrite Hrun1. unfold ret at 1. unfold bind at 1. unfold bind at 1.
    change (SSL_connect L ssl w1) with (hooked L H_connect ssl w1).
    rewrite Hrun2. reflexivity.
  - split; [rewrite Hfiles2, Hfiles1; reflexivity|].
    split; [rewrite Hs2; exact Hfd1|].
    split; [apply Ho2|].
    rewrite Hx2. exact Hx1.
Qed.

(** X13.  End to end, in hook mode.  In a process that has not yet called
    [SSL_new], whose OpenSSL has the mandatory entry points but not
    [SSL_CTX_set_keylog_callback], whose [libssl.so] can be loaded, so that
    the search for the missing entry point closes a handle that is not null,
    and whose [SSLKEYLOGFILE] names a file that can be opened: after
    [SSL_new(ctx)] and a successful [SSL_connect(ssl)], the file exists and
    has received the record of the new master key, or nothing when the master
    key did not change or the client random could not be read. *)
Theorem X13_hook_mode_end_to_end (ctx ssl : ptr) (path : string) (w : World St) :
  openssl_init_flag (shim w) = false ->
  (KeyLogFile_fd (shim w) < 0)%Z ->
  keylog_ctx w = [] ->
  all_resolved ld = true ->
  is_null (resolve ld "SSL_CTX_set_keylog_callback") = true ->
  is_null (dlopen ld "libssl.so") = false ->
  environ (kernel w) "SSLKEYLOGFILE" = Some path ->
  openable (kernel w) path = true ->
  respects_outlen L ->
  hs_ret (real_SSL_connect L ssl (snd (real_SSL_new L ctx (lib w)))) = 1%Z ->
  exists w',
    run L ld [Op_SSL_new ctx; Op_SSL_connect ssl] w = Returns tt w' /\
    files (kernel w')
    = file_append path
        (concat (diff_writes L ssl
                   (master_key_snapshot L ssl (snd (real_SSL_new L ctx (lib w))))
                   (hs_state (real_SSL_connect L ssl (snd (real_SSL_new L ctx (lib w)))))))
        (file_create path (files (kernel w))) /\
    KeyLogFile_fd (shim w') = fresh_fd (kernel w) /\
    exit_handlers (kernel w') = H_KeyLogFile_finalize :: exit_handlers (kernel w).
Proof.
  intros Hf Hneg Hnoctx Hres Hcb Hlibssl Henv Hopen Hlib Hret.
  destruct (@SSL_new_first_spec St L ld ctx w Hf Hres
              (lookup_defined_dlopen ld "SSL_CTX_set_keylog_callback" Hlibssl))
    as (w1 & Hrun1 & Hflag1 & Hptrs & Hres1 & Hfd1 & Hk1 & Hl1 & Hc1).
  destruct Hptrs as (_ & _ & _ & _ & _ & _ & _ & P8).
  destruct (@KeyLogFile_init_world_opens path w Hneg Henv Hopen) as [Kfd Kk].
  rewrite Kfd in Hfd1. rewrite Kk in Hk1. rewrite Hcb, Hnoctx in Hc1.
  assert (Hfds1 : fds (kernel w1) = (fresh_fd (kernel w), path) :: fds (kernel w))
    by (rewrite Hk1; reflexivity).
  assert (Hfiles1 : files (kernel w1) = file_create path (files (kernel w)))
    by (rewrite Hk1; reflexivity).
  assert (Hx1 : exit_handlers (kernel w1) = H_KeyLogFile_finalize :: exit_handlers (kernel w))
    by (rewrite Hk1; reflexivity).
  destruct (@log_open_fresh path w1 (kernel w) Hfd1 Hfds1) as [Ho1 Hp1].
  assert (Hmode : HookMode w1)
    by (split; [exact Hres1 | split; [rewrite P8; exact Hcb | exact Hc1]]).
  destruct (@hooked_hook_mode_spec St L H_connect ssl w1 Hmode Hlib) as [Hrun2 _].
  cbn [real_handshake] in Hrun2. rewrite Hl1, Hret in Hrun2.
  exists (hook_path_world L H_connect ssl w1). split.
  - unfold run. cbn [for_each do_op]. unfold bind at 1. unfold bind at 1.
    rewrite Hrun1. unfold ret at 1. unfold bind at 1. unfold bind at 1.
    change (SSL_connect L ssl w1) with (hooked L H_connect ssl w1).
    rewrite Hrun2. reflexivity.
  - rewrite (hook_path_world_hook_mode L H_connect ssl w1 Hc1). cbv zeta.
    cbn [real_handshake]. rewrite Hl1, Hret. cbn [Z.eqb Pos.eqb].
    set (st2 := hs_state (real_SSL_connect L ssl (snd (real_SSL_new L ctx (lib w))))).
    unfold logging_key_world, diff_writes. cbn [lib].
    destruct (key_changed _ (master_key_snapshot L ssl st2)) as [[|]|];
      [destruct (cr_length (client_random_snapshot L ssl st2) =? 0)%N|..];
      unfold after_write, add_calls; cbn [shim kernel concat app];
      rewrite ?file_append_nil, ?app_nil_r.
    + split; [exact Hfiles1 | split; [exact Hfd1 | exact Hx1]].
    + unfold kernel_write. rewrite Ho1, Hp1. cbn [snd files exit_handlers].
      split; [rewrite Hfiles1; reflexivity | split; [exact Hfd1 | exact Hx1]].
    + split; [exact Hfiles1 | split; [exact Hfd1 | exact Hx1]].
    + split; [exact Hfiles1 | split; [exact Hfd1 | exact Hx1]].
Qed.

End EndToEnd.

(** ** After [KeyLogFile_finalize] *)

Section AfterExit.

Variable St : Type.

(** X14.  [KeyLogFile_finalize] closes the log but leaves [KeyLogFile_fd] as
    it is.  After it has run on an open log the descriptor is closed and the
    files are as they were; [KeyLogFile_init] then finds the variable
    non-negative and does not open the log again; and a line the library
    hands to [KeyLogFile_callback] afterwards is passed to two [write] calls
    that both fail: the line is lost and no file changes. *)
Theorem X14_after_finalize (ssl : ptr) (line : string) (w : World St) :
  fd_is_open (KeyLogFile_fd (shim w)) (kernel w) = true ->
  exists w1 w2,
    KeyLogFile_finalize w = Returns tt w1 /\
    shim w1 = shim w /\
    files (kernel w1) = files (kernel w) /\
    fd_is_open (KeyLogFile_fd (shim w1)) (kernel w1) = false /\
    KeyLogFile_init w1 = Returns tt w1 /\
    KeyLogFile_callback ssl line w1 = Returns tt w2 /\
    new_calls w1 w2
    = [C_write (KeyLogFile_fd (shim w)) (list_byte_of_string line) (-1);
       C_write (KeyLogFile_fd (shim w)) [x0a] (-1)] /\
    kernel w2 = kernel w1.
Proof.
  intros Ho.
  assert (Hpos : (0 <=? KeyLogFile_fd (shim w))%Z = true).
  { unfold fd_is_open in Ho. apply andb_prop in Ho as [H _]. exact H. }
  set (fd := KeyLogFile_fd (shim w)) in *.
  set (k1 := snd (kernel_close fd (kernel w))).
  assert (Hclosed : fd_is_open fd k1 = false) by apply fd_is_open_after_close.
  assert (Hw : forall buf, kernel_write fd buf k1 = ((-1)%Z, k1)).
  { intros buf. unfold kernel_write. rewrite Hclosed. reflexivity. }
  set (w1 := mkWorld (shim w) k1 (keylog_ctx w) (lib w)
               (calls w ++ [C_close fd (fst (kernel_close fd (kernel w)))])).
  exists w1,
    (mkWorld (shim w) k1 (keylog_ctx w) (lib w)
       (calls w1 ++ [C_write fd (list_byte_of_string line) (-1);
                     C_write fd [x0a] (-1)])).
  split.
  { unfold KeyLogFile_finalize. unfold bind at 1. unfold get_shim at 1. fold fd.
    rewrite Hpos. unfold bind, sys_close, ret. fold fd.
    destruct (kernel_close fd (kernel w)) as [r k'] eqn:E.
    reflexivity. }
  split; [reflexivity|].
  split.
  { unfold w1, k1, kernel_close. cbn [kernel]. rewrite Ho. reflexivity. }
  split; [exact Hclosed|].
  split.
  { unfold KeyLogFile_init. unfold bind at 1. unfold get_shim at 1.
    unfold w1 at 1. cbn [shim]. fold fd. rewrite Hpos. reflexivity. }
  split.
  { unfold KeyLogFile_callback. unfold bind at 1. unfold get_shim at 1.
    unfold w1 at 1. cbn [shim]. fold fd. rewrite Hpos.
    unfold bind, sys_write, ret. unfold w1 at 1 2. cbn [shim kernel]. fold fd.
    rewrite Hw. cbn [shim kernel keylog_ctx lib calls]. rewrite Hw.
    cbn [shim kernel keylog_ctx lib calls]. rewrite <- app_assoc. reflexivity. }
  split; [apply new_calls_app; reflexivity | reflexivity].
Qed.

End AfterExit.

(** * The further properties on concrete runs *)

Lemma X2_witness :
  openssl_init_flag (shim (World_init Toy.kernel_on 0)) = false /\
  all_resolved Toy.ld_stub = false /\
  is_null (dlopen Toy.ld_stub "libssl.so") = false /\
  (exists w',
     SSL_new Toy.library Toy.ld_stub 1%Z (World_init Toy.kernel_on 0) = Aborted w' /\
     kernel w' = kernel (World_init Toy.kernel_on 0) /\
     openssl_init_flag (shim w') = false) /\
  all_resolved Toy.ld_none = false /\
  is_null (dlopen Toy.ld_none "libssl.so") = true /\
  SSL_new Toy.library Toy.ld_none 1%Z (World_init Toy.kernel_on 0) = Undefined.
Proof.
  split; [reflexivity|]. split; [reflexivity|]. split; [reflexivity|].
  split; [|split; [reflexivity|split; [reflexivity|]]].
  - destruct (@X2_SSL_new_aborts nat Toy.library Toy.ld_stub 1%Z
                (World_init Toy.kernel_on 0) eq_refl eq_refl) as [Habort _].
    destruct (Habort eq_refl) as (w' & cs & Hrun & Hk & _ & _ & Hf & _).
    exists w'. split; [exact Hrun | split; assumption].
  - destruct (@X2_SSL_new_aborts nat Toy.library Toy.ld_none 1%Z
                (World_init Toy.kernel_on 0) eq_refl eq_refl) as [_ Hkill].
    exact (Hkill eq_refl).
Defined.

Lemma X3_witness :
  openssl_init_flag (shim (World_init Toy.kernel_on 0)) = false /\
  all_resolved Toy.ld_111 = true /\
  lookup_defined Toy.ld_111 "SSL_CTX_set_keylog_callback" = true /\
  (exists w',
     SSL_new Toy.library Toy.ld_111 1%Z (World_init Toy.kernel_on 0) = Returns 101%Z w' /\
     openssl_init_flag (shim w') = true /\
     KeyLogFile_fd (shim w') = 3%Z /\
     keylog_ctx w' = [1%Z]) /\
  all_resolved Toy.ld_110_static = true /\
  lookup_defined Toy.ld_110_static "SSL_CTX_set_keylog_callback" = false /\
  SSL_new Toy.library Toy.ld_110_static 1%Z (World_init Toy.kernel_on 0) = Undefined.
Proof.
  split; [reflexivity|]. split; [reflexivity|]. split; [reflexivity|].
  split; [|split; [reflexivity|split; [reflexivity|]]].
  - destruct (@X3_first_SSL_new nat Toy.library Toy.ld_111 1%Z
                (World_init Toy.kernel_on 0) eq_refl eq_refl) as [Hret _].
    destruct (Hret eq_refl) as (w' & Hrun & Hf & _ & _ & Hfd & _ & _ & Hc).
    exists w'. split; [exact Hrun|]. split; [exact Hf|]. split; [exact Hfd | exact Hc].
  - destruct (@X3_first_SSL_new nat Toy.library Toy.ld_110_static 1%Z
                (World_init Toy.kernel_on 0) eq_refl eq_refl) as [_ Hkill].
    exact (Hkill eq_refl).
Defined.

Lemma X5_witness :
  openssl_init_flag (shim Toy.callback_world) = true /\
  is_null (_SSL_new (shim Toy.callback_world)) = false /\
  exists w',
    SSL_new Toy.library Toy.ld_none 2%Z Toy.callback_world = Returns 102%Z w' /\
    new_calls Toy.callback_world w' = [C_SSL_CTX_set_keylog_callback 2%Z; C_SSL_new 2%Z].
Proof.
  split; [reflexivity|]. split; [reflexivity|].
  destruct (@X5_SSL_new_initialised nat Toy.library Toy.ld_none 2%Z Toy.callback_world
              eq_refl eq_refl)
    as (w' & Hrun & _ & _ & _ & Hcalls & _).
  exists w'. split; [exact Hrun | exact Hcalls].
Defined.

Lemma X6_witness :
  is_null (_SSL_get_session (shim (World_init Toy.kernel_on 0))) = true /\
  is_null (_SSL_CTX_set_keylog_callback (shim (World_init Toy.kernel_on 0))) = true /\
  hooked Toy.library H_connect 101%Z (World_init Toy.kernel_on 0) = Undefined.
Proof.
  split; [reflexivity|]. split; [reflexivity|].
  apply (@X6_hook_before_SSL_new nat Toy.library H_connect 101%Z
           (World_init Toy.kernel_on 0)); reflexivity.
Defined.

Lemma X7_witness :
  CallbackMode Toy.callback_world /\
  log_open "/tmp/keys.log" Toy.callback_world /\
  exists w',
    hooked Toy.library H_connect 101%Z Toy.callback_world = Returns 1%Z w' /\
    files (kernel w')
    = [("/tmp/keys.log"%string, list_byte_of_string "CLIENT_RANDOM 00 11" ++ [x0a])].
Proof.
  assert (Ho : log_open "/tmp/keys.log" Toy.callback_world) by (split; reflexivity).
  assert (Hne : H_connect <> H_accept) by discriminate.
  split; [exact toy_callback_mode|]. split; [exact Ho|].
  destruct (@X7_callback_mode_log nat Toy.library H_connect 101%Z "/tmp/keys.log"
              Toy.callback_world Hne toy_callback_mode Ho)
    as (w' & Hrun & _ & Hfiles & _).
  exists w'. split.
  - rewrite Hrun. vm_compute. reflexivity.
  - rewrite Hfiles. vm_compute. reflexivity.
Defined.

Lemma X8_witness :
  CallbackMode Toy.callback_world /\
  respects_outlen Toy.library /\
  hs_ret (real_SSL_accept Toy.library 102%Z (lib Toy.callback_world)) = 1%Z /\
  exists w',
    SSL_accept Toy.library 102%Z Toy.callback_world = Returns 1%Z w' /\
    writes_of (new_calls Toy.callback_world w')
    = [list_byte_of_string "CLIENT_RANDOM 00 11"; [x0a]; list_byte_of_string example_line].
Proof.
  split; [exact toy_callback_mode|]. split; [exact toy_respects_outlen|].
  split; [reflexivity|].
  destruct (@X8_accept_logs_twice nat Toy.library 102%Z Toy.callback_world
              toy_callback_mode toy_respects_outlen eq_refl)
    as (w' & Hrun & Hlib & Hwrites).
  exists w'. split; [exact Hrun|].
  rewrite Hwrites, Hlib. vm_compute. reflexivity.
Defined.

Lemma X9_witness :
  length (cr_value Toy.example_client_random) = SSL3_RANDOM_SIZE /\
  length (mk_value Toy.example_master_key) = SSL_MAX_MASTER_KEY_LENGTH /\
  exists w',
    KeyLogFile_raw_dump Toy.example_client_random Toy.example_master_key Toy.hook_world
    = Returns tt w'.
Proof.
  split; [reflexivity|]. split; [reflexivity|].
  assert (Hc : cr_length Toy.example_client_random <> 0%N) by discriminate.
  assert (Hm : mk_length Toy.example_master_key <> 0%N) by discriminate.
  destruct (@X9_raw_dump_bounds nat Toy.example_client_random Toy.example_master_key
              Toy.hook_world eq_refl eq_refl Hc Hm) as [_ [_ Hret]].
  apply Hret. split; cbv; lia.
Defined.

Lemma X10_witness :
  client_random_ok Toy.example_client_random /\
  master_key_ok Toy.example_master_key /\
  exists body,
    raw_dump_line Toy.example_client_random Toy.example_master_key = Some (body ++ [x0a]) /\
    length (body ++ [x0a]) = 176.
Proof.
  assert (Hc : client_random_ok Toy.example_client_random)
    by (split; [reflexivity | cbv; lia]).
  assert (Hm : master_key_ok Toy.example_master_key)
    by (split; [reflexivity | cbv; lia]).
  split; [exact Hc|]. split; [exact Hm|].
  destruct (@X10_one_line_no_NUL Toy.example_client_random Toy.example_master_key Hc Hm)
    as (body & Hl & _ & Hlen).
  exists body. split; [exact Hl | exact Hlen].
Defined.

Lemma X12_witness :
  all_resolved Toy.ld_111 = true /\
  environ (kernel (World_init Toy.kernel_on 0)) "SSLKEYLOGFILE" = Some "/tmp/keys.log"%string /\
  exists w',
    run Toy.library Toy.ld_111 [Op_SSL_new 1%Z; Op_SSL_connect 101%Z]
      (World_init Toy.kernel_on 0) = Returns tt w' /\
    files (kernel w')
    = [("/tmp/keys.log"%string, list_byte_of_string "CLIENT_RANDOM 00 11" ++ [x0a])] /\
    KeyLogFile_fd (shim w') = 3%Z.
Proof.
  split; [reflexivity|]. split; [reflexivity|].
  destruct (@X12_callback_mode_end_to_end nat Toy.library Toy.ld_111 1%Z 101%Z
              "/tmp/keys.log" (World_init Toy.kernel_on 0)
              eq_refl eq_refl eq_refl eq_refl eq_refl eq_refl eq_refl)
    as (w' & Hrun & Hfiles & Hfd & _).
  exists w'. split; [exact Hrun|]. split.
  - rewrite Hfiles. vm_compute. reflexivity.
  - rewrite Hfd. vm_compute. reflexivity.
Defined.

Lemma X13_witness :
  all_resolved Toy.ld_110 = true /\
  is_null (resolve Toy.ld_110 "SSL_CTX_set_keylog_callback") = true /\
  is_null (dlopen Toy.ld_110 "libssl.so") = false /\
  respects_outlen Toy.library /\
  exists w',
    run Toy.library Toy.ld_110 [Op_SSL_new 1%Z; Op_SSL_connect 101%Z]
      (World_init Toy.kernel_on 0) = Returns tt w' /\
    files (kernel w') = [("/tmp/keys.log"%string, list_byte_of_string example_line)].
Proof.
  split; [reflexivity|]. split; [reflexivity|]. split; [reflexivity|].
  split; [exact toy_respects_outlen|].
  destruct (@X13_hook_mode_end_to_end nat Toy.library Toy.ld_110 1%Z 101%Z
              "/tmp/keys.log" (World_init Toy.kernel_on 0)
              eq_refl eq_refl eq_refl eq_refl eq_refl eq_refl eq_refl eq_refl
              toy_respects_outlen eq_refl)
    as (w' & Hrun & Hfiles & _).
  exists w'. split; [exact Hrun|].
  rewrite Hfiles. vm_compute. reflexivity.
Defined.

Lemma X14_witness :
  fd_is_open (KeyLogFile_fd (shim Toy.hook_world)) (kernel Toy.hook_world) = true /\
  exists w1 w2,
    KeyLogFile_finalize Toy.hook_world = Returns tt w1 /\
    fd_is_open (KeyLogFile_fd (shim w1)) (kernel w1) = false /\
    KeyLogFile_callback 101%Z "CLIENT_RANDOM 00 11" w1 = Returns tt w2 /\
    kernel w2 = kernel w1.
Proof.
  split; [reflexivity|].
  destruct (@X14_after_finalize nat 101%Z "CLIENT_RANDOM 00 11" Toy.hook_world eq_refl)
    as (w1 & w2 & Hfin & _ & _ & Hclosed & _ & Hcb & _ & Hk).
  exists w1, w2. split; [exact Hfin|]. split; [exact Hclosed|]. split; [exact Hcb | exact Hk].
Defined.
